(** * easygit: the [sync] command

    A shallow embedding of [src/commands/sync.js] (class [SyncCommand]) and
    of the auto-stash label of [src/commands/switch.js].

    The methods of [SyncCommand] are asynchronous and talk to three outside
    parties: the [gitRepo] object that [gitRepoGetter] returns (a
    [GitRepository], with its raw [git] handle), the user ([inquirer]
    prompts, console output) and the file system (the offline queue).  Every
    call to such a party is recorded as an [Event] together with its
    outcome; a method is a function from the history of events so far to
    its own outcome and the events it adds.  [await] is sequencing: the
    command is one logical flow of control.

    Conventions of the embedding:
    - the answers of the parties are arbitrary functions of the history
      ([Oracle]), so a statement proved for every [Env] holds whatever git,
      the user and the disk do;
    - [gitRepoGetter] is a function, as the constructor's parameter says,
      and returns the same object during one invocation;
    - the text of the queue file is identified with the JSON value it
      denotes ([FileText]);
    - chalk colouring is left out, the text of every console line is kept.

    Around the command, the development also embeds what it calls and what
    calls it: the wrappers of [src/core/git-repository.js] that [sync] and
    [switch] use, with the [preAction] hook of the entry script that creates
    the repository object (module [Repo]), and the error analysis of
    [src/core/error-handler.js] that receives what [sync] throws (module
    [ErrorHandler]). *)

From Stdlib Require Import String Ascii ZArith List Bool Lia DecimalString.
From Stdlib Require DecimalZ.
Import ListNotations.
Local Open Scope list_scope.
Local Open Scope string_scope.
Set Warnings "-register-all".

(** ** JavaScript values used by the command *)

Module Js.

(** An [Error] object: its constructor name and its [message]. *)
Record Error := mkErr { errName : string; errMessage : string }.

Definition newError (message : string) : Error := mkErr "Error" message.
Definition TypeError (message : string) : Error := mkErr "TypeError" message.
Definition SyntaxError (message : string) : Error := mkErr "SyntaxError" message.

(** Reading an identifier that no enclosing scope binds. *)
Definition ReferenceError (identifier : string) : Error :=
  mkErr "ReferenceError" (identifier ++ " is not defined").

(** The double-quote and the newline characters, as strings. *)
Definition dq : string := String (ascii_of_nat 34) EmptyString.
Definition nl : string := String (ascii_of_nat 10) EmptyString.

(** [s.includes(sub)] *)
Fixpoint includes (s sub : string) : bool :=
  if String.prefix sub s then true
  else match s with
       | EmptyString => false
       | String _ rest => includes rest sub
       end.

(** [names.join(sep)] *)
Definition join (sep : string) (names : list string) : string :=
  String.concat sep names.

(** Truthiness of a string: only the empty string is falsy. *)
Definition truthy (s : string) : bool :=
  match s with EmptyString => false | String _ _ => true end.

(** Interpolation of an integer into a template literal. *)
Definition numToString (n : Z) : string := NilZero.string_of_int (Z.to_int n).

(** [x || 0] for a numeric field that may be [undefined]. *)
Definition orZero (x : option Z) : Z :=
  match x with
  | Some n => if (n =? 0)%Z then 0%Z else n
  | None => 0%Z
  end.

(** JSON values. *)
Inductive Json :=
| JNull
| JBool (b : bool)
| JNum (n : Z)
| JStr (s : string)
| JArr (items : list Json)
| JObj (fields : list (string * Json)).

(** The text of a file, seen through [JSON.parse]: either text that is
    not JSON at all, or the text of a JSON value.  [JSON.stringify]
    produces the latter, and parsing it gives the value back. *)
Inductive FileText :=
| Unparsable (raw : string)
| Parsed (value : Json).

Definition JSON_stringify (value : Json) : FileText := Parsed value.

(** The result of a call: a value, or a thrown error. *)
Inductive Outcome (A : Type) :=
| Returned (a : A)
| Thrown (e : Error).
Arguments Returned {A} a.
Arguments Thrown {A} e.

Definition isThrown {A} (r : Outcome A) : bool :=
  match r with Thrown _ => true | Returned _ => false end.

End Js.
Import Js.

(** ** Records of sync.js and of the adapter *)

(** The options object commander passes to the action. *)
Module Options.
Record t := mk {
  remote : string;             (* -r, default 'origin' *)
  branch : option string;      (* -b, undefined when absent *)
  rebase : bool;
  merge : bool;
  force : bool;
  forceWithLease : bool;
  dryRun : bool;
  allowUnrelated : bool
}.

Definition flag (key : string) (b : bool) : list (string * Json) :=
  if b then [(key, JBool true)] else [].

(** The object as [JSON.stringify] writes it: absent keys are dropped. *)
Definition toJson (o : t) : Json :=
  JObj ([("remote", JStr (remote o))]
        ++ match branch o with Some b => [("branch", JStr b)] | None => [] end
        ++ flag "rebase" (rebase o) ++ flag "merge" (merge o)
        ++ flag "force" (force o) ++ flag "forceWithLease" (forceWithLease o)
        ++ flag "dryRun" (dryRun o) ++ flag "allowUnrelated" (allowUnrelated o))%list.
End Options.

(** An entry of [simple-git]'s [getRemotes(true)]. *)
Module RemoteInfo.
Record t := mk { name : string; fetchUrl : string; pushUrl : string }.
End RemoteInfo.

(** What [getStatus()] returns, as far as sync.js reads it. *)
Module StatusResult.
Record t := mk { ahead : option Z; behind : option Z; isClean : bool }.
End StatusResult.

(** The [GitRepository] object: the two fields sync.js reads directly. *)
Module GitRepository.
Record t := mk { isInitialized : bool; workingDir : string }.
Definition isRepository (r : t) : bool := isInitialized r.
End GitRepository.

(** The object built by [analyzeBranchState]. *)
Module BranchState.
Record t := mk {
  currentBranch : string;
  remote : string;
  remoteBranch : string;
  hasRemoteBranch : bool;
  ahead : Z;
  behind : Z;
  hasUncommittedChanges : bool;
  status : string
}.
End BranchState.

(** ** Events: the calls the command makes, with their outcomes *)

Inductive Event :=
| EGetCurrentBranch (r : Outcome string)
| EGetRemotes (r : Outcome (list RemoteInfo.t))
| EGitRaw (args : list string) (r : Outcome string)
| EFetch (remote : string) (r : Outcome unit)
| EGetStatus (r : Outcome StatusResult.t)
| EGetBranches (r : Outcome (list string))
| EStash (message : string) (r : Outcome unit)
| EStashPop (r : Outcome unit)
| EGitPush (args : list string) (r : Outcome unit)
| EPush (remote branch : string) (r : Outcome unit)
| EGitRebase (args : list string) (r : Outcome unit)
| EGitMerge (args : list string) (r : Outcome unit)
| EPromptList (message : string) (r : Outcome string)
| EPromptConfirm (message : string) (r : Outcome bool)
| EConfigGetSyncStrategy (r : Outcome string)
| EMkdir (path : string) (r : Outcome unit)
| EReadFile (path : string) (r : Outcome FileText)
| EWriteFile (path : string) (data : FileText) (r : Outcome unit)
| ELog (line : string)
| EWarn (line : string).

Definition Trace := list Event.

(** How a party answers a call, given everything that happened before. *)
Definition Oracle (A : Type) := Trace -> Outcome A.

(** The world one invocation runs in. *)
Record Env := mkEnv {
  gitRepo : option GitRepository.t;       (* gitRepoGetter(): null or the object *)
  globalOptions : option Options.t;       (* a global variable named options, if any *)
  homedir : string;                       (* os.homedir() *)
  dateISO : string;                       (* new Date().toISOString() *)
  dateNow : Z;                            (* Date.now() *)
  files0 : string -> option FileText;     (* the files when the invocation starts *)
  getCurrentBranch_ : Oracle string;
  getRemotes_ : Oracle (list RemoteInfo.t);
  gitRaw_ : list string -> Oracle string;
  fetch_ : string -> Oracle unit;
  getStatus_ : Oracle StatusResult.t;
  getBranches_ : Oracle (list string);    (* the [all] field of the summary *)
  stash_ : string -> Oracle unit;
  stashPop_ : Oracle unit;
  gitPush_ : list string -> Oracle unit;
  push_ : string -> string -> Oracle unit;
  gitRebase_ : list string -> Oracle unit;
  gitMerge_ : list string -> Oracle unit;
  promptList_ : string -> Oracle string;
  promptConfirm_ : string -> Oracle bool;
  configGetSyncStrategy_ : Oracle string;
  mkdir_ : string -> Oracle unit;
  readFails_ : string -> Trace -> option Error;   (* an I/O error on read, if any *)
  writeFails_ : string -> Trace -> option Error   (* an I/O error on write, if any *)
}.

(** ** The monad of asynchronous methods *)

(** A method maps the history to its outcome and the events it emits. *)
Definition M (A : Type) := Trace -> Outcome A * Trace.

Definition ret {A} (a : A) : M A := fun _ => (Returned a, []).

Definition throw {A} (e : Error) : M A := fun _ => (Thrown e, []).

Definition bind {A B} (m : M A) (k : A -> M B) : M B :=
  fun h =>
    let '(r, d1) := m h in
    match r with
    | Returned a => let '(r2, d2) := k a (h ++ d1)%list in (r2, (d1 ++ d2)%list)
    | Thrown e => (Thrown e, d1)
    end.

(** [try { m } catch (error) { handler error }] *)
Definition try_catch {A} (m : M A) (handler : Error -> M A) : M A :=
  fun h =>
    let '(r, d1) := m h in
    match r with
    | Returned a => (Returned a, d1)
    | Thrown e => let '(r2, d2) := handler e (h ++ d1)%list in (r2, (d1 ++ d2)%list)
    end.

(** [try { m } finally { fin }]: the [finally] block always runs; when it
    throws, its error replaces the outcome of [m]. *)
Definition try_finally {A} (m : M A) (fin : M unit) : M A :=
  fun h =>
    let '(r, d1) := m h in
    let '(r2, d2) := fin (h ++ d1)%list in
    (match r2 with Thrown e2 => Thrown e2 | Returned _ => r end, (d1 ++ d2)%list).

Declare Scope js_scope.
Delimit Scope js_scope with js.
Notation "x <- m ;; k" := (bind m (fun x => k))
  (at level 100, m at next level, right associativity) : js_scope.
Notation "m ;; k" := (bind m (fun _ => k))
  (at level 100, right associativity) : js_scope.
Local Open Scope js_scope.

(** Asking a party: the answer is recorded in the event. *)
Definition ask {A} (o : Oracle A) (event : Outcome A -> Event) : M A :=
  fun h => let r := o h in (r, [event r]).

Definition emit (e : Event) : M unit := fun _ => (Returned tt, [e]).

(** The outcome and the events of a run from a given history. *)
Definition outcome {A} (m : M A) (h : Trace) : Outcome A := fst (m h).
Definition events {A} (m : M A) (h : Trace) : Trace := snd (m h).

(** ** The file system, as the history determines it *)

(** The text of [path] after the events [h]: the last successful write,
    or what the file held when the invocation started. *)
Definition fileAt (files : string -> option FileText) (h : Trace) (path : string)
  : option FileText :=
  fold_left
    (fun cur e =>
       match e with
       | EWriteFile p data (Returned _) => if p =? path then Some data else cur
       | _ => cur
       end)
    h (files path).

(** ** class SyncCommand *)

Section SyncCommand.

Variable env : Env.

(** *** The outside parties *)

(** [this.gitRepo.<member>]: a [TypeError] when the getter gave [null]. *)
Definition onRepo {A} (member : string) (m : GitRepository.t -> M A) : M A :=
  match gitRepo env with
  | Some repo => m repo
  | None => throw (TypeError ("Cannot read properties of null (reading '" ++ member ++ "')"))
  end.

Definition getCurrentBranch : M string :=
  onRepo "getCurrentBranch" (fun _ => ask (getCurrentBranch_ env) EGetCurrentBranch).
Definition getRemotes : M (list RemoteInfo.t) :=
  onRepo "getRemotes" (fun _ => ask (getRemotes_ env) EGetRemotes).
Definition gitRaw (args : list string) : M string :=
  onRepo "git" (fun _ => ask (gitRaw_ env args) (EGitRaw args)).
Definition fetch (remote : string) : M unit :=
  onRepo "fetch" (fun _ => ask (fetch_ env remote) (EFetch remote)).
Definition getStatus : M StatusResult.t :=
  onRepo "getStatus" (fun _ => ask (getStatus_ env) EGetStatus).
Definition getBranches : M (list string) :=
  onRepo "getBranches" (fun _ => ask (getBranches_ env) EGetBranches).
Definition stash (message : string) : M unit :=
  onRepo "stash" (fun _ => ask (stash_ env message) (EStash message)).
Definition stashPop : M unit :=
  onRepo "stashPop" (fun _ => ask (stashPop_ env) EStashPop).
Definition gitPush (args : list string) : M unit :=
  onRepo "git" (fun _ => ask (gitPush_ env args) (EGitPush args)).
Definition push (remote branch : string) : M unit :=
  onRepo "push" (fun _ => ask (push_ env remote branch) (EPush remote branch)).
Definition gitRebase (args : list string) : M unit :=
  onRepo "git" (fun _ => ask (gitRebase_ env args) (EGitRebase args)).
Definition gitMerge (args : list string) : M unit :=
  onRepo "git" (fun _ => ask (gitMerge_ env args) (EGitMerge args)).

Definition promptList (message : string) : M string :=
  ask (promptList_ env message) (EPromptList message).
Definition promptConfirm (message : string) : M bool :=
  ask (promptConfirm_ env message) (EPromptConfirm message).
(** [new ConfigManager().getSyncStrategy()], taken as one call: what the
    manager does inside (it reads its configuration files) is not broken
    down into events of its own. *)
Definition configGetSyncStrategy : M string :=
  ask (configGetSyncStrategy_ env) EConfigGetSyncStrategy.

(** [console.log] and [console.warn]; chalk only colours the text. *)
Definition log (line : string) : M unit := emit (ELog line).
Definition warn (line : string) : M unit := emit (EWarn line).

Definition mkdir (path : string) : M unit := ask (mkdir_ env path) (EMkdir path).

(** [fs.readFile]: an I/O error, or [ENOENT] for a missing file, or the text. *)
Definition readFile (path : string) : M FileText :=
  ask (fun h =>
         match readFails_ env path h with
         | Some e => Thrown e
         | None =>
             match fileAt (files0 env) h path with
             | Some text => Returned text
             | None => Thrown (newError ("ENOENT: no such file or directory, open '" ++ path ++ "'"))
             end
         end)
      (EReadFile path).

Definition writeFile (path : string) (data : FileText) : M unit :=
  ask (fun h =>
         match writeFails_ env path h with
         | Some e => Thrown e
         | None => Returned tt
         end)
      (EWriteFile path data).

Definition JSON_parse (text : FileText) : M Json :=
  match text with
  | Parsed value => ret value
  | Unparsable _ => throw (SyntaxError "Unexpected token in JSON")
  end.

(** [queue.push(operation)]: only an array has [push]. *)
Definition arrayPush (queue operation : Json) : M Json :=
  match queue with
  | JArr items => ret (JArr (items ++ [operation])%list)
  | JNull => throw (TypeError "Cannot read properties of null (reading 'push')")
  | _ => throw (TypeError "queue.push is not a function")
  end.

(** The identifier [options] where no parameter or local of that name is
    in scope: the global of that name, else a [ReferenceError]. *)
Definition freeIdentifier_options : M Options.t :=
  match globalOptions env with
  | Some o => ret o
  | None => throw (ReferenceError "options")
  end.

(** *** queueSyncOperation (sync.js 97-129) *)

(** [path.join(os.homedir(), '.easygit', 'sync-queue.json')] and its
    [path.dirname]. *)
Definition queueDir : string := homedir env ++ "/.easygit".
Definition queueFile : string := queueDir ++ "/sync-queue.json".

Definition mkOperation (workingDir branch : string) (options : Options.t) : Json :=
  JObj [("timestamp", JStr (dateISO env));
        ("workingDir", JStr workingDir);
        ("branch", JStr branch);
        ("options", Options.toJson options);
        ("id", JStr (numToString (dateNow env)))].

Definition queueWarning : string := "Warning: Could not queue sync operation".

Definition queueSyncOperation (options : Options.t) : M unit :=
  try_catch
    (mkdir queueDir ;;
     queue <- try_catch
                (existing <- readFile queueFile ;; JSON_parse existing)
                (fun _ => ret (JArr [])) ;;
     workingDir <- onRepo "workingDir" (fun repo => ret (GitRepository.workingDir repo)) ;;
     branch <- getCurrentBranch ;;
     let operation := mkOperation workingDir branch options in
     queue <- arrayPush queue operation ;;
     writeFile queueFile (JSON_stringify queue) ;;
     log "✓ Sync operation queued" ;;
     log ("💡 Run " ++ dq ++ "easygit sync --process-queue" ++ dq
            ++ " when online to execute queued operations"))
    (fun _ => warn queueWarning).

(** *** checkNetworkConnectivity (sync.js 70-95) *)

Definition remoteNotFound (remote : string) (remotes : list RemoteInfo.t) : Error :=
  newError ("Remote " ++ dq ++ remote ++ dq ++ " not found. Available remotes: "
              ++ join ", " (map RemoteInfo.name remotes)).

Definition isNetworkError (error : Error) : bool :=
  includes (errMessage error) "Could not resolve hostname"
  || includes (errMessage error) "Connection refused"
  || includes (errMessage error) "Network is unreachable".

Definition checkNetworkConnectivity (remote : string) : M unit :=
  try_catch
    (remotes <- getRemotes ;;
     match find (fun r => RemoteInfo.name r =? remote) remotes with
     | None => throw (remoteNotFound remote remotes)
     | Some _ => _ <- gitRaw ["ls-remote"; "--heads"; remote] ;; ret tt
     end)
    (fun error =>
       if isNetworkError error then
         log "⚠️  Network connectivity issue detected." ;;
         log "   Your sync operation will be queued for when connectivity is restored." ;;
         options <- freeIdentifier_options ;;
         queueSyncOperation options
       else throw error).

(** *** determineSyncStatus and analyzeBranchState (sync.js 131-184) *)

Definition determineSyncStatus (ahead behind : Z) (hasRemoteBranch : bool) : string :=
  if negb hasRemoteBranch then "new-branch"
  else if (ahead =? 0)%Z && (behind =? 0)%Z then "up-to-date"
  else if (ahead >? 0)%Z && (behind =? 0)%Z then "ahead"
  else if (ahead =? 0)%Z && (behind >? 0)%Z then "behind"
  else if (ahead >? 0)%Z && (behind >? 0)%Z then "diverged"
  else "unknown".

(** [branches.all.includes(remoteBranch)] *)
Definition listIncludes (all : list string) (x : string) : bool :=
  existsb (fun b => b =? x) all.

(** The object returned at lines 147-156, from the two answers awaited. *)
Definition branchStateOf (currentBranch remote : string)
           (status : StatusResult.t) (all : list string) : BranchState.t :=
  let ahead := orZero (StatusResult.ahead status) in
  let behind := orZero (StatusResult.behind status) in
  let remoteBranch := remote ++ "/" ++ currentBranch in
  let hasRemoteBranch := listIncludes all remoteBranch in
  let hasUncommittedChanges := negb (StatusResult.isClean status) in
  BranchState.mk currentBranch remote remoteBranch hasRemoteBranch
    ahead behind hasUncommittedChanges
    (determineSyncStatus ahead behind hasRemoteBranch).

Definition analyzeBranchState (currentBranch remote : string) : M BranchState.t :=
  try_catch
    (status <- getStatus ;;
     all <- getBranches ;;
     ret (branchStateOf currentBranch remote status all))
    (fun error =>
       throw (newError ("Failed to analyze branch state: " ++ errMessage error))).

(** *** getSyncStrategy (sync.js 461-469) *)

Definition getSyncStrategy (options : Options.t) : M string :=
  if Options.rebase options then ret "rebase"
  else if Options.merge options then ret "merge"
  else configGetSyncStrategy.

(** *** showDryRun (sync.js 186-227) *)

Definition stashPlanLine : string := "  • Stash uncommitted changes before sync".
Definition restorePlanLine : string := "  • Restore stashed changes after sync".

Definition showDryRun (branchState : BranchState.t) (options : Options.t) : M unit :=
  let st := BranchState.status branchState in
  log (nl ++ "🔍 Dry run - showing what would be executed:" ++ nl) ;;
  log "Repository State:" ;;
  log ("  Current branch: " ++ BranchState.currentBranch branchState) ;;
  log ("  Remote: " ++ BranchState.remote branchState) ;;
  log ("  Status: " ++ st) ;;
  log ("  Ahead: " ++ numToString (BranchState.ahead branchState) ++ " commits") ;;
  log ("  Behind: " ++ numToString (BranchState.behind branchState) ++ " commits") ;;
  log ("  Uncommitted changes: "
         ++ (if BranchState.hasUncommittedChanges branchState then "Yes" else "No")) ;;
  log (nl ++ "Planned Actions:") ;;
  (if st =? "up-to-date" then
     log "  • No action needed - branch is up to date"
   else if st =? "ahead" then
     log ("  • Push " ++ numToString (BranchState.ahead branchState)
            ++ " commits to " ++ BranchState.remoteBranch branchState)
   else if st =? "behind" then
     strategy <- getSyncStrategy options ;;
     log ("  • " ++ (if strategy =? "rebase" then "Rebase" else "Merge") ++ " "
            ++ numToString (BranchState.behind branchState)
            ++ " commits from " ++ BranchState.remoteBranch branchState)
   else if st =? "diverged" then
     log "  • Handle diverged history (requires user intervention)"
   else if st =? "new-branch" then
     log ("  • Create new remote branch " ++ BranchState.remoteBranch branchState) ;;
     log ("  • Push " ++ numToString (BranchState.ahead branchState) ++ " commits")
   else ret tt) ;;
  if BranchState.hasUncommittedChanges branchState then
    log stashPlanLine ;;
    log restorePlanLine
  else ret tt.

(** *** The handlers of the five states (sync.js 277-459) *)

Definition handleUpToDate (branchState : BranchState.t) : M unit :=
  log "✓ Branch is already up to date" ;;
  log ("   " ++ BranchState.currentBranch branchState ++ " is synchronized with "
         ++ BranchState.remoteBranch branchState).

Definition handleAhead (branchState : BranchState.t) (options : Options.t) : M unit :=
  let remote := BranchState.remote branchState in
  let currentBranch := BranchState.currentBranch branchState in
  log ("⬆️  Pushing " ++ numToString (BranchState.ahead branchState) ++ " commits to "
         ++ BranchState.remoteBranch branchState ++ "...") ;;
  try_catch
    ((if Options.force options then
        log "⚠️  Force pushing (this can overwrite remote history)" ;;
        gitPush [remote; currentBranch; "--force"]
      else if Options.forceWithLease options then
        log "⚠️  Force pushing with lease (safer force push)" ;;
        gitPush [remote; currentBranch; "--force-with-lease"]
      else
        push remote currentBranch) ;;
     log "✓ Successfully pushed changes")
    (fun error =>
       if includes (errMessage error) "rejected"
          && includes (errMessage error) "non-fast-forward" then
         log "❌ Push rejected - remote has new commits" ;;
         log ("💡 Run " ++ dq ++ "easygit sync" ++ dq
                ++ " again to pull and merge remote changes") ;;
         throw (newError "Push rejected due to remote changes")
       else throw error).

Definition handleBehind (branchState : BranchState.t) (options : Options.t) : M unit :=
  strategy <- getSyncStrategy options ;;
  log ("⬇️  " ++ (if strategy =? "rebase" then "Rebasing" else "Merging") ++ " "
         ++ numToString (BranchState.behind branchState) ++ " commits from "
         ++ BranchState.remoteBranch branchState ++ "...") ;;
  try_catch
    ((if strategy =? "rebase" then
        gitRebase [BranchState.remoteBranch branchState]
      else
        gitMerge [BranchState.remoteBranch branchState]) ;;
     log ("✓ Successfully " ++ (if strategy =? "rebase" then "rebased" else "merged")
            ++ " remote changes"))
    (fun error =>
       if includes (errMessage error) "CONFLICT" then
         log "⚠️  Merge conflicts detected" ;;
         log ("💡 Use " ++ dq ++ "easygit resolve" ++ dq
                ++ " to resolve conflicts interactively") ;;
         throw (newError "Merge conflicts need to be resolved")
       else throw error).

Definition handleRebaseDiverged (branchState : BranchState.t) : M unit :=
  try_catch
    (log "🔄 Rebasing local commits on top of remote..." ;;
     gitRebase [BranchState.remoteBranch branchState] ;;
     log "⬆️  Pushing rebased commits..." ;;
     push (BranchState.remote branchState) (BranchState.currentBranch branchState) ;;
     log "✓ Successfully rebased and pushed")
    (fun error =>
       if includes (errMessage error) "CONFLICT" then
         log "⚠️  Rebase conflicts detected" ;;
         log ("💡 Resolve conflicts and run " ++ dq ++ "git rebase --continue" ++ dq) ;;
         log ("   Or run " ++ dq ++ "git rebase --abort" ++ dq ++ " to cancel the rebase") ;;
         throw (newError "Rebase conflicts need to be resolved")
       else throw error).

Definition handleMergeDiverged (branchState : BranchState.t) : M unit :=
  try_catch
    (log "🔀 Merging remote changes..." ;;
     gitMerge [BranchState.remoteBranch branchState] ;;
     log "⬆️  Pushing merge commit..." ;;
     push (BranchState.remote branchState) (BranchState.currentBranch branchState) ;;
     log "✓ Successfully merged and pushed")
    (fun error =>
       if includes (errMessage error) "CONFLICT" then
         log "⚠️  Merge conflicts detected" ;;
         log ("💡 Use " ++ dq ++ "easygit resolve" ++ dq
                ++ " to resolve conflicts interactively") ;;
         throw (newError "Merge conflicts need to be resolved")
       else throw error).

Definition handleForcePushDiverged (branchState : BranchState.t) : M unit :=
  log "⚠️  WARNING: Force push will overwrite remote history!" ;;
  log "   This may cause data loss for other team members." ;;
  confirmed <- promptConfirm "Are you absolutely sure you want to force push?" ;;
  if negb confirmed then throw (newError "Force push cancelled by user")
  else
    try_catch
      (log "💥 Force pushing with lease..." ;;
       gitPush [BranchState.remote branchState; BranchState.currentBranch branchState;
                "--force-with-lease"] ;;
       log "✓ Force push completed" ;;
       log "⚠️  Notify your team about the history rewrite")
      (fun error =>
         if includes (errMessage error) "stale info" then
           throw (newError ("Force push rejected - remote has newer commits. "
                              ++ "Someone else pushed while you were working."))
         else throw error).

Definition handleDiverged (branchState : BranchState.t) (options : Options.t) : M unit :=
  log "⚠️  Branch has diverged from remote" ;;
  log ("   Local: " ++ numToString (BranchState.ahead branchState) ++ " commits ahead") ;;
  log ("   Remote: " ++ numToString (BranchState.behind branchState) ++ " commits behind") ;;
  strategy <- promptList "How would you like to resolve the diverged history?" ;;
  if strategy =? "rebase" then handleRebaseDiverged branchState
  else if strategy =? "merge" then handleMergeDiverged branchState
  else if strategy =? "force" then handleForcePushDiverged branchState
  else if strategy =? "cancel" then throw (newError "Sync cancelled by user")
  else ret tt.

Definition handleNewBranch (branchState : BranchState.t) (options : Options.t) : M unit :=
  log ("🌟 Creating new remote branch " ++ BranchState.remoteBranch branchState ++ "...") ;;
  try_catch
    (gitPush [BranchState.remote branchState; BranchState.currentBranch branchState; "-u"] ;;
     log "✓ Successfully created remote branch and pushed commits" ;;
     log ("   Upstream tracking set to " ++ BranchState.remoteBranch branchState))
    (fun error =>
       throw (newError ("Failed to create remote branch: " ++ errMessage error))).

(** *** executeSyncStrategy (sync.js 229-275) *)

Definition autoStashLabel : string := "easygit-sync-auto-stash".

(** The decision taken at line 232. *)
Definition shouldStash (branchState : BranchState.t) : bool :=
  BranchState.hasUncommittedChanges branchState
  && negb (BranchState.status branchState =? "ahead").

(** The [switch] inside the [try] block: the bracketed step. *)
Definition syncSwitch (branchState : BranchState.t) (options : Options.t) : M unit :=
  let st := BranchState.status branchState in
  if st =? "up-to-date" then handleUpToDate branchState
  else if st =? "ahead" then handleAhead branchState options
  else if st =? "behind" then handleBehind branchState options
  else if st =? "diverged" then handleDiverged branchState options
  else if st =? "new-branch" then handleNewBranch branchState options
  else throw (newError ("Unknown sync status: " ++ st)).

Definition stashingLine : string := "📦 Stashing uncommitted changes...".
Definition restoringLine : string := "📦 Restoring stashed changes...".
Definition popWarning : string :=
  "Warning: Could not restore stashed changes automatically".
Definition popHintLine : string :=
  "💡 Run " ++ dq ++ "git stash pop" ++ dq ++ " manually to restore your changes".

(** The [finally] block. *)
Definition restoreStash (stashCreated : bool) : M unit :=
  if stashCreated then
    try_catch
      (log restoringLine ;;
       stashPop)
      (fun _ =>
         warn popWarning ;;
         log popHintLine)
  else ret tt.

Definition executeSyncStrategy (branchState : BranchState.t) (options : Options.t) : M unit :=
  stashCreated <-
    (if shouldStash branchState then
       log stashingLine ;;
       stash autoStashLabel ;;
       ret true
     else ret false) ;;
  try_finally (syncSwitch branchState options) (restoreStash stashCreated).

(** *** execute (sync.js 37-68) *)

Definition notARepository : Error :=
  newError ("Not in a Git repository. Use " ++ dq ++ "git init" ++ dq
              ++ " to create a new repository.").

Definition execute (options : Options.t) : M unit :=
  (match gitRepo env with
   | None => throw notARepository
   | Some repo =>
       if negb (GitRepository.isRepository repo) then throw notARepository else ret tt
   end) ;;
  log "🔄 Analyzing synchronization state..." ;;
  currentBranch <-
    (match Options.branch options with
     | Some b => if truthy b then ret b else getCurrentBranch
     | None => getCurrentBranch
     end) ;;
  let remote := Options.remote options in
  (if negb (Options.dryRun options) then checkNetworkConnectivity remote else ret tt) ;;
  log ("📡 Fetching from " ++ remote ++ "...") ;;
  (if negb (Options.dryRun options) then fetch remote else ret tt) ;;
  branchState <- analyzeBranchState currentBranch remote ;;
  if Options.dryRun options then showDryRun branchState options
  else executeSyncStrategy branchState options.

End SyncCommand.

(** ** The auto-stash of the [switch] command (switch.js 341-353) *)

Module Switch.

(** [`easygit-switch-auto-stash-${Date.now()}`] *)
Definition stashMessage (env : Env) : string :=
  "easygit-switch-auto-stash-" ++ numToString (dateNow env).

(** [handleUncommittedChanges(options)], with the truth value of
    [options.noStash] as argument.  The option declared at line 21 is
    [--no-stash], which commander stores under the key [stash]; the key
    [noStash] is set by no option, so from the command line the argument is
    always [false].  The console lines are those of the source file, as it
    stores them. *)
Definition handleUncommittedChanges (env : Env) (noStash : bool) : M bool :=
  if noStash then ret false
  else
    log "ðŸ“¦ Stashing uncommitted changes..." ;;
    stash env (stashMessage env) ;;
    log "âœ“ Changes stashed" ;;
    ret true.

End Switch.

(** ** Sample worlds, for running the command on concrete inputs *)

Module Sample.

Definition repo : GitRepository.t := GitRepository.mk true "/work/project".

Definition origin : RemoteInfo.t :=
  RemoteInfo.mk "origin" "git@example.org:project.git" "git@example.org:project.git".

Definition options : Options.t :=
  Options.mk "origin" None false false false false false false.

Definition dryRunOptions : Options.t :=
  Options.mk "origin" None false false false false true false.

Definition always {A} (a : A) : Oracle A := fun _ => Returned a.
Definition failing {A} (message : string) : Oracle A := fun _ => Thrown (newError message).

(** A world for one scenario: [status] is what [getStatus] answers, [all]
    the branch list, [choice] the answer to the list prompt; [integrate],
    [pushing] and [pop] are the answers to rebase and merge, to the pushes
    and to the stash-pop.  Every other call succeeds. *)
Definition scenario (status : StatusResult.t) (all : list string) (choice : string)
           (integrate pushing pop : Oracle unit) : Env :=
  {| gitRepo := Some repo;
     globalOptions := None;
     homedir := "/home/dev";
     dateISO := "2024-05-01T10:00:00.000Z";
     dateNow := 1714557600000;
     files0 := fun _ => None;
     getCurrentBranch_ := always "main";
     getRemotes_ := always [origin];
     gitRaw_ := fun _ => always EmptyString;
     fetch_ := fun _ => always tt;
     getStatus_ := always status;
     getBranches_ := always all;
     stash_ := fun _ => always tt;
     stashPop_ := pop;
     gitPush_ := fun _ => pushing;
     push_ := fun _ _ => pushing;
     gitRebase_ := fun _ => integrate;
     gitMerge_ := fun _ => integrate;
     promptList_ := fun _ => always choice;
     promptConfirm_ := fun _ => always true;
     configGetSyncStrategy_ := always "rebase";
     mkdir_ := fun _ => always tt;
     readFails_ := fun _ _ => None;
     writeFails_ := fun _ _ => None |}.

(** A world in which every call succeeds. *)
Definition world (status : StatusResult.t) (all : list string) (choice : string) : Env :=
  scenario status all choice (always tt) (always tt) (always tt).

Definition conflict : Oracle unit :=
  failing "CONFLICT (content): Merge conflict in README.md".

(** The same world at another time of day. *)
Definition atTime (iso : string) (now : Z) (env : Env) : Env :=
  {| gitRepo := gitRepo env;
     globalOptions := globalOptions env;
     homedir := homedir env;
     dateISO := iso;
     dateNow := now;
     files0 := files0 env;
     getCurrentBranch_ := getCurrentBranch_ env;
     getRemotes_ := getRemotes_ env;
     gitRaw_ := gitRaw_ env;
     fetch_ := fetch_ env;
     getStatus_ := getStatus_ env;
     getBranches_ := getBranches_ env;
     stash_ := stash_ env;
     stashPop_ := stashPop_ env;
     gitPush_ := gitPush_ env;
     push_ := push_ env;
     gitRebase_ := gitRebase_ env;
     gitMerge_ := gitMerge_ env;
     promptList_ := promptList_ env;
     promptConfirm_ := promptConfirm_ env;
     configGetSyncStrategy_ := configGetSyncStrategy_ env;
     mkdir_ := mkdir_ env;
     readFails_ := readFails_ env;
     writeFails_ := writeFails_ env |}.

(** The world [env] with another probe answer, another global scope and
    another disk: [probe] answers [git.raw], [global] is the global
    variable [options] if there is one, [files] the files at the start,
    [readError] and [writeError] the I/O errors of reads and writes. *)
Definition custom (env : Env) (probe : Oracle string) (global : option Options.t)
           (files : string -> option FileText) (readError writeError : option Error) : Env :=
  {| gitRepo := gitRepo env;
     globalOptions := global;
     homedir := homedir env;
     dateISO := dateISO env;
     dateNow := dateNow env;
     files0 := files;
     getCurrentBranch_ := getCurrentBranch_ env;
     getRemotes_ := getRemotes_ env;
     gitRaw_ := fun _ => probe;
     fetch_ := fetch_ env;
     getStatus_ := getStatus_ env;
     getBranches_ := getBranches_ env;
     stash_ := stash_ env;
     stashPop_ := stashPop_ env;
     gitPush_ := gitPush_ env;
     push_ := push_ env;
     gitRebase_ := gitRebase_ env;
     gitMerge_ := gitMerge_ env;
     promptList_ := promptList_ env;
     promptConfirm_ := promptConfirm_ env;
     configGetSyncStrategy_ := configGetSyncStrategy_ env;
     mkdir_ := mkdir_ env;
     readFails_ := fun _ _ => readError;
     writeFails_ := fun _ _ => writeError |}.

Definition noFiles : string -> option FileText := fun _ => None.

(** The probe of an unreachable remote. *)
Definition unreachable : Oracle string :=
  failing "ssh: Could not resolve hostname example.org: Name or service not known".


(** A disk whose queue file holds [text]. *)
Definition queueHolds (text : FileText) : string -> option FileText :=
  fun path => if path =? "/home/dev/.easygit/sync-queue.json" then Some text else None.

Definition clean (ahead behind : Z) : StatusResult.t :=
  StatusResult.mk (Some ahead) (Some behind) true.
Definition dirty (ahead behind : Z) : StatusResult.t :=
  StatusResult.mk (Some ahead) (Some behind) false.

End Sample.

(** ** Observing a trace *)

Local Open Scope list_scope.

(** The kinds of call the properties below speak about. *)
Definition isStash (e : Event) : bool :=
  match e with EStash _ _ => true | _ => false end.
Definition isStashPop (e : Event) : bool :=
  match e with EStashPop _ => true | _ => false end.
Definition isPush (e : Event) : bool :=
  match e with EGitPush _ _ | EPush _ _ _ => true | _ => false end.
Definition isFetch (e : Event) : bool :=
  match e with EFetch _ _ => true | _ => false end.
Definition isRebase (e : Event) : bool :=
  match e with EGitRebase _ _ => true | _ => false end.
Definition isMerge (e : Event) : bool :=
  match e with EGitMerge _ _ => true | _ => false end.
Definition isGetStatus (e : Event) : bool :=
  match e with EGetStatus _ => true | _ => false end.
Definition isGitRaw (e : Event) : bool :=
  match e with EGitRaw _ _ => true | _ => false end.
Definition isWriteFile (e : Event) : bool :=
  match e with EWriteFile _ _ _ => true | _ => false end.
Definition isWarn (e : Event) : bool :=
  match e with EWarn _ => true | _ => false end.

(** The calls of one kind, in the order they were made. *)
Definition calls (kind : Event -> bool) (d : Trace) : Trace := filter kind d.

(** A method that never makes a call of the given kind. *)
Definition never (kind : Event -> bool) {A} (m : M A) : Prop :=
  forall h, calls kind (events m h) = [].

(** Every [getStatus] call of the trace comes after a completed fetch of
    [remote]. *)
Definition fetch_precedes_analysis (remote : string) (d : Trace) : Prop :=
  forall pre r post,
    d = pre ++ EGetStatus r :: post -> In (EFetch remote (Returned tt)) pre.

(** The text of the queue file after the events [t]. *)
Definition queueStore (env : Env) (t : Trace) : option FileText :=
  fileAt (files0 env) t (queueFile env).

(** The entries the queue starts from, given the outcome of the read. *)
Definition priorEntries (r : Outcome FileText) : list Json :=
  match r with
  | Returned (Parsed (JArr items)) => items
  | _ => []
  end.



(** *** The stages of execute *)

Definition requireRepository (env : Env) : M unit :=
  match gitRepo env with
  | None => throw notARepository
  | Some repo =>
      if negb (GitRepository.isRepository repo) then throw notARepository else ret tt
  end.

Definition pickBranch (env : Env) (options : Options.t) : M string :=
  match Options.branch options with
  | Some b => if truthy b then ret b else getCurrentBranch env
  | None => getCurrentBranch env
  end.

Definition probe (env : Env) (options : Options.t) : M unit :=
  if negb (Options.dryRun options)
  then checkNetworkConnectivity env (Options.remote options) else ret tt.

Definition fetchStage (env : Env) (options : Options.t) : M unit :=
  if negb (Options.dryRun options) then fetch env (Options.remote options) else ret tt.

Definition afterFetch (env : Env) (options : Options.t) (currentBranch : string) : M unit :=
  branchState <- analyzeBranchState env currentBranch (Options.remote options) ;;
  if Options.dryRun options then showDryRun env branchState options
  else executeSyncStrategy env branchState options.

Definition afterProbe (env : Env) (options : Options.t) (currentBranch : string) : M unit :=
  log ("📡 Fetching from " ++ Options.remote options ++ "...")%string ;;
  fetchStage env options ;;
  afterFetch env options currentBranch.

(** *** Further kinds of call *)

Definition isIntegrate (e : Event) : bool :=
  match e with EGitRebase _ _ | EGitMerge _ _ => true | _ => false end.
Definition isConfig (e : Event) : bool :=
  match e with EConfigGetSyncStrategy _ => true | _ => false end.
Definition isGetBranches (e : Event) : bool :=
  match e with EGetBranches _ => true | _ => false end.

(** Console output. *)
Definition isConsole (e : Event) : bool :=
  match e with ELog _ | EWarn _ => true | _ => false end.

(** The calls that only read: console output, the queries on the local
    repository, and the look-up of the configured strategy, which the
    ConfigManager answers by reading its configuration files. *)
Definition isReadOnly (e : Event) : bool :=
  match e with
  | ELog _ | EWarn _ | EGetCurrentBranch _ | EGetStatus _ | EGetBranches _
  | EConfigGetSyncStrategy _ => true
  | _ => false
  end.

(** Everything else: the network, the working tree, the stash list, the
    prompts, and the file system calls that sync.js makes itself (the queue
    file and its directory). *)
Definition isEffect (e : Event) : bool := negb (isReadOnly e).

(** A call that is not console output. *)
Definition isCall (e : Event) : bool := negb (isConsole e).

(** A push call that failed with [e]. *)
Definition failedPush (e : Error) (ev : Event) : Prop :=
  (exists args, ev = EGitPush args (Thrown e)) \/
  (exists remote branch, ev = EPush remote branch (Thrown e)).

(** An integration call (rebase or merge) that failed with [e]. *)
Definition failedIntegration (e : Error) (ev : Event) : Prop :=
  (exists args, ev = EGitRebase args (Thrown e)) \/
  (exists args, ev = EGitMerge args (Thrown e)).

(** The prefix of the errors of [analyzeBranchState]. *)
Definition analysisFailure : string := "Failed to analyze branch state: ".

(** *** More sample worlds *)

Module Fixture.

(** The world [env] with another repository object, other remotes, another
    configured strategy and another answer to the confirmation prompt. *)
Definition custom (env : Env) (repo : option GitRepository.t)
           (remotes : Oracle (list RemoteInfo.t)) (strategy : Oracle string)
           (confirm : Oracle bool) : Env :=
  {| gitRepo := repo;
     globalOptions := globalOptions env;
     homedir := homedir env;
     dateISO := dateISO env;
     dateNow := dateNow env;
     files0 := files0 env;
     getCurrentBranch_ := getCurrentBranch_ env;
     getRemotes_ := remotes;
     gitRaw_ := gitRaw_ env;
     fetch_ := fetch_ env;
     getStatus_ := getStatus_ env;
     getBranches_ := getBranches_ env;
     stash_ := stash_ env;
     stashPop_ := stashPop_ env;
     gitPush_ := gitPush_ env;
     push_ := push_ env;
     gitRebase_ := gitRebase_ env;
     gitMerge_ := gitMerge_ env;
     promptList_ := promptList_ env;
     promptConfirm_ := fun _ => confirm;
     configGetSyncStrategy_ := strategy;
     mkdir_ := mkdir_ env;
     readFails_ := readFails_ env;
     writeFails_ := writeFails_ env |}.

(** The world [env] with other answers of the fetch, of the status query, of
    the branch list and of the stash call. *)
Definition answering (env : Env) (fetching : Oracle unit)
           (status : Oracle StatusResult.t) (branches : Oracle (list string))
           (stashing : Oracle unit) : Env :=
  {| gitRepo := gitRepo env;
     globalOptions := globalOptions env;
     homedir := homedir env;
     dateISO := dateISO env;
     dateNow := dateNow env;
     files0 := files0 env;
     getCurrentBranch_ := getCurrentBranch_ env;
     getRemotes_ := getRemotes_ env;
     gitRaw_ := gitRaw_ env;
     fetch_ := fun _ => fetching;
     getStatus_ := status;
     getBranches_ := branches;
     stash_ := fun _ => stashing;
     stashPop_ := stashPop_ env;
     gitPush_ := gitPush_ env;
     push_ := push_ env;
     gitRebase_ := gitRebase_ env;
     gitMerge_ := gitMerge_ env;
     promptList_ := promptList_ env;
     promptConfirm_ := promptConfirm_ env;
     configGetSyncStrategy_ := configGetSyncStrategy_ env;
     mkdir_ := mkdir_ env;
     readFails_ := readFails_ env;
     writeFails_ := writeFails_ env |}.

Definition base : Env := Sample.world (Sample.clean 0 0) ["origin/main"] "rebase".

(** A branch state as the analyzer builds it for branch [main] of [origin]. *)
Definition state (status : StatusResult.t) : BranchState.t :=
  branchStateOf "main" "origin" status ["origin/main"].

End Fixture.

(** *** Calls that change the repository or involve the user *)

(** The calls that change the working tree, the stash list, the local
    branch or the remote. *)
Definition isMutation (e : Event) : bool :=
  match e with
  | EStash _ _ | EStashPop _ | EGitPush _ _ | EPush _ _ _
  | EGitRebase _ _ | EGitMerge _ _ => true
  | _ => false
  end.

Definition isPrompt (e : Event) : bool :=
  match e with EPromptList _ _ | EPromptConfirm _ _ => true | _ => false end.

(** The calls to the file system. *)
Definition isFileAccess (e : Event) : bool :=
  match e with EMkdir _ _ | EReadFile _ _ | EWriteFile _ _ _ => true | _ => false end.

(** The arguments of the connectivity probe. *)
Definition probeArgs (remote : string) : list string := ["ls-remote"; "--heads"; remote].

(** The fetch and the two queries of the analysis. *)
Definition isFetchOrQuery (e : Event) : bool :=
  match e with EFetch _ _ | EGetStatus _ | EGetBranches _ => true | _ => false end.

(** The branch [execute] works on, as the trace [d] shows it: the one given
    with [--branch], else the current branch as the repository reported
    it. *)
Definition branchChosen (options : Options.t) (d : Trace) (branch : string) : Prop :=
  match Options.branch options with
  | Some b => if truthy b then branch = b else In (EGetCurrentBranch (Returned branch)) d
  | None => In (EGetCurrentBranch (Returned branch)) d
  end.

(** The flags sync passes to a raw push. *)
Definition pushFlags : list string := ["--force"; "--force-with-lease"; "-u"].

(** ** class ErrorHandler (error-handler.js) *)

Module ErrorHandler.

(** An entry of the error database: the pattern that is its key, and its
    severity.  The explanation, the causes and the solutions that
    [displayKnownError] prints are left out. *)
Record Entry := mkEntry { pattern : string; severity : string }.

(** [initializeErrorDatabase()], in the order of the object literal, which
    is the order [Object.entries] enumerates. *)
Definition errorDatabase : list Entry :=
  [ mkEntry "Authentication failed" "high";
    mkEntry "fatal: refusing to merge unrelated histories" "medium";
    mkEntry "Your branch is ahead of" "low";
    mkEntry "Your branch is behind" "low";
    mkEntry "CONFLICT" "high";
    mkEntry "fatal: not a git repository" "high";
    mkEntry "fatal: remote origin already exists" "low";
    mkEntry "error: failed to push some refs" "medium";
    mkEntry "fatal: The current branch has no upstream branch" "medium";
    mkEntry "fatal: pathspec" "medium";
    mkEntry "error: Your local changes to the following files would be overwritten" "high" ].

(** Case folding of one character, as a regular expression with the [i]
    flag compares: the letters A to Z and a to z are identified, every
    other character only matches itself. *)
Definition foldCase (c : ascii) : ascii :=
  let n := nat_of_ascii c in
  if (65 <=? n)%nat && (n <=? 90)%nat then ascii_of_nat (n + 32) else c.

Fixpoint foldCases (s : string) : string :=
  match s with
  | EmptyString => EmptyString
  | String c rest => String (foldCase c) (foldCases rest)
  end.

(** [errorMessage.match(new RegExp(pattern, 'i'))], as a truth value, for a
    pattern without metacharacters (none of the keys of the database has
    one): the pattern occurs in the message, letter case aside. *)
Definition matchIgnoreCase (errorMessage pattern : string) : bool :=
  includes (foldCases errorMessage) (foldCases pattern).

(** The test at line 219. *)
Definition matchesPattern (errorMessage pattern : string) : bool :=
  includes errorMessage pattern || matchIgnoreCase errorMessage pattern.

(** [error.message || error.toString()]; for an error without message,
    [toString()] gives its name. *)
Definition messageOf (error : Error) : string :=
  if truthy (errMessage error) then errMessage error else errName error.

(** What [analyzeError] returns (without the texts of the entry). *)
Record ErrorInfo := mkInfo {
  knownError : bool;
  matched : option string;       (* [pattern], absent for an unknown error *)
  infoSeverity : string;
  originalMessage : string
}.

(** The loop of [analyzeError], on the message. *)
Definition classify (errorMessage : string) : ErrorInfo :=
  match find (fun entry => matchesPattern errorMessage (pattern entry)) errorDatabase with
  | Some entry => mkInfo true (Some (pattern entry)) (severity entry) errorMessage
  | None => mkInfo false None "unknown" errorMessage
  end.

Definition analyzeError (error : Error) : ErrorInfo := classify (messageOf error).

(** The class of an error: everything of the analysis but the message. *)
Definition classOf (info : ErrorInfo) : bool * option string * string :=
  (knownError info, matched info, infoSeverity info).

(** The condition under which [handleError] points to the assistant
    (line 208). *)
Definition suggestsAssistant (info : ErrorInfo) : bool :=
  (infoSeverity info =? "high") || negb (knownError info).

End ErrorHandler.

(** ** class GitRepository (git-repository.js) and the hook that creates it *)

Module Repo.

(** The status summary of [simple-git]: the current branch, and the
    fields sync.js reads. *)
Record Status := mkStatus { current : string; counts : StatusResult.t }.

(** The calls to the [simple-git] handle [this.git] and to the console,
    with their outcomes. *)
Inductive Call :=
| GitStatus (r : Outcome Status)
| GitBranch (args : list string) (r : Outcome (list string))
| GitGetRemotes (verbose : bool) (r : Outcome (list RemoteInfo.t))
| GitTags (r : Outcome (list string))
| GitPush (remote branch : string) (r : Outcome unit)
| GitFetch (remote : string) (r : Outcome unit)
| GitStash (args : list string) (r : Outcome unit)
| ConsoleLog (line : string)
| ConsoleWarn (line detail : string)
| ConsoleError (line detail : string).

(** How git answers, given the calls made so far. *)
Record Git := mkGit {
  gitStatus : list Call -> Outcome Status;
  gitBranch : list string -> list Call -> Outcome (list string);
  gitGetRemotes : bool -> list Call -> Outcome (list RemoteInfo.t);
  gitTags : list Call -> Outcome (list string);
  gitPush : string -> string -> list Call -> Outcome unit;
  gitFetch : string -> list Call -> Outcome unit;
  gitStash : list string -> list Call -> Outcome unit
}.

(** The object, and the calls made so far. *)
Record State := mkState { this : GitRepository.t; made : list Call }.

(** A method: from the state to its outcome and the state it leaves. *)
Definition R (A : Type) := State -> Outcome A * State.

Definition pure {A} (a : A) : R A := fun s => (Returned a, s).

Definition raise {A} (e : Error) : R A := fun s => (Thrown e, s).

Definition andThen {A B} (m : R A) (k : A -> R B) : R B :=
  fun s =>
    match m s with
    | (Returned a, s') => k a s'
    | (Thrown e, s') => (Thrown e, s')
    end.

(** [try { m } catch (error) { handler error }] *)
Definition attempt {A} (m : R A) (handler : Error -> R A) : R A :=
  fun s =>
    match m s with
    | (Returned a, s') => (Returned a, s')
    | (Thrown e, s') => handler e s'
    end.

(** [Promise.all([m1, m2])]: both calls are started, so both are made; the
    result is the pair of the answers, or the error of a call that failed.
    Which rejection wins when both fail is a matter of timing; the embedding
    takes the first in the order of the array. *)
Definition together {A B} (m1 : R A) (m2 : R B) : R (A * B) :=
  fun s =>
    let '(r1, s1) := m1 s in
    let '(r2, s2) := m2 s1 in
    (match r1, r2 with
     | Returned a, Returned b => Returned (a, b)
     | Thrown e, _ => Thrown e
     | Returned _, Thrown e => Thrown e
     end, s2).

Declare Scope repo_scope.
Delimit Scope repo_scope with repo.
Notation "x <- m ;; k" := (andThen m (fun x => k))
  (at level 100, m at next level, right associativity) : repo_scope.
Notation "m ;; k" := (andThen m (fun _ => k))
  (at level 100, right associativity) : repo_scope.
Local Open Scope repo_scope.

(** A call to git or to the console, recorded with its answer. *)
Definition call {A} (answer : list Call -> Outcome A) (record : Outcome A -> Call) : R A :=
  fun s => let r := answer (made s) in (r, mkState (this s) (made s ++ [record r])).

Definition print (line : Call) : R unit :=
  fun s => (Returned tt, mkState (this s) (made s ++ [line])).

(** [this.isInitialized], read and written. *)
Definition isInitialized : R bool :=
  fun s => (Returned (GitRepository.isInitialized (this s)), s).

Definition setInitialized (b : bool) : R unit :=
  fun s => (Returned tt,
            mkState (GitRepository.mk b (GitRepository.workingDir (this s))) (made s)).

Section Methods.

Variable git : Git.

Definition notInitialized : Error := newError "Repository not initialized".

(** The guard that opens the wrappers. *)
Definition requireInitialized : R unit :=
  initialized <- isInitialized ;;
  if negb initialized then raise notInitialized else pure tt.

(** *** gatherRepositoryInfo (git-repository.js 33-55)

    The record it stores in [this.repositoryInfo] is left out. *)
Definition gatherRepositoryInfo : R unit :=
  attempt
    (_ <- together (call (gitStatus git) GitStatus)
            (together (call (gitBranch git ["--all"]) (GitBranch ["--all"]))
               (together (call (gitGetRemotes git true) (GitGetRemotes true))
                  (call (gitTags git) GitTags))) ;;
     pure tt)
    (fun error =>
       print (ConsoleWarn "Warning: Could not gather complete repository info"
                (errMessage error))).

(** *** initialize (git-repository.js 14-31) *)
Definition notAGitRepository : Error := newError "not a git repository".

Definition initialize : R bool :=
  attempt
    (_ <- call (gitStatus git) GitStatus ;;
     setInitialized true ;;
     gatherRepositoryInfo ;;
     pure true)
    (fun error =>
       if includes (errMessage error) "not a git repository"
          || includes (errMessage error) "Not a git repository"
       then raise notAGitRepository
       else raise error).

(** *** The wrappers (git-repository.js 57-136, 176-193, 275-277) *)
Definition getStatus : R Status :=
  requireInitialized ;;
  call (gitStatus git) GitStatus.

Definition getCurrentBranch : R string :=
  status <- getStatus ;;
  pure (current status).

Definition getBranches : R (list string) :=
  requireInitialized ;;
  call (gitBranch git ["--all"]) (GitBranch ["--all"]).

Definition getRemotes : R (list RemoteInfo.t) :=
  requireInitialized ;;
  call (gitGetRemotes git true) (GitGetRemotes true).

Definition hasUncommittedChanges : R bool :=
  status <- getStatus ;;
  pure (negb (StatusResult.isClean (counts status))).

(** [branch || await this.getCurrentBranch()] *)
Definition branchOrCurrent (branch : option string) : R string :=
  match branch with
  | Some b => if truthy b then pure b else getCurrentBranch
  | None => getCurrentBranch
  end.

Definition push (remote : string) (branch : option string) : R unit :=
  requireInitialized ;;
  currentBranch <- branchOrCurrent branch ;;
  call (gitPush git remote currentBranch) (GitPush remote currentBranch).

Definition fetch (remote : string) : R unit :=
  requireInitialized ;;
  call (gitFetch git remote) (GitFetch remote).

Definition stash (message : option string) : R unit :=
  requireInitialized ;;
  match message with
  | Some m =>
      if truthy m then call (gitStash git ["push"; "-m"; m]) (GitStash ["push"; "-m"; m])
      else call (gitStash git []) (GitStash [])
  | None => call (gitStash git []) (GitStash [])
  end.

Definition stashPop : R unit :=
  requireInitialized ;;
  call (gitStash git ["pop"]) (GitStash ["pop"]).

Definition isRepository : R bool := isInitialized.

(** *** The [preAction] hook of the command line (entry script, 41-53)

    [this.gitRepo = new GitRepository(process.cwd())], then [initialize()];
    the state left is the object the entry script keeps in its field
    [gitRepo]. *)
Definition notInRepositoryLine : string :=
  "⚠️  Not in a Git repository. Some commands may not work.".

Definition preAction (cwd : string) : R unit :=
  fun s =>
    attempt
      (_ <- initialize ;; pure tt)
      (fun error =>
         if includes (errMessage error) "not a git repository"
         then print (ConsoleLog notInRepositoryLine)
         else print (ConsoleError "Error initializing Git repository:" (errMessage error)))
      (mkState (GitRepository.mk false cwd) (made s)).

End Methods.

(** A git that answers every call. *)
Definition obliging (status : Status) : Git :=
  {| gitStatus := fun _ => Returned status;
     gitBranch := fun _ _ => Returned ["main"; "remotes/origin/main"];
     gitGetRemotes := fun _ _ => Returned [Sample.origin];
     gitTags := fun _ => Returned [];
     gitPush := fun _ _ _ => Returned tt;
     gitFetch := fun _ _ => Returned tt;
     gitStash := fun _ _ => Returned tt |}.

(** A directory that is not inside a repository: every call fails. *)
Definition outside : Git :=
  let failure {A} : Outcome A :=
    Thrown (newError "fatal: not a git repository (or any of the parent directories): .git") in
  {| gitStatus := fun _ => failure;
     gitBranch := fun _ _ => failure;
     gitGetRemotes := fun _ _ => failure;
     gitTags := fun _ => failure;
     gitPush := fun _ _ _ => failure;
     gitFetch := fun _ _ => failure;
     gitStash := fun _ _ => failure |}.

Definition onMain : Status := mkStatus "main" (Sample.clean 0 0).

Definition fresh (cwd : string) : State := mkState (GitRepository.mk false cwd) [].
Definition ready (cwd : string) : State := mkState (GitRepository.mk true cwd) [].

End Repo.

(** ** Running the combinators *)

Section Run.

Context {A B : Type}.

Lemma outcome_ret (a : A) h : outcome (ret a) h = Returned a.
Proof. reflexivity. Qed.

Lemma events_ret (a : A) h : events (ret a) h = [].
Proof. reflexivity. Qed.

Lemma outcome_throw (e : Error) h : outcome (@throw A e) h = Thrown e.
Proof. reflexivity. Qed.

Lemma events_throw (e : Error) h : events (@throw A e) h = [].
Proof. reflexivity. Qed.

Lemma outcome_ask (o : Oracle A) ev h : outcome (ask o ev) h = o h.
Proof. reflexivity. Qed.

Lemma events_ask (o : Oracle A) ev h : events (ask o ev) h = [ev (o h)].
Proof. reflexivity. Qed.

Lemma outcome_bind (m : M A) (k : A -> M B) h :
  outcome (bind m k) h =
  match outcome m h with
  | Returned a => outcome (k a) (h ++ events m h)
  | Thrown e => Thrown e
  end.
Proof.
  unfold outcome, events, bind.
  destruct (m h) as [[a | e] d1]; simpl; [destruct (k a (h ++ d1)) |]; reflexivity.
Qed.

Lemma events_bind (m : M A) (k : A -> M B) h :
  events (bind m k) h =
  events m h ++ match outcome m h with
                | Returned a => events (k a) (h ++ events m h)
                | Thrown _ => []
                end.
Proof.
  unfold outcome, events, bind.
  destruct (m h) as [[a | e] d1]; simpl;
    [destruct (k a (h ++ d1)); reflexivity | now rewrite app_nil_r].
Qed.

Lemma outcome_try_catch (m : M A) (handler : Error -> M A) h :
  outcome (try_catch m handler) h =
  match outcome m h with
  | Returned a => Returned a
  | Thrown e => outcome (handler e) (h ++ events m h)
  end.
Proof.
  unfold outcome, events, try_catch.
  destruct (m h) as [[a | e] d1]; simpl; [| destruct (handler e (h ++ d1))]; reflexivity.
Qed.

Lemma events_try_catch (m : M A) (handler : Error -> M A) h :
  events (try_catch m handler) h =
  events m h ++ match outcome m h with
                | Returned _ => []
                | Thrown e => events (handler e) (h ++ events m h)
                end.
Proof.
  unfold outcome, events, try_catch.
  destruct (m h) as [[a | e] d1]; simpl;
    [now rewrite app_nil_r | destruct (handler e (h ++ d1)); reflexivity].
Qed.

Lemma outcome_try_finally (m : M A) (fin : M unit) h :
  outcome (try_finally m fin) h =
  match outcome fin (h ++ events m h) with
  | Thrown e2 => Thrown e2
  | Returned _ => outcome m h
  end.
Proof.
  unfold outcome, events, try_finally.
  destruct (m h) as [r d1]; simpl. destruct (fin (h ++ d1)); reflexivity.
Qed.

Lemma events_try_finally (m : M A) (fin : M unit) h :
  events (try_finally m fin) h = events m h ++ events fin (h ++ events m h).
Proof.
  unfold outcome, events, try_finally.
  destruct (m h) as [r d1]; simpl. destruct (fin (h ++ d1)); reflexivity.
Qed.

(** An event of [m ;; k] is an event of [m], or an event of [k] run after
    [m] has returned. *)
Lemma in_events_bind (m : M A) (k : A -> M B) h e :
  In e (events (bind m k) h) ->
  In e (events m h) \/
  exists a, outcome m h = Returned a /\ In e (events (k a) (h ++ events m h)).
Proof.
  rewrite events_bind. intro Hin. apply in_app_or in Hin.
  destruct Hin as [Hin | Hin]; [left; exact Hin |].
  destruct (outcome m h) as [a | err]; [| destruct Hin].
  right. exists a. split; [reflexivity | exact Hin].
Qed.

End Run.

Lemma outcome_emit e h : outcome (emit e) h = Returned tt.
Proof. reflexivity. Qed.

Lemma events_emit e h : events (emit e) h = [e].
Proof. reflexivity. Qed.

Lemma calls_app kind (d1 d2 : Trace) : calls kind (d1 ++ d2) = calls kind d1 ++ calls kind d2.
Proof. apply filter_app. Qed.

Lemma calls_nil_In kind (d : Trace) e : calls kind d = [] -> In e d -> kind e = false.
Proof.
  unfold calls. intros Hnil Hin.
  destruct (kind e) eqn:K; [| reflexivity].
  assert (Hf : In e (filter kind d)) by (apply filter_In; auto).
  rewrite Hnil in Hf. destruct Hf.
Qed.

(** A trace that starts with calls of no [kind] splits, at a call of that
    kind, after that start. *)
Lemma split_after_prefix kind (d1 d2 pre post : Trace) e :
  calls kind d1 = [] -> kind e = true ->
  d1 ++ d2 = pre ++ e :: post ->
  exists pre', pre = d1 ++ pre'.
Proof.
  revert pre. induction d1 as [| x d1 IH]; intros pre Hq Hk Heq.
  - exists pre. reflexivity.
  - unfold calls in Hq. simpl in Hq.
    destruct (kind x) eqn:Kx; [discriminate |].
    destruct pre as [| y pre]; simpl in Heq; injection Heq as Hxy Heq.
    + congruence.
    + subst y. destruct (IH pre Hq Hk Heq) as [pre' ->].
      exists pre'. reflexivity.
Qed.

Lemma no_call_no_split kind (d pre post : Trace) e :
  calls kind d = [] -> kind e = true -> d <> pre ++ e :: post.
Proof.
  intros Hq Hk ->. unfold calls in Hq. rewrite filter_app in Hq. simpl in Hq.
  rewrite Hk in Hq. destruct (filter kind pre); discriminate.
Qed.

Lemma fileAt_app files t1 t2 path :
  fileAt files (t1 ++ t2) path =
  fold_left
    (fun cur e =>
       match e with
       | EWriteFile p data (Returned _) => if (p =? path)%string then Some data else cur
       | _ => cur
       end) t2 (fileAt files t1 path).
Proof. unfold fileAt. apply fold_left_app. Qed.

(** *** Methods that never make a call of some kind *)

Section Never.

Variable kind : Event -> bool.
Context {A B : Type}.

Lemma never_ret (a : A) : never kind (ret a).
Proof. intro h. reflexivity. Qed.

Lemma never_throw (e : Error) : never kind (@throw A e).
Proof. intro h. reflexivity. Qed.

Lemma never_emit e : kind e = false -> never kind (emit e).
Proof. intros K h. unfold calls. rewrite events_emit. simpl. now rewrite K. Qed.

Lemma never_ask (o : Oracle A) ev :
  (forall r, kind (ev r) = false) -> never kind (ask o ev).
Proof. intros K h. unfold calls. rewrite events_ask. simpl. now rewrite K. Qed.

Lemma never_bind (m : M A) (k : A -> M B) :
  never kind m -> (forall a, never kind (k a)) -> never kind (bind m k).
Proof.
  intros Hm Hk h. rewrite events_bind, calls_app, Hm.
  destruct (outcome m h); [apply Hk | reflexivity].
Qed.

Lemma never_try_catch (m : M A) (handler : Error -> M A) :
  never kind m -> (forall e, never kind (handler e)) -> never kind (try_catch m handler).
Proof.
  intros Hm Hk h. rewrite events_try_catch, calls_app, Hm.
  destruct (outcome m h); [reflexivity | apply Hk].
Qed.

Lemma never_try_finally (m : M A) (fin : M unit) :
  never kind m -> never kind fin -> never kind (try_finally m fin).
Proof.
  intros Hm Hf h. now rewrite events_try_finally, calls_app, Hm, Hf.
Qed.

Lemma not_in_never (m : M A) h e :
  never kind m -> kind e = true -> ~ In e (events m h).
Proof.
  intros Hn Hk Hin. apply (calls_nil_In kind _ _ (Hn h)) in Hin. congruence.
Qed.

End Never.

(** ** Proof automation *)

Create HintDb sync.
#[local] Hint Unfold getCurrentBranch getRemotes gitRaw fetch getStatus getBranches stash
  stashPop gitPush push gitRebase gitMerge promptList promptConfirm configGetSyncStrategy
  log warn mkdir readFile writeFile JSON_parse arrayPush freeIdentifier_options onRepo
  getSyncStrategy handleUpToDate handleAhead handleBehind handleRebaseDiverged
  handleMergeDiverged handleForcePushDiverged handleDiverged handleNewBranch syncSwitch
  restoreStash queueSyncOperation checkNetworkConnectivity analyzeBranchState showDryRun
  pickBranch probe fetchStage afterFetch afterProbe requireRepository
  : sync.

(** Decomposes a method into its calls and checks each one. *)
Ltac never_step :=
  match goal with
  | |- never _ (bind _ _) => apply never_bind; [| intro]
  | |- never _ (try_catch _ _) => apply never_try_catch; [| intro]
  | |- never _ (try_finally _ _) => apply never_try_finally
  | |- never _ (ret _) => apply never_ret
  | |- never _ (throw _) => apply never_throw
  | |- never _ (emit _) => apply never_emit; reflexivity
  | |- never _ (ask _ _) => apply never_ask; intro; reflexivity
  | |- never _ (if ?b then _ else _) => destruct b
  | |- never _ (match ?x with _ => _ end) => destruct x
  end.

Ltac never_tac := intros; repeat (progress (autounfold with sync) || never_step).

(** Replaces the text of console lines by variables: no proof below
    depends on what a line says. *)
Ltac abstract_lines :=
  repeat match goal with
         | |- context [ELog ?s] =>
             tryif is_var s then fail
             else (let line := fresh "line" in generalize s; intro line)
         end.

(** Case analysis on the next answer the run is waiting for. *)
Ltac case_step :=
  match goal with
  | |- context [match ?x with _ => _ end] =>
      lazymatch x with
      | context [match _ with _ => _ end] => fail
      | _ => destruct x eqn:?
      end
  | |- context [if ?x then _ else _] =>
      lazymatch x with
      | context [match _ with _ => _ end] => fail
      | _ => destruct x eqn:?
      end
  end.

(** Symbolic execution by reduction: the run is computed as far as the
    answers of the parties allow, then split on the next answer. *)
Ltac exec :=
  cbv beta iota zeta delta [bind try_catch try_finally ask emit ret throw];
  repeat (case_step; cbv beta iota zeta).

(** Names the outcome and the events of the run [t] and puts its defining
    equation in front of the goal. *)
Ltac name_run t :=
  unfold outcome, events;
  let Hrun := fresh "Hrun" in
  destruct t as [?o ?d] eqn:Hrun; cbv [fst snd]; revert Hrun.

(** Ends a symbolic execution: the run is what was computed. *)
Ltac end_run :=
  let Hrun := fresh "Hrun" in
  intro Hrun; injection Hrun as <- <-.

(** Case analysis on the membership of an event in an explicit trace. *)
Ltac in_trace H :=
  cbn [app In] in H;
  repeat match type of H with
         | _ \/ _ => destruct H as [H | H]
         | False => destruct H
         | _ = _ => first [discriminate H | inversion H; subst; clear H]
         end.

(** ** Branch-state classification *)

Lemma branchStateOf_status currentBranch remote answer all :
  BranchState.status (branchStateOf currentBranch remote answer all) =
  determineSyncStatus (orZero (StatusResult.ahead answer)) (orZero (StatusResult.behind answer))
    (listIncludes all (remote ++ "/" ++ currentBranch)%string).
Proof. reflexivity. Qed.

(** With a remote branch and counts that are not negative, the chain of
    tests is a two-by-two table. *)
Lemma determineSyncStatus_table (ahead behind : Z) :
  (0 <= ahead)%Z -> (0 <= behind)%Z ->
  determineSyncStatus ahead behind true =
  (if (ahead =? 0)%Z
   then if (behind =? 0)%Z then "up-to-date" else "behind"
   else if (behind =? 0)%Z then "ahead" else "diverged")%string.
Proof.
  intros Ha Hb. unfold determineSyncStatus.
  destruct (Z.eqb_spec ahead 0), (Z.eqb_spec behind 0),
    (Z.gtb_spec ahead 0), (Z.gtb_spec behind 0); simpl; try reflexivity; lia.
Qed.

(** C1.  For every triple (remoteBranchExists, aheadCount, behindCount) with
    non-negative counts, [determineSyncStatus] follows the precedence rule:
    [new-branch] exactly when the remote branch does not exist, whatever the
    counts; otherwise [up-to-date] iff both counts are 0, [ahead] iff only
    ahead is positive, [behind] iff only behind is positive, [diverged] iff
    both are positive.  The result is always one of these five, and the
    classification stored by the analyzer is this value whatever the
    working tree's dirtiness ([isClean]) is. *)
Theorem determineSyncStatus_precedence_rule :
  forall (hasRemoteBranch : bool) (ahead behind : Z),
    (0 <= ahead)%Z -> (0 <= behind)%Z ->
    let s := determineSyncStatus ahead behind hasRemoteBranch in
    (hasRemoteBranch = false -> s = "new-branch") /\
    (hasRemoteBranch = true ->
     (s = "up-to-date" <-> (ahead = 0 /\ behind = 0)%Z) /\
     (s = "ahead" <-> (ahead > 0 /\ behind = 0)%Z) /\
     (s = "behind" <-> (ahead = 0 /\ behind > 0)%Z) /\
     (s = "diverged" <-> (ahead > 0 /\ behind > 0)%Z)) /\
    (s = "new-branch" <-> hasRemoteBranch = false) /\
    In s ["new-branch"; "up-to-date"; "ahead"; "behind"; "diverged"] /\
    (forall currentBranch remote (answer : StatusResult.t) all,
        orZero (StatusResult.ahead answer) = ahead ->
        orZero (StatusResult.behind answer) = behind ->
        listIncludes all (remote ++ "/" ++ currentBranch)%string = hasRemoteBranch ->
        BranchState.status (branchStateOf currentBranch remote answer all) = s).
Proof.
  intros hasRemoteBranch ahead behind Ha Hb s.
  assert (Hstored : forall currentBranch remote (answer : StatusResult.t) all,
             orZero (StatusResult.ahead answer) = ahead ->
             orZero (StatusResult.behind answer) = behind ->
             listIncludes all (remote ++ "/" ++ currentBranch)%string = hasRemoteBranch ->
             BranchState.status (branchStateOf currentBranch remote answer all) = s).
  { intros cb remote answer all H1 H2 H3.
    rewrite branchStateOf_status, H1, H2, H3. reflexivity. }
  split; [| split; [| split; [| split; [| exact Hstored]]]]; clear Hstored; subst s.
  all: destruct hasRemoteBranch;
    [ rewrite (determineSyncStatus_table ahead behind Ha Hb);
      destruct (Z.eqb_spec ahead 0), (Z.eqb_spec behind 0)
    | change (determineSyncStatus ahead behind false) with "new-branch"%string ].
  all: simpl In; repeat split; intros; try discriminate; try lia; auto 6.
Qed.

(** Scenario A of the specification: ahead=3, behind=0 with a remote branch. *)
Lemma determineSyncStatus_precedence_rule_witness :
  determineSyncStatus 3 0 true = "ahead"%string.
Proof.
  destruct (determineSyncStatus_precedence_rule true 3 0 ltac:(lia) ltac:(lia))
    as (_ & Hrule & _).
  destruct (Hrule eq_refl) as (_ & Hahead & _).
  apply Hahead. lia.
Defined.

(** ** Running executeSyncStrategy *)

Lemma shouldStash_true bs :
  shouldStash bs = true <->
  BranchState.hasUncommittedChanges bs = true /\ BranchState.status bs <> "ahead"%string.
Proof.
  unfold shouldStash. rewrite andb_true_iff, negb_true_iff, String.eqb_neq. tauto.
Qed.

Lemma shouldStash_ahead bs : BranchState.status bs = "ahead"%string -> shouldStash bs = false.
Proof.
  intro Hs. destruct (shouldStash bs) eqn:E; [| reflexivity].
  apply shouldStash_true in E. tauto.
Qed.

Lemma syncSwitch_ahead env bs options :
  BranchState.status bs = "ahead"%string ->
  syncSwitch env bs options = handleAhead env bs options.
Proof. intro Hs. unfold syncSwitch. rewrite Hs. reflexivity. Qed.

Lemma syncSwitch_diverged env bs options :
  BranchState.status bs = "diverged"%string ->
  syncSwitch env bs options = handleDiverged env bs options.
Proof. intro Hs. unfold syncSwitch. rewrite Hs. reflexivity. Qed.

Lemma syncSwitch_never_stash env bs options : never isStash (syncSwitch env bs options).
Proof. never_tac. Qed.

Lemma syncSwitch_never_stashPop env bs options : never isStashPop (syncSwitch env bs options).
Proof. never_tac. Qed.

Lemma syncSwitch_never_warn env bs options : never isWarn (syncSwitch env bs options).
Proof. never_tac. Qed.

(** The [finally] block after a stash: one pop, and on its failure the
    warning and the hint; it never throws. *)
Lemma restoreStash_run env repo h :
  gitRepo env = Some repo ->
  let popResult := stashPop_ env (h ++ [ELog restoringLine]) in
  outcome (restoreStash env true) h = Returned tt /\
  events (restoreStash env true) h =
    ELog restoringLine :: EStashPop popResult
      :: (if isThrown popResult then [EWarn popWarning; ELog popHintLine] else []).
Proof.
  intros Hrepo popResult.
  unfold restoreStash, stashPop, onRepo, log, warn. rewrite Hrepo.
  rewrite outcome_try_catch, events_try_catch, outcome_bind, events_bind.
  rewrite outcome_emit, events_emit, outcome_ask, events_ask.
  fold popResult.
  destruct popResult as [[] | e]; split; reflexivity.
Qed.

(** The four ways a run of the executor can go. *)
Lemma executeSyncStrategy_run env bs options h :
  let run := executeSyncStrategy env bs options in
  let pre := [ELog stashingLine; EStash autoStashLabel (Returned tt)] in
  (shouldStash bs = false /\
   events run h = events (syncSwitch env bs options) h /\
   outcome run h = outcome (syncSwitch env bs options) h)
  \/ (shouldStash bs = true /\ gitRepo env = None /\
      events run h = [ELog stashingLine] /\ isThrown (outcome run h) = true)
  \/ (shouldStash bs = true /\ gitRepo env <> None /\
      exists e, events run h = [ELog stashingLine; EStash autoStashLabel (Thrown e)] /\
                outcome run h = Thrown e)
  \/ (shouldStash bs = true /\ gitRepo env <> None /\
      exists popResult,
        events run h =
          pre ++ events (syncSwitch env bs options) (h ++ pre)
              ++ ELog restoringLine :: EStashPop popResult
              :: (if isThrown popResult then [EWarn popWarning; ELog popHintLine] else []) /\
        outcome run h = outcome (syncSwitch env bs options) (h ++ pre)).
Proof.
  intros run pre. subst run. unfold executeSyncStrategy.
  rewrite outcome_bind, events_bind.
  destruct (shouldStash bs).
  - right. unfold stash, onRepo, log.
    destruct (gitRepo env) as [repo |] eqn:Hrepo.
    + rewrite !outcome_bind, !events_bind, outcome_emit, events_emit, outcome_ask, events_ask.
      destruct (stash_ env autoStashLabel (h ++ [ELog stashingLine])) as [[] | e] eqn:Hs.
      * right. right. split; [reflexivity |]. split; [congruence |].
        rewrite outcome_ret, events_ret.
        rewrite outcome_try_finally, events_try_finally.
        match goal with
        | |- context [events (restoreStash env true) ?hh] =>
            destruct (restoreStash_run env repo hh Hrepo) as [Ho He]
        end.
        rewrite Ho, He. eexists. split; reflexivity.
      * right. left. split; [reflexivity |]. split; [congruence |].
        exists e. split; reflexivity.
    + left. split; [reflexivity |]. split; [reflexivity |].
      rewrite !outcome_bind, !events_bind, outcome_emit, events_emit.
      split; reflexivity.
  - left. split; [reflexivity |].
    rewrite outcome_ret, events_ret, outcome_try_finally, events_try_finally.
    simpl. rewrite !app_nil_r. split; reflexivity.
Qed.

Lemma executeSyncStrategy_no_stash env bs options h :
  shouldStash bs = false ->
  calls isStash (events (executeSyncStrategy env bs options) h) = [].
Proof.
  intro Hf.
  destruct (executeSyncStrategy_run env bs options h)
    as [(_ & He & _) | [(Hc & _) | [(Hc & _) | (Hc & _)]]]; try congruence.
  rewrite He. apply syncSwitch_never_stash.
Qed.

(** What follows the bracketed step after a stash. *)
Lemma restore_tail (popResult : Outcome unit) :
  let tail := ELog restoringLine :: EStashPop popResult
                :: (if isThrown popResult then [EWarn popWarning; ELog popHintLine] else []) in
  calls isStash tail = [] /\
  calls isStashPop tail = [EStashPop popResult] /\
  calls isWarn tail = (if isThrown popResult then [EWarn popWarning] else []) /\
  calls isPush tail = [] /\
  calls isRebase tail = [] /\
  calls isMerge tail = [].
Proof. destruct popResult; repeat split; reflexivity. Qed.

(** ** The stash safety wrapper *)

(** C4.  With a repository object at hand, the executor makes the stash call
    if and only if the working tree is dirty and the classification is not
    [ahead]; when it does, the stash call comes first, before every call
    of the bracketed step, and is the only one.  A dirty tree with an
    ahead-only classification is never stashed. *)
Theorem stash_iff_dirty_and_not_ahead :
  forall env repo bs options h,
    gitRepo env = Some repo ->
    let d := events (executeSyncStrategy env bs options) h in
    (BranchState.hasUncommittedChanges bs = true /\
     BranchState.status bs <> "ahead"%string ->
     exists r rest,
       d = ELog stashingLine :: EStash autoStashLabel r :: rest /\
       calls isStash rest = []) /\
    (~ (BranchState.hasUncommittedChanges bs = true /\
        BranchState.status bs <> "ahead"%string) ->
     calls isStash d = []) /\
    (BranchState.hasUncommittedChanges bs = true ->
     BranchState.status bs = "ahead"%string ->
     calls isStash d = []).
Proof.
  intros env repo bs options h Hrepo d.
  split; [| split].
  - intro Hp. apply shouldStash_true in Hp. subst d.
    destruct (executeSyncStrategy_run env bs options h)
      as [(Hc & _) | [(_ & Hn & _) | [(_ & _ & e & He & _) | (_ & _ & p & He & _)]]];
      try congruence.
    + exists (Thrown e), []. split; [exact He | reflexivity].
    + eexists (Returned tt), _. split; [exact He |].
      rewrite calls_app, syncSwitch_never_stash. apply restore_tail.
  - intro Hp. apply executeSyncStrategy_no_stash.
    destruct (shouldStash bs) eqn:E; [| reflexivity].
    apply shouldStash_true in E. contradiction.
  - intros _ Hs. apply executeSyncStrategy_no_stash, shouldStash_ahead, Hs.
Qed.

(** A dirty tree that is behind is stashed first; a dirty tree that is only
    ahead is not stashed. *)
Lemma stash_iff_dirty_and_not_ahead_witness :
  (exists r rest,
      events (executeSyncStrategy
                (Sample.world (Sample.dirty 0 2) ["origin/main"%string] "rebase")
                (branchStateOf "main" "origin" (Sample.dirty 0 2) ["origin/main"%string])
                Sample.options) []
      = ELog stashingLine :: EStash autoStashLabel r :: rest /\
      calls isStash rest = []) /\
  calls isStash
    (events (executeSyncStrategy
               (Sample.world (Sample.dirty 2 0) ["origin/main"%string] "rebase")
               (branchStateOf "main" "origin" (Sample.dirty 2 0) ["origin/main"%string])
               Sample.options) []) = [].
Proof.
  split.
  - apply (stash_iff_dirty_and_not_ahead
             (Sample.world (Sample.dirty 0 2) ["origin/main"%string] "rebase")
             Sample.repo
             (branchStateOf "main" "origin" (Sample.dirty 0 2) ["origin/main"%string])
             Sample.options [] eq_refl).
    split; [reflexivity | discriminate].
  - apply (stash_iff_dirty_and_not_ahead
             (Sample.world (Sample.dirty 2 0) ["origin/main"%string] "rebase")
             Sample.repo
             (branchStateOf "main" "origin" (Sample.dirty 2 0) ["origin/main"%string])
             Sample.options [] eq_refl); reflexivity.
Defined.

(** C2.  Whenever the wrapper has created a stash (its stash call
    succeeded), the run consists of the stash, then the whole bracketed
    step, then exactly one stash-pop; this holds whatever the bracketed step
    does (it completes, or throws a conflict, a rejected push or a
    cancellation).  The outcome of the run is the outcome of the bracketed
    step: a failed pop only adds one warning and the recovery hint, it
    never replaces or suppresses the error of the step. *)
Theorem stash_pop_pairing :
  forall env bs options h,
    let run := executeSyncStrategy env bs options in
    (exists label, In (EStash label (Returned tt)) (events run h)) ->
    let pre := [ELog stashingLine; EStash autoStashLabel (Returned tt)] in
    let step := syncSwitch env bs options in
    exists popResult,
      events run h =
        pre ++ events step (h ++ pre)
            ++ ELog restoringLine :: EStashPop popResult
            :: (if isThrown popResult then [EWarn popWarning; ELog popHintLine] else []) /\
      calls isStashPop (events run h) = [EStashPop popResult] /\
      outcome run h = outcome step (h ++ pre) /\
      calls isWarn (events run h) = if isThrown popResult then [EWarn popWarning] else [].
Proof.
  intros env bs options h run [label Hin] pre step. subst run step.
  destruct (executeSyncStrategy_run env bs options h)
    as [(_ & He & _) | [(_ & _ & He & _) | [(_ & _ & e & He & _) | (_ & _ & p & He & Ho)]]].
  - rewrite He in Hin.
    apply (not_in_never isStash) in Hin;
      [contradiction | apply syncSwitch_never_stash | reflexivity].
  - rewrite He in Hin. in_trace Hin.
  - rewrite He in Hin. in_trace Hin.
  - exists p. fold pre in He, Ho |- *. rewrite He, Ho.
    repeat split.
    + rewrite !calls_app, syncSwitch_never_stashPop. apply restore_tail.
    + rewrite !calls_app, syncSwitch_never_warn. apply restore_tail.
Qed.

(** Scenario C with a dirty tree, where the pop fails as well: one pop is
    attempted and the conflict remains the error of the run. *)
Lemma stash_pop_pairing_witness :
  let world := Sample.scenario (Sample.dirty 0 2) ["origin/main"%string] "rebase"
                 Sample.conflict (Sample.always tt) (Sample.failing "could not restore") in
  let bs := branchStateOf "main" "origin" (Sample.dirty 0 2) ["origin/main"%string] in
  exists popResult,
    calls isStashPop (events (executeSyncStrategy world bs Sample.options) [])
    = [EStashPop popResult] /\
    outcome (executeSyncStrategy world bs Sample.options) []
    = Thrown (newError "Merge conflicts need to be resolved").
Proof.
  intros world bs.
  destruct (stash_pop_pairing world bs Sample.options [])
    as (popResult & _ & Hpops & Hout & _).
  - exists autoStashLabel. right. left. reflexivity.
  - exists popResult. split; [exact Hpops |]. rewrite Hout. reflexivity.
Defined.

(** ** The label of the auto-created stash *)

Lemma executeSyncStrategy_stash_label env bs options h label r :
  In (EStash label r) (events (executeSyncStrategy env bs options) h) ->
  label = autoStashLabel.
Proof.
  intro Hin.
  destruct (executeSyncStrategy_run env bs options h)
    as [(_ & He & _) | [(_ & _ & He & _) | [(_ & _ & e & He & _) | (_ & _ & p & He & _)]]];
    rewrite He in Hin; clear He.
  - apply (not_in_never isStash) in Hin;
      [contradiction | apply syncSwitch_never_stash | reflexivity].
  - in_trace Hin.
  - in_trace Hin. reflexivity.
  - in_trace Hin; [reflexivity |].
    apply in_app_or in Hin. destruct Hin as [Hin | Hin].
    + apply (not_in_never isStash) in Hin;
        [contradiction | apply syncSwitch_never_stash | reflexivity].
    + destruct p; simpl in Hin; in_trace Hin.
Qed.

(** C8 (the code departs from the claim).  Any two invocations of the sync
    executor that stash use one and the same label, the fixed text
    [easygit-sync-auto-stash]: the label is not unique per invocation. *)
Theorem sync_stash_label_shared :
  forall env1 bs1 options1 h1 env2 bs2 options2 h2 label1 r1 label2 r2,
    In (EStash label1 r1) (events (executeSyncStrategy env1 bs1 options1) h1) ->
    In (EStash label2 r2) (events (executeSyncStrategy env2 bs2 options2) h2) ->
    label1 = label2 /\ label1 = "easygit-sync-auto-stash"%string.
Proof.
  intros env1 bs1 options1 h1 env2 bs2 options2 h2 label1 r1 label2 r2 H1 H2.
  apply executeSyncStrategy_stash_label in H1, H2. subst. split; reflexivity.
Qed.

(** Two invocations at different times, on different branch states: the
    labels coincide, while the labels the [switch] command would use at
    those two times differ. *)
Lemma sync_stash_label_shared_witness :
  let world1 := Sample.world (Sample.dirty 0 2) ["origin/main"%string] "rebase" in
  let world2 := Sample.atTime "2024-05-02T08:30:00.000Z" 1714638600000
                  (Sample.world (Sample.dirty 1 1) ["origin/main"%string] "merge") in
  let bs1 := branchStateOf "main" "origin" (Sample.dirty 0 2) ["origin/main"%string] in
  let bs2 := branchStateOf "main" "origin" (Sample.dirty 1 1) ["origin/main"%string] in
  exists label,
    In (EStash label (Returned tt)) (events (executeSyncStrategy world1 bs1 Sample.options) []) /\
    In (EStash label (Returned tt)) (events (executeSyncStrategy world2 bs2 Sample.options) []) /\
    label = "easygit-sync-auto-stash"%string /\
    Switch.stashMessage world1 <> Switch.stashMessage world2.
Proof.
  intros world1 world2 bs1 bs2.
  assert (H1 : In (EStash "easygit-sync-auto-stash" (Returned tt))
                 (events (executeSyncStrategy world1 bs1 Sample.options) []))
    by (vm_compute; right; left; reflexivity).
  assert (H2 : In (EStash "easygit-sync-auto-stash" (Returned tt))
                 (events (executeSyncStrategy world2 bs2 Sample.options) []))
    by (vm_compute; right; left; reflexivity).
  exists "easygit-sync-auto-stash"%string.
  split; [exact H1 |]. split; [exact H2 |].
  split; [exact (proj2 (sync_stash_label_shared _ _ _ _ _ _ _ _ _ _ _ _ H1 H2)) |].
  vm_compute. discriminate.
Defined.

(** ** The ahead state *)

Lemma handleAhead_push env repo bs options h :
  gitRepo env = Some repo ->
  let remote := BranchState.remote bs in
  let currentBranch := BranchState.currentBranch bs in
  exists r,
    calls isPush (events (handleAhead env bs options) h) =
    [if Options.force options then EGitPush [remote; currentBranch; "--force"%string] r
     else if Options.forceWithLease options
          then EGitPush [remote; currentBranch; "--force-with-lease"%string] r
          else EPush remote currentBranch r].
Proof.
  intros Hrepo remote currentBranch. subst remote currentBranch.
  name_run (handleAhead env bs options h).
  unfold handleAhead, gitPush, push, onRepo, log. rewrite Hrepo.
  abstract_lines. exec; end_run; eexists; reflexivity.
Qed.

(** C10.  In the ahead state the push made is: the unconditional force push
    whenever [force] is set, also when [forceWithLease] is set too; the
    force-with-lease push only when [forceWithLease] is set and [force] is
    not; the plain push only when neither is set.  Exactly one push is made
    in each case. *)
Theorem handleAhead_force_precedence :
  forall env repo bs options h,
    gitRepo env = Some repo ->
    BranchState.status bs = "ahead"%string ->
    let remote := BranchState.remote bs in
    let currentBranch := BranchState.currentBranch bs in
    let pushesMade := calls isPush (events (executeSyncStrategy env bs options) h) in
    (Options.force options = true ->
     exists r, pushesMade = [EGitPush [remote; currentBranch; "--force"%string] r]) /\
    (Options.force options = false -> Options.forceWithLease options = true ->
     exists r, pushesMade = [EGitPush [remote; currentBranch; "--force-with-lease"%string] r]) /\
    (Options.force options = false -> Options.forceWithLease options = false ->
     exists r, pushesMade = [EPush remote currentBranch r]).
Proof.
  intros env repo bs options h Hrepo Hs remote currentBranch pushesMade.
  assert (Hpush : pushesMade = calls isPush (events (handleAhead env bs options) h)).
  { subst pushesMade.
    destruct (executeSyncStrategy_run env bs options h)
      as [(_ & He & _) | [(Hc & _) | [(Hc & _) | (Hc & _)]]];
      try (rewrite (shouldStash_ahead bs Hs) in Hc; discriminate).
    rewrite He, (syncSwitch_ahead env bs options Hs). reflexivity. }
  destruct (handleAhead_push env repo bs options h Hrepo) as [r Hr].
  rewrite Hpush, Hr. fold remote currentBranch.
  repeat split; intros; exists r;
    repeat match goal with H : _ = _ |- _ => rewrite H end; reflexivity.
Qed.

(** Both options set: the push is the unconditional [--force] one. *)
Lemma handleAhead_force_precedence_witness :
  exists r,
    calls isPush
      (events (executeSyncStrategy
                 (Sample.world (Sample.clean 3 0) ["origin/main"%string] "rebase")
                 (branchStateOf "main" "origin" (Sample.clean 3 0) ["origin/main"%string])
                 (Options.mk "origin" None false false true true false false)) [])
    = [EGitPush ["origin"; "main"; "--force"]%string r].
Proof.
  exact (proj1 (handleAhead_force_precedence
                  (Sample.world (Sample.clean 3 0) ["origin/main"%string] "rebase")
                  Sample.repo
                  (branchStateOf "main" "origin" (Sample.clean 3 0) ["origin/main"%string])
                  (Options.mk "origin" None false false true true false false)
                  [] eq_refl eq_refl) eq_refl).
Defined.

(** ** The diverged state *)

(** A failed rebase or merge in the divergence resolver: no push in the
    run, and the run throws. *)
Lemma handleDiverged_failed_integration env bs options h :
  let d := events (handleDiverged env bs options) h in
  let o := outcome (handleDiverged env bs options) h in
  (forall args e, In (EGitRebase args (Thrown e)) d ->
     calls isPush d = [] /\
     o = Thrown (if includes (errMessage e) "CONFLICT"
                 then newError "Rebase conflicts need to be resolved" else e)) /\
  (forall args e, In (EGitMerge args (Thrown e)) d ->
     calls isPush d = [] /\
     o = Thrown (if includes (errMessage e) "CONFLICT"
                 then newError "Merge conflicts need to be resolved" else e)).
Proof.
  intros d o. subst d o.
  name_run (handleDiverged env bs options h).
  unfold handleDiverged, handleRebaseDiverged, handleMergeDiverged, handleForcePushDiverged,
    promptList, promptConfirm, gitRebase, gitMerge, gitPush, push, onRepo, log.
  abstract_lines. exec; end_run.
  all: split; intros args err Hin; in_trace Hin.
  all: split; [reflexivity |].
  all: match goal with H : includes _ _ = _ |- _ => rewrite H end; reflexivity.
Qed.

(** C7.  In the diverged state, when the integration step fails (the rebase
    of the rebase-then-push choice, or the merge of the merge-then-push
    choice), the run makes no push call at all and ends with an error: the
    conflict error when the failure is a conflict, the failure itself
    otherwise. *)
Theorem diverged_no_push_after_failed_integration :
  forall env bs options h,
    BranchState.status bs = "diverged"%string ->
    let run := executeSyncStrategy env bs options in
    (forall args e, In (EGitRebase args (Thrown e)) (events run h) ->
       calls isPush (events run h) = [] /\
       outcome run h =
       Thrown (if includes (errMessage e) "CONFLICT"
               then newError "Rebase conflicts need to be resolved" else e)) /\
    (forall args e, In (EGitMerge args (Thrown e)) (events run h) ->
       calls isPush (events run h) = [] /\
       outcome run h =
       Thrown (if includes (errMessage e) "CONFLICT"
               then newError "Merge conflicts need to be resolved" else e)).
Proof.
  intros env bs options h Hs run. subst run.
  destruct (executeSyncStrategy_run env bs options h)
    as [(_ & He & Ho) | [(_ & _ & He & _) | [(_ & _ & e0 & He & _) | (_ & _ & p & He & Ho)]]];
    rewrite He; clear He.
  - rewrite Ho, (syncSwitch_diverged env bs options Hs).
    apply handleDiverged_failed_integration.
  - split; intros args e Hin; in_trace Hin.
  - split; intros args e Hin; in_trace Hin.
  - rewrite Ho, (syncSwitch_diverged env bs options Hs).
    destruct (handleDiverged_failed_integration env bs options
                (h ++ [ELog stashingLine; EStash autoStashLabel (Returned tt)]))
      as [Hrebase Hmerge].
    destruct (restore_tail p) as (_ & _ & _ & Hnopush & Hnorebase & Hnomerge).
    split; intros args e Hin; in_trace Hin.
    + apply in_app_or in Hin. destruct Hin as [Hin | Hin].
      * destruct (Hrebase args e Hin) as [Hp Hout].
        split; [| exact Hout].
        cbn [app calls filter isPush]. fold (calls isPush).
        rewrite calls_app, Hp. exact Hnopush.
      * apply (calls_nil_In isRebase _ _ Hnorebase) in Hin. discriminate.
    + apply in_app_or in Hin. destruct Hin as [Hin | Hin].
      * destruct (Hmerge args e Hin) as [Hp Hout].
        split; [| exact Hout].
        cbn [app calls filter isPush]. fold (calls isPush).
        rewrite calls_app, Hp. exact Hnopush.
      * apply (calls_nil_In isMerge _ _ Hnomerge) in Hin. discriminate.
Qed.

(** Scenario: diverged, the user chooses rebase, the rebase conflicts. *)
Lemma diverged_no_push_after_failed_integration_witness :
  let world := Sample.scenario (Sample.clean 2 3) ["origin/main"%string] "rebase"
                 Sample.conflict (Sample.always tt) (Sample.always tt) in
  let bs := branchStateOf "main" "origin" (Sample.clean 2 3) ["origin/main"%string] in
  calls isPush (events (executeSyncStrategy world bs Sample.options) []) = [] /\
  outcome (executeSyncStrategy world bs Sample.options) []
  = Thrown (newError "Rebase conflicts need to be resolved").
Proof.
  intros world bs.
  destruct (diverged_no_push_after_failed_integration world bs Sample.options [] eq_refl)
    as [Hrebase _].
  apply (Hrebase ["origin/main"%string]
           (newError "CONFLICT (content): Merge conflict in README.md")).
  vm_compute. do 5 right. left. reflexivity.
Defined.

(** ** The dry-run report *)

(** C6 (the code departs from the claim).  For every dirty branch state
    classified [ahead], the dry-run report announces a stash (and its
    restoration), whereas the executor makes no stash call for that same
    branch state. *)
Theorem dryRun_announces_stash_executor_skips :
  forall env bs options options' h h',
    BranchState.hasUncommittedChanges bs = true ->
    BranchState.status bs = "ahead"%string ->
    In (ELog stashPlanLine) (events (showDryRun env bs options) h) /\
    In (ELog restorePlanLine) (events (showDryRun env bs options) h) /\
    calls isStash (events (executeSyncStrategy env bs options') h') = [].
Proof.
  intros env bs options options' h h' Hd Hs.
  split; [| split];
    [ | | apply executeSyncStrategy_no_stash, shouldStash_ahead, Hs ].
  all: name_run (showDryRun env bs options h).
  all: unfold showDryRun, log; rewrite Hd, Hs.
  all: change (("ahead" =? "up-to-date")%string) with false;
    change (("ahead" =? "ahead")%string) with true.
  all: abstract_lines; exec; end_run.
  all: cbn [In]; repeat (first [left; reflexivity | right]).
Qed.

(** Dirty tree, two commits ahead: announced by the dry run, not done. *)
Lemma dryRun_announces_stash_executor_skips_witness :
  let world := Sample.world (Sample.dirty 2 0) ["origin/main"%string] "rebase" in
  let bs := branchStateOf "main" "origin" (Sample.dirty 2 0) ["origin/main"%string] in
  In (ELog stashPlanLine) (events (showDryRun world bs Sample.dryRunOptions) []) /\
  In (ELog restorePlanLine) (events (showDryRun world bs Sample.dryRunOptions) []) /\
  calls isStash (events (executeSyncStrategy world bs Sample.options) []) = [].
Proof.
  intros world bs.
  apply (dryRun_announces_stash_executor_skips world bs); reflexivity.
Defined.

(** ** The stages of execute *)

Lemma execute_stages env options :
  execute env options =
  (requireRepository env ;;
   log "🔄 Analyzing synchronization state..." ;;
   currentBranch <- pickBranch env options ;;
   probe env options ;;
   afterProbe env options currentBranch).
Proof. reflexivity. Qed.

Lemma requireRepository_events env h : events (requireRepository env) h = [].
Proof.
  unfold requireRepository.
  destruct (gitRepo env) as [repo |]; [destruct (GitRepository.isRepository repo) |];
    reflexivity.
Qed.

(** Past the guard, the repository object exists and is initialized. *)
Lemma requireRepository_returned env h u :
  outcome (requireRepository env) h = Returned u ->
  exists repo, gitRepo env = Some repo /\ GitRepository.isRepository repo = true.
Proof.
  unfold requireRepository.
  destruct (gitRepo env) as [repo |]; [destruct (GitRepository.isRepository repo) eqn:E |];
    try discriminate.
  intros _. exists repo. split; [reflexivity | exact E].
Qed.

Lemma pickBranch_never_getStatus env options : never isGetStatus (pickBranch env options).
Proof. never_tac. Qed.

Lemma pickBranch_never_gitRaw env options : never isGitRaw (pickBranch env options).
Proof. never_tac. Qed.

Lemma pickBranch_never_writeFile env options : never isWriteFile (pickBranch env options).
Proof. never_tac. Qed.

Lemma probe_never_getStatus env options : never isGetStatus (probe env options).
Proof. never_tac. Qed.

Lemma afterProbe_never_gitRaw env options currentBranch :
  never isGitRaw (afterProbe env options currentBranch).
Proof. unfold afterProbe, afterFetch, executeSyncStrategy. never_tac. Qed.

Lemma execute_dryRun_never_fetch env options h :
  Options.dryRun options = true ->
  calls isFetch (events (execute env options) h) = [].
Proof.
  intro Hdry. revert h. change (never isFetch (execute env options)).
  rewrite execute_stages. unfold probe, afterProbe, fetchStage, afterFetch.
  rewrite Hdry. cbv [negb]. never_tac.
Qed.

(** ** Fetch and branch-state analysis *)

(** What [execute] does before the analysis, when [dryRun] is not set:
    either the run stops without any [getStatus] call, or its trace starts
    with calls free of [getStatus] that contain the completed fetch. *)
Lemma execute_fetch_first env options h :
  Options.dryRun options = false ->
  let d := events (execute env options) h in
  calls isGetStatus d = [] \/
  exists before rest,
    d = before ++ rest /\ calls isGetStatus before = [] /\
    In (EFetch (Options.remote options) (Returned tt)) before.
Proof.
  intros Hdry d. subst d. rewrite execute_stages.
  pose proof (pickBranch_never_getStatus env options) as Hpick.
  pose proof (probe_never_getStatus env options) as Hprobe.
  rewrite events_bind, requireRepository_events.
  destruct (outcome (requireRepository env) h) as [[] | e] eqn:Hguard; [| left; reflexivity].
  destruct (requireRepository_returned env h tt Hguard) as (repo & Hrepo & _).
  unfold log. rewrite events_bind, outcome_emit, events_emit.
  rewrite events_bind.
  destruct (outcome (pickBranch env options) _) as [currentBranch | e];
    [| left; rewrite !calls_app, Hpick; reflexivity].
  rewrite events_bind.
  destruct (outcome (probe env options) _) as [[] | e];
    [| left; rewrite !calls_app, Hpick, Hprobe; reflexivity].
  unfold afterProbe, log, fetchStage, fetch, onRepo. rewrite Hdry, Hrepo. cbv [negb].
  rewrite events_bind, outcome_emit, events_emit.
  rewrite events_bind, outcome_ask, events_ask.
  match goal with
  | |- context [fetch_ env ?r ?hh] => destruct (fetch_ env r hh) as [[] | e]
  end.
  - right. rewrite !app_assoc. eexists _, _. split; [reflexivity |]. split.
    + rewrite !calls_app, Hpick, Hprobe. reflexivity.
    + apply in_or_app. right. left. reflexivity.
  - left. rewrite !calls_app, Hpick, Hprobe. reflexivity.
Qed.

Lemma analysis_without_fetch remote (d : Trace) r :
  calls isFetch d = [] -> In (EGetStatus r) d -> ~ fetch_precedes_analysis remote d.
Proof.
  intros Hno Hin Hclaim.
  destruct (in_split _ _ Hin) as (pre & post & Hd).
  specialize (Hclaim pre r post Hd).
  assert (Hfetch : In (EFetch remote (Returned tt)) d)
    by (rewrite Hd; apply in_or_app; left; exact Hclaim).
  apply (calls_nil_In isFetch _ _ Hno) in Hfetch. discriminate.
Qed.

(** C5, as stated, fails: in a dry run the analysis queries the status
    although no fetch was made. *)
Lemma dryRun_analysis_without_fetch :
  ~ fetch_precedes_analysis "origin"
      (events (execute (Sample.world (Sample.clean 0 2) ["origin/main"%string] "rebase")
                 Sample.dryRunOptions) []).
Proof.
  apply (analysis_without_fetch _ _ (Returned (Sample.clean 0 2))).
  - vm_compute. reflexivity.
  - vm_compute. do 3 right. left. reflexivity.
Qed.

(** C5, amended.  In every invocation without [dryRun], each status query
    of the branch-state analysis comes after a completed fetch of the
    requested remote; with [dryRun] set, the invocation makes no fetch call
    at all. *)
Theorem fetch_precedes_analysis_unless_dryRun :
  forall env options h,
    (Options.dryRun options = false ->
     fetch_precedes_analysis (Options.remote options) (events (execute env options) h)) /\
    (Options.dryRun options = true ->
     calls isFetch (events (execute env options) h) = []).
Proof.
  intros env options h. split; intro Hdry.
  - intros pre r post Hd.
    destruct (execute_fetch_first env options h Hdry)
      as [Hnone | (before & rest & Hsplit & Hquiet & Hfetch)].
    + exfalso. revert Hd. apply (no_call_no_split isGetStatus); [exact Hnone | reflexivity].
    + rewrite Hsplit in Hd.
      destruct (split_after_prefix isGetStatus before rest pre post (EGetStatus r)
                  Hquiet eq_refl Hd) as [pre' ->].
      apply in_or_app. left. exact Hfetch.
  - apply execute_dryRun_never_fetch, Hdry.
Qed.

(** A real run that is behind by two commits: the status query follows the
    fetch; the same world in a dry run makes no fetch. *)
Lemma fetch_precedes_analysis_unless_dryRun_witness :
  let world := Sample.world (Sample.clean 0 2) ["origin/main"%string] "rebase" in
  fetch_precedes_analysis "origin" (events (execute world Sample.options) []) /\
  calls isFetch (events (execute world Sample.dryRunOptions) []) = [].
Proof.
  intro world. split.
  - apply (proj1 (fetch_precedes_analysis_unless_dryRun world Sample.options [])).
    reflexivity.
  - apply (proj2 (fetch_precedes_analysis_unless_dryRun world Sample.dryRunOptions [])).
    reflexivity.
Defined.

(** ** The connectivity probe *)

Lemma checkNetworkConnectivity_network_failure env remote h args e :
  globalOptions env = None ->
  In (EGitRaw args (Thrown e)) (events (checkNetworkConnectivity env remote) h) ->
  isNetworkError e = true ->
  outcome (checkNetworkConnectivity env remote) h = Thrown (ReferenceError "options") /\
  calls isWriteFile (events (checkNetworkConnectivity env remote) h) = [].
Proof.
  intros Hglobal.
  name_run (checkNetworkConnectivity env remote h).
  unfold checkNetworkConnectivity, getRemotes, gitRaw, freeIdentifier_options, onRepo, log.
  rewrite Hglobal. abstract_lines. exec; end_run.
  all: intros Hin Hnet; in_trace Hin; try (split; reflexivity); congruence.
Qed.

(** C3 (the code departs from the claim).  When the probe of the remote
    fails with a network-class error, and no global variable [options]
    exists, the invocation ends with a [ReferenceError]: the identifier
    [options] is not bound where the queue is to be filled, so nothing is
    queued and no file is written. *)
Theorem network_failure_raises_instead_of_queueing :
  forall env options h args e,
    globalOptions env = None ->
    In (EGitRaw args (Thrown e)) (events (execute env options) h) ->
    isNetworkError e = true ->
    outcome (execute env options) h = Thrown (ReferenceError "options") /\
    calls isWriteFile (events (execute env options) h) = [].
Proof.
  intros env options h args e Hglobal Hin Hnet.
  rewrite execute_stages in *.
  apply in_events_bind in Hin.
  destruct Hin as [Hin | ([] & Hguard & Hin)];
    [rewrite requireRepository_events in Hin; destruct Hin |].
  rewrite requireRepository_events in Hin.
  apply in_events_bind in Hin.
  destruct Hin as [Hin | ([] & Hlog & Hin)];
    [unfold log in Hin; rewrite events_emit in Hin; in_trace Hin |].
  apply in_events_bind in Hin.
  destruct Hin as [Hin | (currentBranch & Hpick & Hin)];
    [apply (not_in_never isGitRaw) in Hin;
     [contradiction | apply pickBranch_never_gitRaw | reflexivity] |].
  apply in_events_bind in Hin.
  destruct Hin as [Hin | ([] & Hprobe & Hin)];
    [| apply (not_in_never isGitRaw) in Hin;
       [contradiction | apply afterProbe_never_gitRaw | reflexivity]].
  unfold probe in Hin |- *.
  destruct (Options.dryRun options); cbv [negb] in Hin |- *; [destruct Hin |].
  destruct (checkNetworkConnectivity_network_failure env _ _ _ _ Hglobal Hin Hnet)
    as [Hout Hwrite].
  rewrite outcome_bind, events_bind, requireRepository_events, Hguard. cbv beta iota.
  rewrite outcome_bind, events_bind, Hlog. cbv beta iota.
  rewrite outcome_bind, events_bind, Hpick. cbv beta iota.
  rewrite outcome_bind, events_bind, Hout. cbv beta iota.
  split; [reflexivity |].
  rewrite !calls_app, (pickBranch_never_writeFile env options), Hwrite. reflexivity.
Qed.

(** The unreachable remote of scenario F. *)
Lemma network_failure_raises_instead_of_queueing_witness :
  let world := Sample.custom (Sample.world (Sample.clean 0 2) ["origin/main"%string] "rebase")
                 Sample.unreachable None Sample.noFiles None None in
  outcome (execute world Sample.options) [] = Thrown (ReferenceError "options") /\
  calls isWriteFile (events (execute world Sample.options) []) = [].
Proof.
  intro world.
  apply (network_failure_raises_instead_of_queueing world Sample.options []
           ["ls-remote"; "--heads"; "origin"]%string
           (newError "ssh: Could not resolve hostname example.org: Name or service not known")).
  - reflexivity.
  - vm_compute. do 3 right. left. reflexivity.
  - vm_compute. reflexivity.
Defined.

(** Were a global [options] defined, the entry would be queued, and the
    invocation would then go on to fetch from the unreachable remote all the
    same: [execute] does not look at what the probe found. *)
Example queued_run_still_fetches :
  let world := Sample.custom (Sample.world (Sample.clean 0 2) ["origin/main"%string] "rebase")
                 Sample.unreachable (Some Sample.options) Sample.noFiles None None in
  calls isWriteFile (events (execute world Sample.options) []) <> [] /\
  calls isFetch (events (execute world Sample.options) [])
  = [EFetch "origin" (Returned tt)].
Proof. vm_compute. split; [discriminate | reflexivity]. Qed.

(** ** The offline queue store *)


(** A queue file that is not valid JSON is replaced in the same way. *)
Example corrupt_queue_is_overwritten :
  let world := Sample.custom (Sample.world (Sample.clean 0 2) ["origin/main"%string] "rebase")
                 Sample.unreachable None
                 (Sample.queueHolds (Unparsable "[{ truncated")) None None in
  let d := events (queueSyncOperation world Sample.options) [] in
  calls isWarn d = [] /\
  queueStore world ([] ++ d)
  = Some (Parsed (JArr [mkOperation world "/work/project" "main" Sample.options])).
Proof. split; reflexivity. Qed.



(** ** The scenarios of the specification, run on the model *)

(** Scenario A: three commits ahead, the plain push succeeds. *)
Example scenario_A_pushes :
  let world := Sample.world (Sample.clean 3 0) ["origin/main"%string] "rebase" in
  outcome (execute world Sample.options) [] = Returned tt /\
  calls isPush (events (execute world Sample.options) [])
  = [EPush "origin" "main" (Returned tt)].
Proof. vm_compute. split; reflexivity. Qed.

(** Scenario B: the push is rejected as non-fast-forward; no stash is
    involved, although the tree is dirty. *)
Example scenario_B_push_rejected :
  let world := Sample.scenario (Sample.dirty 3 0) ["origin/main"%string] "rebase"
                 (Sample.always tt)
                 (Sample.failing "! [rejected] main -> main (non-fast-forward)")
                 (Sample.always tt) in
  outcome (execute world Sample.options) []
  = Thrown (newError "Push rejected due to remote changes") /\
  calls isStash (events (execute world Sample.options) []) = [].
Proof. vm_compute. split; reflexivity. Qed.

(** Scenario D: diverged, the user cancels; nothing is pushed or integrated. *)
Example scenario_D_cancelled :
  let world := Sample.world (Sample.clean 2 3) ["origin/main"%string] "cancel" in
  outcome (execute world Sample.options) [] = Thrown (newError "Sync cancelled by user") /\
  calls isPush (events (execute world Sample.options) []) = [] /\
  calls isRebase (events (execute world Sample.options) []) = [] /\
  calls isMerge (events (execute world Sample.options) []) = [].
Proof. vm_compute. repeat split; reflexivity. Qed.

(** Scenario E: no remote branch yet; the branch is pushed with [-u], once. *)
Example scenario_E_new_branch :
  let world := Sample.world (Sample.clean 1 0) [] "rebase" in
  outcome (execute world Sample.options) [] = Returned tt /\
  calls isPush (events (execute world Sample.options) [])
  = [EGitPush ["origin"; "main"; "-u"]%string (Returned tt)].
Proof. vm_compute. split; reflexivity. Qed.

(** ** Further properties of the sync command *)

(** *** execute: the repository guard and the dry run *)

(** Without a repository object, or with one that is not initialized,
    [execute] throws before printing or calling anything. *)
Theorem execute_requires_repository :
  forall env options h,
    (gitRepo env = None \/
     exists repo, gitRepo env = Some repo /\ GitRepository.isInitialized repo = false) ->
    outcome (execute env options) h = Thrown notARepository /\
    events (execute env options) h = [].
Proof.
  intros env options h Hrepo.
  rewrite execute_stages, outcome_bind, events_bind, requireRepository_events.
  unfold requireRepository, GitRepository.isRepository.
  destruct Hrepo as [-> | (repo & -> & ->)]; split; reflexivity.
Qed.

Lemma execute_requires_repository_witness :
  let world := Fixture.custom Fixture.base (Some (GitRepository.mk false "/work/project"))
                 (Sample.always [Sample.origin]) (Sample.always "rebase"%string)
                 (Sample.always true) in
  outcome (execute world Sample.options) [] = Thrown notARepository /\
  events (execute world Sample.options) [] = [].
Proof.
  intro world. apply execute_requires_repository.
  right. exists (GitRepository.mk false "/work/project"). split; reflexivity.
Defined.

Lemma pickBranch_reads env options h :
  let d := snd (pickBranch env options h) in
  calls isEffect d = [] /\ calls isConfig d = [].
Proof.
  split; revert h;
    [ change (never isEffect (pickBranch env options))
    | change (never isConfig (pickBranch env options)) ];
    never_tac.
Qed.

(** An analysis that returns has asked both queries, with success. *)
Lemma analyzeBranchState_returned env currentBranch remote h bs :
  outcome (analyzeBranchState env currentBranch remote) h = Returned bs ->
  exists status all,
    events (analyzeBranchState env currentBranch remote) h
    = [EGetStatus (Returned status); EGetBranches (Returned all)] /\
    bs = branchStateOf currentBranch remote status all.
Proof.
  name_run (analyzeBranchState env currentBranch remote h).
  unfold analyzeBranchState, getStatus, getBranches, onRepo.
  exec; end_run; intro Hret; try discriminate Hret.
  injection Hret as <-. eexists _, _. split; reflexivity.
Qed.

Lemma analyzeBranchState_reads env currentBranch remote h :
  let d := snd (analyzeBranchState env currentBranch remote h) in
  calls isEffect d = [] /\ calls isConfig d = [].
Proof.
  split; revert h;
    [ change (never isEffect (analyzeBranchState env currentBranch remote))
    | change (never isConfig (analyzeBranchState env currentBranch remote)) ];
    never_tac.
Qed.

(** The report of a dry run only reads.  It looks the strategy up at most
    once: for a state that is behind, when the command line gives none. *)
Lemma showDryRun_reads env bs options h :
  let d := snd (showDryRun env bs options h) in
  calls isEffect d = [] /\
  (Options.rebase options = true \/ Options.merge options = true -> calls isConfig d = []) /\
  (forall r, In (EConfigGetSyncStrategy r) d ->
     calls isConfig d = [EConfigGetSyncStrategy r] /\
     BranchState.status bs = "behind"%string).
Proof.
  intro d. subst d.
  split; [revert h; change (never isEffect (showDryRun env bs options)); never_tac |].
  destruct (showDryRun env bs options h) as [o d] eqn:Hrun. cbn [snd]. revert Hrun.
  unfold showDryRun, getSyncStrategy, configGetSyncStrategy, log.
  abstract_lines. exec; end_run.
  all: split;
    [ intros [Hgiven | Hgiven]; first [congruence | reflexivity]
    | intros r Hin; in_trace Hin;
      (split;
       [ reflexivity
       | match goal with
         | H : (BranchState.status _ =? "behind")%string = true |- _ =>
             apply String.eqb_eq in H; exact H
         end ]) ].
Qed.

(** In a dry run sync makes no probe, fetch, push, rebase, merge, stash, pop
    or prompt and does not touch the queue file or its directory: besides
    console output its only calls are the queries for the current branch,
    the status and the branch list, and at most one look-up of the
    configured strategy.  That look-up is made only for a branch that the
    analysis found behind, and only when neither [--rebase] nor [--merge] is
    given; it is one call to the ConfigManager, whose own reading of the
    configuration files is not part of the statement. *)
Theorem dryRun_only_reads :
  forall env options h,
    Options.dryRun options = true ->
    let d := events (execute env options) h in
    calls isEffect d = [] /\
    (Options.rebase options = true \/ Options.merge options = true ->
     calls isConfig d = []) /\
    (forall r, In (EConfigGetSyncStrategy r) d ->
       calls isConfig d = [EConfigGetSyncStrategy r] /\
       exists currentBranch status all,
         In (EGetStatus (Returned status)) d /\
         In (EGetBranches (Returned all)) d /\
         BranchState.status (branchStateOf currentBranch (Options.remote options) status all)
         = "behind"%string).
Proof.
  intros env options h Hdry d. subst d.
  name_run (execute env options h).
  rewrite execute_stages.
  unfold requireRepository, probe, afterProbe, fetchStage, afterFetch, log.
  rewrite Hdry. cbv [negb].
  abstract_lines. exec; end_run.
  (* what each stage contributes *)
  all: repeat match goal with
              | H : pickBranch ?env ?options ?h = (_, ?d) |- _ =>
                  let F := fresh "Hreads" in
                  pose proof (pickBranch_reads env options h) as F;
                  rewrite H in F; cbn [snd] in F; destruct F as (? & ?); clear H
              | H : showDryRun ?env ?bs ?options ?h = (_, ?d) |- _ =>
                  let F := fresh "Hreport" in
                  pose proof (showDryRun_reads env bs options h) as F;
                  rewrite H in F; cbn [snd] in F; destruct F as (? & Hgiven & Hlooked);
                  clear H
              | H : analyzeBranchState ?env ?b ?remote ?h = (Returned ?bs, ?d) |- _ =>
                  let F := fresh "Hanalysis" in
                  pose proof (analyzeBranchState_returned env b remote h bs) as F;
                  unfold outcome, events in F; rewrite H in F; cbn [fst snd] in F;
                  destruct (F eq_refl) as (status & all & -> & Hstate); clear F H
              | H : analyzeBranchState ?env ?b ?remote ?h = (Thrown _, ?d) |- _ =>
                  let F := fresh "Hanalysis" in
                  pose proof (analyzeBranchState_reads env b remote h) as F;
                  rewrite H in F; cbn [snd] in F; destruct F as (? & ?); clear H
              end.
  all: assert (Hcount : forall kind (e : Event) (t : Trace),
                  calls kind (e :: t) = if kind e then e :: calls kind t else calls kind t)
    by reflexivity.
  all: split; [| split].
  (* nothing but reads *)
  all: try solve
    [ repeat first [rewrite Hcount | rewrite calls_app];
      cbn [isEffect isReadOnly isConfig negb calls filter];
      repeat match goal with H : calls _ _ = [] |- _ => rewrite H end;
      reflexivity ].
  (* the strategy given on the command line *)
  all: try solve
    [ intro Hopt;
      repeat first [rewrite Hcount | rewrite calls_app];
      cbn [isConfig calls filter];
      repeat match goal with H : calls _ _ = [] |- _ => rewrite H end;
      first [reflexivity | exact (Hgiven Hopt)] ].
  (* the look-up *)
  all: intros r Hin;
    repeat first [rewrite in_app_iff in Hin | progress cbn [In] in Hin];
    repeat match type of Hin with
           | _ \/ _ => destruct Hin as [Hin | Hin]
           | False => destruct Hin
           end;
    try discriminate Hin;
    try solve [ exfalso;
                match goal with
                | Hq : calls isConfig ?d = [] |- _ =>
                    match type of Hin with
                    | In _ d => apply (calls_nil_In _ _ _ Hq) in Hin; discriminate Hin
                    end
                end ].
  all: destruct (Hlooked r Hin) as (Honce & Hbehind).
  all: split;
    [ repeat first [rewrite Hcount | rewrite calls_app];
      cbn [isConfig calls filter];
      repeat match goal with H : calls _ _ = [] |- _ => rewrite H end;
      exact Honce
    | eexists _, status, all;
      split; [repeat first [rewrite in_app_iff | progress cbn [In]]; auto 12 |];
      split; [repeat first [rewrite in_app_iff | progress cbn [In]]; auto 12 |];
      rewrite <- Hstate; exact Hbehind ].
Qed.

(** A dirty tree that is behind: the strategy is looked up once. *)
Lemma dryRun_only_reads_witness :
  let d := events (execute (Sample.world (Sample.dirty 1 2) ["origin/main"%string] "rebase")
                     Sample.dryRunOptions) [] in
  let behind := events (execute (Sample.world (Sample.dirty 0 2) ["origin/main"%string] "rebase")
                          Sample.dryRunOptions) [] in
  calls isEffect d = [] /\
  calls isConfig behind = [EConfigGetSyncStrategy (Returned "rebase"%string)].
Proof.
  intros d behind. split.
  - exact (proj1 (dryRun_only_reads
                    (Sample.world (Sample.dirty 1 2) ["origin/main"%string] "rebase")
                    Sample.dryRunOptions [] eq_refl)).
  - refine (proj1 (proj2 (proj2 (dryRun_only_reads
                                   (Sample.world (Sample.dirty 0 2) ["origin/main"%string]
                                      "rebase")
                                   Sample.dryRunOptions [] eq_refl))
                     (Returned "rebase"%string) _)).
    vm_compute. repeat first [left; reflexivity | right].
Defined.

(** *** The handlers of the states *)

(** The ahead state: the run succeeds when the push does; a push rejected
    as non-fast-forward becomes the error telling to sync again; any other
    push failure is passed on unchanged. *)
Theorem handleAhead_outcome :
  forall env repo bs options h,
    gitRepo env = Some repo ->
    exists ev,
      calls isPush (events (handleAhead env bs options) h) = [ev] /\
      (forall e, failedPush e ev ->
         outcome (handleAhead env bs options) h =
         Thrown (if includes (errMessage e) "rejected"
                    && includes (errMessage e) "non-fast-forward"
                 then newError "Push rejected due to remote changes" else e)) /\
      ((forall e, ~ failedPush e ev) ->
       outcome (handleAhead env bs options) h = Returned tt).
Proof.
  intros env repo bs options h Hrepo.
  name_run (handleAhead env bs options h).
  unfold handleAhead, gitPush, push, onRepo, log. rewrite Hrepo.
  abstract_lines. exec; end_run.
  all: eexists; split; [reflexivity |]; split.
  all: try (intros err [(args & Hev) | (r & b & Hev)]; inversion Hev; subst).
  all: try reflexivity.
  all: try (intros err [(args & Hev) | (r & b & Hev)]; discriminate Hev).
  all: try (match goal with H : _ && _ = _ |- _ => rewrite H end; reflexivity).
  all: try (intro Hnone; exfalso; eapply Hnone; first [left; eexists; reflexivity
                                                     | right; eexists _, _; reflexivity]).
Qed.

(** Scenario B again: a rejected push. *)
Lemma handleAhead_outcome_witness :
  let world := Sample.scenario (Sample.clean 3 0) ["origin/main"%string] "rebase"
                 (Sample.always tt)
                 (Sample.failing "! [rejected] main -> main (non-fast-forward)")
                 (Sample.always tt) in
  outcome (handleAhead world (Fixture.state (Sample.clean 3 0)) Sample.options) []
  = Thrown (newError "Push rejected due to remote changes").
Proof.
  intro world.
  destruct (handleAhead_outcome world Sample.repo (Fixture.state (Sample.clean 3 0))
              Sample.options [] eq_refl) as (ev & Hev & Hfail & _).
  vm_compute in Hev. injection Hev as <-.
  apply (Hfail (newError "! [rejected] main -> main (non-fast-forward)")).
  right. eexists _, _. reflexivity.
Defined.

(** The behind state: no push is ever made; with a repository object
    exactly one integration call is made on the remote branch, unless the
    configuration cannot be read.  [--rebase] selects the rebase, also when
    [--merge] is given too; [--merge] alone selects the merge; without
    either the configured strategy decides, and every configured value other
    than [rebase] selects the merge.  The configuration is only consulted
    when neither option is given. *)
Theorem handleBehind_strategy :
  forall env repo bs options h,
    gitRepo env = Some repo ->
    let d := events (handleBehind env bs options) h in
    let onto := [BranchState.remoteBranch bs] in
    calls isPush d = [] /\
    (Options.rebase options = true ->
     calls isConfig d = [] /\ exists r, calls isIntegrate d = [EGitRebase onto r]) /\
    (Options.rebase options = false -> Options.merge options = true ->
     calls isConfig d = [] /\ exists r, calls isIntegrate d = [EGitMerge onto r]) /\
    (Options.rebase options = false -> Options.merge options = false ->
     match configGetSyncStrategy_ env h with
     | Returned s =>
         exists r, calls isIntegrate d
                   = [if (s =? "rebase")%string then EGitRebase onto r else EGitMerge onto r]
     | Thrown e =>
         calls isIntegrate d = [] /\ outcome (handleBehind env bs options) h = Thrown e
     end).
Proof.
  intros env repo bs options h Hrepo d onto. subst d onto.
  name_run (handleBehind env bs options h).
  unfold handleBehind, getSyncStrategy, configGetSyncStrategy, gitRebase, gitMerge,
    onRepo, log. rewrite Hrepo.
  abstract_lines.
  destruct (Options.rebase options); [| destruct (Options.merge options)].
  all: change (("rebase" =? "rebase")%string) with true;
    change (("merge" =? "rebase")%string) with false.
  all: exec; end_run.
  all: repeat split; try discriminate; intros; try reflexivity;
    try (eexists; reflexivity); try (split; [reflexivity | eexists; reflexivity]).
Qed.

(** No option, a configured strategy that is neither word: the merge. *)
Lemma handleBehind_strategy_witness :
  let world := Fixture.custom Fixture.base (Some Sample.repo)
                 (Sample.always [Sample.origin]) (Sample.always "squash"%string)
                 (Sample.always true) in
  exists r,
    calls isIntegrate
      (events (handleBehind world (Fixture.state (Sample.clean 0 2)) Sample.options) [])
    = [EGitMerge ["origin/main"%string] r].
Proof.
  intro world.
  exact (proj2 (proj2 (proj2 (handleBehind_strategy world Sample.repo
                                (Fixture.state (Sample.clean 0 2)) Sample.options []
                                eq_refl))) eq_refl eq_refl).
Defined.

(** The behind state: the run succeeds when the integration does; a failure
    whose message mentions CONFLICT becomes the merge-conflict error, for a
    rebase as well; any other failure is passed on unchanged. *)
Theorem handleBehind_outcome :
  forall env bs options h ev,
    In ev (calls isIntegrate (events (handleBehind env bs options) h)) ->
    (forall e, failedIntegration e ev ->
       outcome (handleBehind env bs options) h =
       Thrown (if includes (errMessage e) "CONFLICT"
               then newError "Merge conflicts need to be resolved" else e)) /\
    ((forall e, ~ failedIntegration e ev) ->
     outcome (handleBehind env bs options) h = Returned tt).
Proof.
  intros env bs options h ev.
  name_run (handleBehind env bs options h).
  unfold handleBehind, getSyncStrategy, configGetSyncStrategy, gitRebase, gitMerge,
    onRepo, log.
  abstract_lines. exec; end_run.
  all: unfold calls; cbn [filter isIntegrate In]; intro Hin.
  all: repeat match type of Hin with
              | _ \/ _ => destruct Hin as [Hin | Hin]
              | False => destruct Hin
              | _ = _ => subst ev
              end.
  all: split;
    [ intros err [(args & Hev) | (args & Hev)]; try congruence;
      injection Hev as ? ?; subst;
      try (match goal with H : includes _ _ = _ |- _ => rewrite H end); reflexivity
    | intro Hnone; try reflexivity; exfalso; eapply Hnone;
      first [left; eexists; reflexivity | right; eexists; reflexivity] ].
Qed.

(** Scenario C: behind by two, rebase, conflict. *)
Lemma handleBehind_outcome_witness :
  let world := Sample.scenario (Sample.clean 0 2) ["origin/main"%string] "rebase"
                 Sample.conflict (Sample.always tt) (Sample.always tt) in
  outcome (handleBehind world (Fixture.state (Sample.clean 0 2)) Sample.options) []
  = Thrown (newError "Merge conflicts need to be resolved").
Proof.
  intro world.
  refine (proj1 (handleBehind_outcome world (Fixture.state (Sample.clean 0 2)) Sample.options []
                   (EGitRebase ["origin/main"%string]
                      (Thrown (newError "CONFLICT (content): Merge conflict in README.md")))
                   _)
            (newError "CONFLICT (content): Merge conflict in README.md") _).
  - vm_compute. left. reflexivity.
  - left. eexists. reflexivity.
Defined.

(** The new-branch state: with a repository object exactly one push is made,
    the one that sets the upstream ([-u]); every failure of it is
    reported as a failure to create the remote branch, with the original
    message appended; nothing is integrated. *)
Theorem handleNewBranch_pushes_upstream :
  forall env repo bs options h,
    gitRepo env = Some repo ->
    let d := events (handleNewBranch env bs options) h in
    exists r,
      calls isPush d
      = [EGitPush [BranchState.remote bs; BranchState.currentBranch bs; "-u"%string] r] /\
      calls isIntegrate d = [] /\
      outcome (handleNewBranch env bs options) h =
      match r with
      | Returned _ => Returned tt
      | Thrown e => Thrown (newError ("Failed to create remote branch: " ++ errMessage e)%string)
      end.
Proof.
  intros env repo bs options h Hrepo d. subst d.
  name_run (handleNewBranch env bs options h).
  unfold handleNewBranch, gitPush, onRepo, log. rewrite Hrepo.
  abstract_lines. exec; end_run.
  all: eexists; repeat split; reflexivity.
Qed.

(** Scenario E: the first push of a branch. *)
Lemma handleNewBranch_pushes_upstream_witness :
  exists r,
    calls isPush
      (events (handleNewBranch Fixture.base
                 (branchStateOf "main" "origin" (Sample.clean 1 0) []) Sample.options) [])
    = [EGitPush ["origin"; "main"; "-u"]%string r].
Proof.
  destruct (handleNewBranch_pushes_upstream Fixture.base Sample.repo
              (branchStateOf "main" "origin" (Sample.clean 1 0) []) Sample.options []
              eq_refl) as (r & Hpush & _).
  exists r. exact Hpush.
Defined.

(** The diverged state never pushes with the unconditional [--force],
    whatever the options say: a raw push is only made with
    [--force-with-lease], after the user has chosen the force push and has
    confirmed it; a plain push is only made after a rebase or a merge that
    succeeded. *)
Theorem handleDiverged_pushes :
  forall env bs options h,
    let d := events (handleDiverged env bs options) h in
    (forall args r, In (EGitPush args r) d ->
       args = [BranchState.remote bs; BranchState.currentBranch bs;
               "--force-with-lease"%string] /\
       (exists m, In (EPromptList m (Returned "force"%string)) d) /\
       (exists m, In (EPromptConfirm m (Returned true)) d)) /\
    (forall remote branch r, In (EPush remote branch r) d ->
       remote = BranchState.remote bs /\ branch = BranchState.currentBranch bs /\
       exists ev, calls isIntegrate d = [ev] /\ forall e, ~ failedIntegration e ev).
Proof.
  intros env bs options h d. subst d.
  name_run (handleDiverged env bs options h).
  unfold handleDiverged, handleRebaseDiverged, handleMergeDiverged, handleForcePushDiverged,
    promptList, promptConfirm, gitRebase, gitMerge, gitPush, push, onRepo, log.
  abstract_lines. exec; end_run.
  all: split; [intros args r Hin | intros remote branch r Hin]; in_trace Hin.
  all: repeat match goal with
              | H : negb ?b = _ |- _ => destruct b; try discriminate H; clear H
              end.
  all: repeat match goal with
              | H : (_ =? _)%string = true |- _ => apply String.eqb_eq in H; subst
              end.
  all: first
    [ solve [ split; [reflexivity |];
              split; eexists; cbn [In]; repeat (first [left; reflexivity | right]) ]
    | solve [ split; [reflexivity |]; split; [reflexivity |];
              eexists; split; [reflexivity |];
              intros e0 [(args0 & Hev) | (args0 & Hev)]; discriminate Hev ] ].
Qed.

(** Declining in the diverged state: after the choice [cancel] the run ends
    with the cancellation error, and after a refused confirmation of the
    force push with its own cancellation error; in both cases nothing was
    pushed or integrated. *)
Theorem handleDiverged_declined :
  forall env bs options h,
    let d := events (handleDiverged env bs options) h in
    let o := outcome (handleDiverged env bs options) h in
    ((exists m, In (EPromptList m (Returned "cancel"%string)) d) ->
     o = Thrown (newError "Sync cancelled by user") /\
     calls isPush d = [] /\ calls isIntegrate d = []) /\
    ((exists m, In (EPromptConfirm m (Returned false)) d) ->
     o = Thrown (newError "Force push cancelled by user") /\
     calls isPush d = [] /\ calls isIntegrate d = []).
Proof.
  intros env bs options h d o. subst d o.
  name_run (handleDiverged env bs options h).
  unfold handleDiverged, handleRebaseDiverged, handleMergeDiverged, handleForcePushDiverged,
    promptList, promptConfirm, gitRebase, gitMerge, gitPush, push, onRepo, log.
  abstract_lines. exec; end_run.
  all: split; intros [m Hin]; in_trace Hin.
  all: try match goal with
           | H : (_ =? _)%string = _ |- _ => vm_compute in H; discriminate H
           end.
  all: repeat match goal with
              | H : negb ?b = _ |- _ => destruct b; try discriminate H; clear H
              end.
  all: repeat split; reflexivity.
Qed.

(** Scenario D: the user cancels. *)
Lemma handleDiverged_declined_witness :
  let world := Sample.world (Sample.clean 2 3) ["origin/main"%string] "cancel" in
  outcome (handleDiverged world (Fixture.state (Sample.clean 2 3)) Sample.options) []
  = Thrown (newError "Sync cancelled by user").
Proof.
  intro world.
  refine (proj1 (proj1 (handleDiverged_declined world (Fixture.state (Sample.clean 2 3))
                          Sample.options []) _)).
  eexists. vm_compute. do 3 right. left. reflexivity.
Defined.

(** The force push of the diverged state, once chosen and confirmed, with
    [--force] requested on the command line as well. *)
Lemma handleDiverged_pushes_witness :
  let world := Sample.world (Sample.clean 2 3) ["origin/main"%string] "force" in
  let forced := Options.mk "origin" None false false true false false false in
  calls isPush (events (handleDiverged world (Fixture.state (Sample.clean 2 3)) forced) [])
  = [EGitPush ["origin"; "main"; "--force-with-lease"]%string (Returned tt)] /\
  (["origin"; "main"; "--force-with-lease"]%string
   = [BranchState.remote (Fixture.state (Sample.clean 2 3));
      BranchState.currentBranch (Fixture.state (Sample.clean 2 3));
      "--force-with-lease"%string]).
Proof.
  intros world forced. split; [reflexivity |].
  refine (proj1 (proj1 (handleDiverged_pushes world (Fixture.state (Sample.clean 2 3))
                          forced [])
                   ["origin"; "main"; "--force-with-lease"]%string (Returned tt) _)).
  vm_compute. do 8 right. left. reflexivity.
Defined.

(** *** The executor around the handlers *)

(** A stash call that fails ends the run at once with that error: the
    bracketed step is not started and no pop is attempted, since the
    [try]/[finally] has not been entered yet. *)
Theorem executeSyncStrategy_stash_failure :
  forall env bs options h label e,
    let d := events (executeSyncStrategy env bs options) h in
    In (EStash label (Thrown e)) d ->
    d = [ELog stashingLine; EStash autoStashLabel (Thrown e)] /\
    outcome (executeSyncStrategy env bs options) h = Thrown e.
Proof.
  intros env bs options h label e d Hin. subst d.
  destruct (executeSyncStrategy_run env bs options h)
    as [(_ & He & _) | [(_ & _ & He & _) | [(_ & _ & e' & He & Ho) | (_ & _ & p & He & _)]]];
    rewrite He in Hin |- *.
  - apply (not_in_never isStash) in Hin;
      [contradiction | apply syncSwitch_never_stash | reflexivity].
  - in_trace Hin.
  - in_trace Hin. split; [reflexivity | exact Ho].
  - exfalso. in_trace Hin.
    apply in_app_or in Hin. destruct Hin as [Hin | Hin].
    + apply (not_in_never isStash) in Hin;
        [contradiction | apply syncSwitch_never_stash | reflexivity].
    + destruct p; simpl in Hin; in_trace Hin.
Qed.

Lemma executeSyncStrategy_stash_failure_witness :
  let world := Fixture.answering (Sample.world (Sample.dirty 0 2) ["origin/main"%string] "rebase")
                 (Sample.always tt) (Sample.always (Sample.dirty 0 2))
                 (Sample.always ["origin/main"%string])
                 (Sample.failing "fatal: unable to write new index file") in
  outcome (executeSyncStrategy world (Fixture.state (Sample.dirty 0 2)) Sample.options) []
  = Thrown (newError "fatal: unable to write new index file").
Proof.
  intro world.
  refine (proj2 (executeSyncStrategy_stash_failure world (Fixture.state (Sample.dirty 0 2))
                   Sample.options [] autoStashLabel
                   (newError "fatal: unable to write new index file") _)).
  vm_compute. right. left. reflexivity.
Defined.

(** The up-to-date state: nothing is pushed or integrated and nobody is
    asked; the only calls are the stash and its pop around two console
    lines, made when the tree is dirty.  The run returns normally when the
    tree is clean and when the stash succeeded, also if the pop then
    failed. *)
Theorem upToDate_only_stashes :
  forall env bs options h,
    BranchState.status bs = "up-to-date"%string ->
    let d := events (executeSyncStrategy env bs options) h in
    let o := outcome (executeSyncStrategy env bs options) h in
    calls isPush d = [] /\ calls isIntegrate d = [] /\ calls isPrompt d = [] /\
    calls isConfig d = [] /\
    (BranchState.hasUncommittedChanges bs = false -> calls isCall d = [] /\ o = Returned tt) /\
    ((exists label, In (EStash label (Returned tt)) d) ->
     o = Returned tt /\
     exists popResult,
       calls isCall d = [EStash autoStashLabel (Returned tt); EStashPop popResult]).
Proof.
  intros env bs options h Hs d o. subst d o.
  assert (Hstep : syncSwitch env bs options = handleUpToDate bs)
    by (unfold syncSwitch; rewrite Hs; reflexivity).
  assert (Hclean : BranchState.hasUncommittedChanges bs = false -> shouldStash bs = false)
    by (unfold shouldStash; intros ->; reflexivity).
  destruct (executeSyncStrategy_run env bs options h)
    as [(Hc & He & Ho) | [(Hc & _ & He & _) | [(Hc & _ & e & He & _) | (Hc & _ & p & He & Ho)]]];
    rewrite He; try rewrite Ho; rewrite ?Hstep.
  1-3: do 4 (split; [reflexivity |]).
  1-3: split;
    [ intro Hf; first [split; reflexivity | rewrite (Hclean Hf) in Hc; discriminate Hc]
    | intros [label Hin];
      cbv beta iota zeta delta [events handleUpToDate log bind emit snd app] in Hin;
      in_trace Hin ].
  destruct p as [[] | e]; do 4 (split; [reflexivity |]).
  all: split;
    [ intro Hf; rewrite (Hclean Hf) in Hc; discriminate Hc
    | intros _; split; [reflexivity | eexists; reflexivity] ].
Qed.

(** A dirty tree on an up-to-date branch, where the pop fails. *)
Lemma upToDate_only_stashes_witness :
  let world := Sample.scenario (Sample.dirty 0 0) ["origin/main"%string] "rebase"
                 (Sample.always tt) (Sample.always tt) (Sample.failing "could not restore") in
  outcome (executeSyncStrategy world (Fixture.state (Sample.dirty 0 0)) Sample.options) []
  = Returned tt.
Proof.
  intro world.
  refine (proj1 (proj2 (proj2 (proj2 (proj2 (proj2
            (upToDate_only_stashes world (Fixture.state (Sample.dirty 0 0)) Sample.options []
               eq_refl))))) _)).
  exists autoStashLabel. vm_compute. right. left. reflexivity.
Defined.

(** *** analyzeBranchState *)

(** The analysis only reads.  Whatever fails in it (the status query, the
    branch list, or a missing repository object) is thrown again as a plain
    [Error] whose message is the original one behind the analysis prefix;
    after a failed status query the branch list is not asked for.  When both
    queries answer, the result is the branch state built from the two
    answers. *)
Theorem analyzeBranchState_outcome :
  forall env currentBranch remote h,
    let d := events (analyzeBranchState env currentBranch remote) h in
    let o := outcome (analyzeBranchState env currentBranch remote) h in
    calls isEffect d = [] /\
    (forall e, o = Thrown e ->
       errName e = "Error"%string /\
       exists cause, errMessage e = (analysisFailure ++ cause)%string) /\
    (forall e, In (EGetStatus (Thrown e)) d ->
       o = Thrown (newError (analysisFailure ++ errMessage e)) /\
       calls isGetBranches d = []) /\
    (forall e, In (EGetBranches (Thrown e)) d ->
       o = Thrown (newError (analysisFailure ++ errMessage e))) /\
    (forall status all,
       In (EGetStatus (Returned status)) d -> In (EGetBranches (Returned all)) d ->
       o = Returned (branchStateOf currentBranch remote status all)).
Proof.
  intros env currentBranch remote h d o. subst d o.
  name_run (analyzeBranchState env currentBranch remote h).
  unfold analyzeBranchState, getStatus, getBranches, onRepo.
  exec; end_run.
  all: split; [reflexivity |].
  all: split; [intros err Herr;
               first [ discriminate Herr
                     | injection Herr as <-; split; [reflexivity | eexists; reflexivity] ] |].
  all: split; [intros err Hin; in_trace Hin; split; reflexivity |].
  all: split; [intros err Hin; in_trace Hin; reflexivity |].
  all: intros status all Hs Hb; in_trace Hs; in_trace Hb; reflexivity.
Qed.

(** The status query fails: the analysis stops there. *)
Lemma analyzeBranchState_outcome_witness :
  let world := Fixture.answering Fixture.base (Sample.always tt)
                 (Sample.failing "fatal: bad object HEAD")
                 (Sample.always ["origin/main"%string]) (Sample.always tt) in
  outcome (analyzeBranchState world "main" "origin") []
  = Thrown (newError "Failed to analyze branch state: fatal: bad object HEAD") /\
  calls isGetBranches (events (analyzeBranchState world "main" "origin") []) = [].
Proof.
  intro world.
  refine (proj1 (proj2 (proj2 (analyzeBranchState_outcome world "main" "origin" [])))
            (newError "fatal: bad object HEAD") _).
  vm_compute. left. reflexivity.
Defined.

(** *** checkNetworkConnectivity *)

Lemma find_remote_some remote remotes info :
  find (fun r => (RemoteInfo.name r =? remote)%string) remotes = Some info ->
  In info remotes /\ RemoteInfo.name info = remote.
Proof.
  intro Hf. apply find_some in Hf. destruct Hf as [Hin Heq].
  apply String.eqb_eq in Heq. split; assumption.
Qed.

Lemma find_remote_none remote remotes :
  (forall info, In info remotes -> RemoteInfo.name info <> remote) ->
  find (fun r => (RemoteInfo.name r =? remote)%string) remotes = None.
Proof.
  intro Hnone.
  destruct (find _ remotes) as [info |] eqn:Hf; [| reflexivity].
  apply find_remote_some in Hf. destruct Hf as [Hin Heq].
  exfalso. exact (Hnone info Hin Heq).
Qed.

(** The remote is probed only if the repository lists a remote of that
    name, with [ls-remote --heads <remote>], and at most once.  When the
    probe answers, the check returns without printing or storing
    anything. *)
Theorem checkNetworkConnectivity_probe :
  forall env remote h,
    let d := events (checkNetworkConnectivity env remote) h in
    let o := outcome (checkNetworkConnectivity env remote) h in
    (forall args r, In (EGitRaw args r) d ->
       args = probeArgs remote /\
       calls isGitRaw d = [EGitRaw args r] /\
       exists remotes info,
         In (EGetRemotes (Returned remotes)) d /\
         In info remotes /\ RemoteInfo.name info = remote) /\
    (forall args out, In (EGitRaw args (Returned out)) d ->
       o = Returned tt /\ calls isConsole d = [] /\ calls isFileAccess d = []).
Proof.
  intros env remote h d o. subst d o.
  name_run (checkNetworkConnectivity env remote h).
  unfold checkNetworkConnectivity, queueSyncOperation, mkdir, readFile, writeFile,
    JSON_parse, arrayPush, getCurrentBranch, getRemotes, gitRaw, freeIdentifier_options,
    onRepo, log, warn, JSON_stringify.
  abstract_lines. exec; end_run.
  all: split; [intros args r Hin | intros args out Hin]; in_trace Hin.
  all: try solve [repeat split; reflexivity].
  all: split; [reflexivity |]; split; [reflexivity |].
  all: match goal with
       | H : find _ ?remotes = Some ?info |- _ =>
           apply find_remote_some in H; destruct H as [Hin Hname];
           exists remotes, info; split; [left; reflexivity | split; assumption]
       end.
Qed.

(** The remote of the sample world answers the probe. *)
Lemma checkNetworkConnectivity_probe_witness :
  outcome (checkNetworkConnectivity Fixture.base "origin") [] = Returned tt /\
  calls isConsole (events (checkNetworkConnectivity Fixture.base "origin") []) = [] /\
  calls isFileAccess (events (checkNetworkConnectivity Fixture.base "origin") []) = [].
Proof.
  refine (proj2 (checkNetworkConnectivity_probe Fixture.base "origin" [])
            (probeArgs "origin") EmptyString _).
  vm_compute. right. left. reflexivity.
Defined.

(** Failures that are not of the network class pass through the check
    unchanged, with nothing printed, queued or read: a failing remote list,
    a failing probe, and a remote that the repository does not list.  In
    the last case the probe is not made, and the error names the remote and
    the remotes that exist. *)
Theorem checkNetworkConnectivity_hard_failure :
  forall env remote h,
    let d := events (checkNetworkConnectivity env remote) h in
    let o := outcome (checkNetworkConnectivity env remote) h in
    (forall e, isNetworkError e = false ->
       (In (EGetRemotes (Thrown e)) d \/ exists args, In (EGitRaw args (Thrown e)) d) ->
       o = Thrown e /\ calls isConsole d = [] /\ calls isFileAccess d = []) /\
    (forall remotes,
       In (EGetRemotes (Returned remotes)) d ->
       (forall info, In info remotes -> RemoteInfo.name info <> remote) ->
       calls isGitRaw d = [] /\
       (isNetworkError (remoteNotFound remote remotes) = false ->
        o = Thrown (remoteNotFound remote remotes) /\
        d = [EGetRemotes (Returned remotes)])).
Proof.
  intros env remote h d o. subst d o.
  name_run (checkNetworkConnectivity env remote h).
  unfold checkNetworkConnectivity, queueSyncOperation, mkdir, readFile, writeFile,
    JSON_parse, arrayPush, getCurrentBranch, getRemotes, gitRaw, freeIdentifier_options,
    onRepo, log, warn, JSON_stringify.
  abstract_lines. exec; end_run.
  all: split;
    [ intros err Hnet [Hin | [args Hin]]; in_trace Hin;
      try congruence; repeat split; reflexivity
    | intros remotes Hin Hnone; in_trace Hin;
      first
        [ solve [apply find_remote_none in Hnone; congruence]
        | split; [reflexivity |]; intro Hnet;
          first [congruence | split; reflexivity] ] ].
Qed.

(** A remote that is not configured. *)
Lemma checkNetworkConnectivity_hard_failure_witness :
  outcome (checkNetworkConnectivity Fixture.base "upstream") []
  = Thrown (newError ("Remote " ++ dq ++ "upstream" ++ dq
                        ++ " not found. Available remotes: origin")) /\
  events (checkNetworkConnectivity Fixture.base "upstream") []
  = [EGetRemotes (Returned [Sample.origin])].
Proof.
  refine (proj2 (proj2 (checkNetworkConnectivity_hard_failure Fixture.base "upstream" [])
                   [Sample.origin] _ _) _).
  - vm_compute. left. reflexivity.
  - intros info [<- | []]. vm_compute. discriminate.
  - vm_compute. reflexivity.
Defined.

(** *** execute: what comes before the first change *)

Lemma pickBranch_never_mutation env options : never isMutation (pickBranch env options).
Proof. never_tac. Qed.

Lemma probe_never_mutation env options : never isMutation (probe env options).
Proof. never_tac. Qed.

Lemma analyzeBranchState_never_mutation env currentBranch remote :
  never isMutation (analyzeBranchState env currentBranch remote).
Proof. never_tac. Qed.

Lemma showDryRun_never_mutation env bs options : never isMutation (showDryRun env bs options).
Proof. never_tac. Qed.

Lemma pickBranch_chosen env options h currentBranch :
  outcome (pickBranch env options) h = Returned currentBranch ->
  branchChosen options (events (pickBranch env options) h) currentBranch.
Proof.
  unfold pickBranch, branchChosen, getCurrentBranch, onRepo.
  destruct (Options.branch options) as [b |]; [destruct (truthy b) |].
  1: { intro H. injection H as <-. reflexivity. }
  all: destruct (gitRepo env); [| discriminate];
    rewrite outcome_ask, events_ask; intros ->; left; reflexivity.
Qed.

Lemma branchChosen_incl options (d d' : Trace) branch :
  (forall e, In e d -> In e d') -> branchChosen options d branch -> branchChosen options d' branch.
Proof.
  unfold branchChosen. intro Hincl.
  destruct (Options.branch options) as [b |]; [destruct (truthy b) |]; auto.
Qed.

(** What has happened when [execute] makes a change. *)
Lemma execute_before_changes env options h ev :
  let d := events (execute env options) h in
  In ev d -> isMutation ev = true ->
  Options.dryRun options = false /\
  (exists repo, gitRepo env = Some repo /\ GitRepository.isInitialized repo = true) /\
  exists before status all currentBranch,
    let bs := branchStateOf currentBranch (Options.remote options) status all in
    d = before ++ events (executeSyncStrategy env bs options) (h ++ before) /\
    calls isMutation before = [] /\
    In (EFetch (Options.remote options) (Returned tt)) before /\
    In (EGetStatus (Returned status)) before /\
    In (EGetBranches (Returned all)) before /\
    branchChosen options before currentBranch.
Proof.
  intros d Hin Hmut. subst d. revert Hin. rewrite execute_stages.
  pose proof (pickBranch_never_mutation env options) as Hpick.
  pose proof (probe_never_mutation env options) as Hprobe.
  assert (Hquiet : forall t : Trace, calls isMutation t = [] -> In ev t -> False).
  { intros t Ht Hin. apply (calls_nil_In isMutation _ _ Ht) in Hin. congruence. }
  rewrite events_bind, requireRepository_events.
  destruct (outcome (requireRepository env) h) as [[] | e] eqn:Hguard; [| intros []].
  destruct (requireRepository_returned env h tt Hguard) as (repo & Hrepo & Hinit).
  unfold log. rewrite events_bind, outcome_emit, events_emit.
  match goal with |- context [ELog ?s] => generalize s; intro line1 end.
  rewrite events_bind.
  destruct (outcome (pickBranch env options) _) as [currentBranch | e] eqn:Hpicked;
    [| intro Hin; exfalso; revert Hin; apply Hquiet;
       rewrite !calls_app, Hpick; reflexivity].
  rewrite events_bind.
  destruct (outcome (probe env options) _) as [[] | e];
    [| intro Hin; exfalso; revert Hin; apply Hquiet;
       rewrite !calls_app, Hpick, Hprobe; reflexivity].
  unfold afterProbe, log, fetchStage, afterFetch.
  rewrite events_bind, outcome_emit, events_emit.
  match goal with |- context [ELog ?s] =>
    tryif is_var s then fail else (generalize s; intro line2) end.
  destruct (Options.dryRun options) eqn:Hdry; cbv [negb].
  - (* a dry run *)
    rewrite events_bind, outcome_ret, events_ret, events_bind.
    intro Hin. exfalso. revert Hin. apply Hquiet.
    rewrite !calls_app, Hpick, Hprobe.
    rewrite (analyzeBranchState_never_mutation env currentBranch (Options.remote options)).
    destruct (outcome (analyzeBranchState env currentBranch (Options.remote options)) _);
      [rewrite (showDryRun_never_mutation env) |]; reflexivity.
  - unfold fetch, onRepo. rewrite Hrepo.
    rewrite events_bind, outcome_ask, events_ask.
    match goal with
    | |- context [fetch_ env ?r ?hh] => destruct (fetch_ env r hh) as [[] | e]
    end;
      [| intro Hin; exfalso; revert Hin; apply Hquiet;
         rewrite !calls_app, Hpick, Hprobe; reflexivity].
    rewrite events_bind.
    match goal with
    | |- context [outcome (analyzeBranchState env currentBranch ?r) ?hh] =>
        pose proof (analyzeBranchState_never_mutation env currentBranch r hh) as Hana;
        destruct (outcome (analyzeBranchState env currentBranch r) hh) as [bs | e] eqn:Hout
    end.
    + apply analyzeBranchState_returned in Hout.
      destruct Hout as (status & all & Hev & ->).
      rewrite Hev in Hana |- *. clear Hev. intros _.
      split; [reflexivity |].
      split; [exists repo; split; [reflexivity | exact Hinit] |].
      rewrite !app_nil_r. cbn [app].
      set (E1 := events (pickBranch env options) (h ++ [ELog line1])).
      set (E2 := events (probe env options) ((h ++ [ELog line1]) ++ E1)).
      exists ([ELog line1] ++ E1 ++ E2 ++ [ELog line2]
                ++ [EFetch (Options.remote options) (Returned tt)]
                ++ [EGetStatus (Returned status); EGetBranches (Returned all)]),
        status, all, currentBranch.
      cbv zeta. repeat rewrite <- app_assoc.
      split; [reflexivity |].
      split; [rewrite !calls_app; subst E1 E2; rewrite Hpick, Hprobe; reflexivity |].
      split; [| split; [| split]]; try (repeat rewrite in_app_iff; cbn [In]; auto 10).
      rewrite app_nil_r in Hpicked. apply pickBranch_chosen in Hpicked. fold E1 in Hpicked.
      revert Hpicked. apply branchChosen_incl.
      intros e0 He0. repeat rewrite in_app_iff. auto.
    + intro Hin. exfalso. revert Hin. apply Hquiet.
      rewrite !calls_app, Hpick, Hprobe, Hana. reflexivity.
Qed.


(** Whenever [execute] stashes, pops, pushes, rebases or merges, this is
    not a dry run, the repository object is initialized, and the run has
    before that, and without any such call, completed the fetch of the
    requested remote and both queries of the analysis; the changes are those
    of the executor run on the analyzed state. *)
Theorem execute_changes_after_analysis :
  forall env options h ev,
    let d := events (execute env options) h in
    In ev d -> isMutation ev = true ->
    Options.dryRun options = false /\
    (exists repo, gitRepo env = Some repo /\ GitRepository.isInitialized repo = true) /\
    exists before status all currentBranch,
      let bs := branchStateOf currentBranch (Options.remote options) status all in
      d = before ++ events (executeSyncStrategy env bs options) (h ++ before) /\
      calls isMutation before = [] /\
      In (EFetch (Options.remote options) (Returned tt)) before /\
      In (EGetStatus (Returned status)) before /\
      In (EGetBranches (Returned all)) before.
Proof.
  intros env options h ev d Hin Hmut.
  destruct (execute_before_changes env options h ev Hin Hmut)
    as (Hdry & Hrepo & before & status & all & currentBranch & Hd & Hq & Hf & Hs & Hb & _).
  split; [exact Hdry |]. split; [exact Hrepo |].
  exists before, status, all, currentBranch. cbv zeta. auto.
Qed.

(** Scenario A: the push of an ahead branch. *)
Lemma execute_changes_after_analysis_witness :
  let world := Sample.world (Sample.clean 3 0) ["origin/main"%string] "rebase" in
  exists before status all currentBranch,
    events (execute world Sample.options) []
    = before ++ events (executeSyncStrategy world
                          (branchStateOf currentBranch "origin" status all) Sample.options)
                  ([] ++ before) /\
    calls isMutation before = [] /\
    In (EFetch "origin" (Returned tt)) before.
Proof.
  intro world.
  destruct (execute_changes_after_analysis world Sample.options []
              (EPush "origin" "main" (Returned tt)))
    as (_ & _ & before & status & all & currentBranch & Hd & Hquiet & Hfetch & _).
  - vm_compute. do 9 right. left. reflexivity.
  - reflexivity.
  - exists before, status, all, currentBranch.
    split; [exact Hd |]. split; [exact Hquiet | exact Hfetch].
Defined.

(** *** execute: failures of the fetch and of the analysis *)

Lemma calls_cons kind (e : Event) (d : Trace) :
  calls kind (e :: d) = if kind e then e :: calls kind d else calls kind d.
Proof. reflexivity. Qed.

(** What the stages around the fetch and the analysis never do. *)
Lemma pickBranch_quiet env options h :
  let d := snd (pickBranch env options h) in
  calls isFetchOrQuery d = [] /\ calls isMutation d = [] /\ calls isPrompt d = [].
Proof.
  repeat split; revert h;
    [ change (never isFetchOrQuery (pickBranch env options))
    | change (never isMutation (pickBranch env options))
    | change (never isPrompt (pickBranch env options)) ];
    never_tac.
Qed.

Lemma probe_quiet env options h :
  let d := snd (probe env options h) in
  calls isFetchOrQuery d = [] /\ calls isMutation d = [] /\ calls isPrompt d = [].
Proof.
  repeat split; revert h;
    [ change (never isFetchOrQuery (probe env options))
    | change (never isMutation (probe env options))
    | change (never isPrompt (probe env options)) ];
    never_tac.
Qed.

Lemma showDryRun_quiet env bs options h :
  let d := snd (showDryRun env bs options h) in
  calls isFetchOrQuery d = [] /\ calls isMutation d = [] /\ calls isPrompt d = [].
Proof.
  repeat split; revert h;
    [ change (never isFetchOrQuery (showDryRun env bs options))
    | change (never isMutation (showDryRun env bs options))
    | change (never isPrompt (showDryRun env bs options)) ];
    never_tac.
Qed.

Lemma executeSyncStrategy_quiet env bs options h :
  calls isFetchOrQuery (snd (executeSyncStrategy env bs options h)) = [].
Proof.
  revert h. change (never isFetchOrQuery (executeSyncStrategy env bs options)).
  unfold executeSyncStrategy. never_tac.
Qed.

(** [execute] fails fast.  A fetch that fails ends the run with the error
    of the fetch, before any query of the analysis.  A status query or a
    branch list that fails ends the run with the analysis error that quotes
    it, in a dry run as well.  In both cases nothing has been stashed,
    pushed, rebased or merged, and nobody has been asked. *)
Theorem execute_fails_fast :
  forall env options h,
    let d := events (execute env options) h in
    let o := outcome (execute env options) h in
    (forall remote e, In (EFetch remote (Thrown e)) d ->
       o = Thrown e /\
       calls isFetchOrQuery d = [EFetch (Options.remote options) (Thrown e)] /\
       calls isMutation d = [] /\ calls isPrompt d = []) /\
    (forall e, In (EGetStatus (Thrown e)) d \/ In (EGetBranches (Thrown e)) d ->
       o = Thrown (newError (analysisFailure ++ errMessage e)) /\
       calls isMutation d = [] /\ calls isPrompt d = []).
Proof.
  intros env options h d o. subst d o.
  name_run (execute env options h).
  rewrite execute_stages.
  unfold requireRepository, afterProbe, fetchStage, afterFetch, analyzeBranchState,
    fetch, getStatus, getBranches, onRepo, log.
  abstract_lines.
  destruct (Options.dryRun options) eqn:Hdry; cbv [negb].
  all: exec; end_run.
  (* what the stages that were run have not done *)
  all: repeat match goal with
              | H : pickBranch ?env ?options ?h = (_, ?d) |- _ =>
                  let F := fresh "Hquiet" in
                  pose proof (pickBranch_quiet env options h) as F;
                  rewrite H in F; cbn [snd] in F; destruct F as (? & ? & ?); clear H
              | H : probe ?env ?options ?h = (_, ?d) |- _ =>
                  let F := fresh "Hquiet" in
                  pose proof (probe_quiet env options h) as F;
                  rewrite H in F; cbn [snd] in F; destruct F as (? & ? & ?); clear H
              | H : showDryRun ?env ?bs ?options ?h = (_, ?d) |- _ =>
                  let F := fresh "Hquiet" in
                  pose proof (showDryRun_quiet env bs options h) as F;
                  rewrite H in F; cbn [snd] in F; destruct F as (? & ? & ?); clear H
              | H : executeSyncStrategy ?env ?bs ?options ?h = (_, ?d) |- _ =>
                  let F := fresh "Hquiet" in
                  pose proof (executeSyncStrategy_quiet env bs options h) as F;
                  rewrite H in F; cbn [snd] in F; clear H
              end.
  all: split; [intros ? ? Hin | intros ? [Hin | Hin]].
  (* where in the trace the failed call lies *)
  all: repeat first [rewrite in_app_iff in Hin | progress cbn [In] in Hin];
    repeat match type of Hin with
           | _ \/ _ => destruct Hin as [Hin | Hin]
           | False => destruct Hin
           end;
    try discriminate Hin;
    try solve [ exfalso;
                match goal with
                | Hq : calls isFetchOrQuery ?d = [] |- _ =>
                    match type of Hin with
                    | In _ d => apply (calls_nil_In _ _ _ Hq) in Hin; discriminate Hin
                    end
                end ].
  all: try (inversion Hin; subst; clear Hin).
  all: split; [reflexivity |]; repeat split.
  all: repeat first [rewrite calls_cons | rewrite calls_app];
    cbn [isMutation isPrompt isFetchOrQuery];
    repeat match goal with H : calls _ _ = [] |- _ => rewrite H end;
    reflexivity.
Qed.

(** The remote refuses the fetch. *)
Lemma execute_fails_fast_witness :
  let world := Fixture.answering Fixture.base
                 (Sample.failing "fatal: Authentication failed for 'https://example.org/'")
                 (Sample.always (Sample.clean 0 0)) (Sample.always ["origin/main"%string])
                 (Sample.always tt) in
  outcome (execute world Sample.options) []
  = Thrown (newError "fatal: Authentication failed for 'https://example.org/'") /\
  calls isMutation (events (execute world Sample.options) []) = [].
Proof.
  intro world.
  destruct (proj1 (execute_fails_fast world Sample.options []) "origin"%string
              (newError "fatal: Authentication failed for 'https://example.org/'"))
    as (Ho & _ & Hm & _).
  - vm_compute. do 5 right. left. reflexivity.
  - split; [exact Ho | exact Hm].
Defined.

(** *** The offline queue across invocations *)

(** A queuing that ends without a warning has read the queue file once,
    and has written back what it read (nothing, if the read failed or the
    text is not a JSON array) followed by its own entry. *)
Lemma queueSyncOperation_quiet env options h :
  let d := events (queueSyncOperation env options) h in
  calls isWarn d = [] ->
  exists r repo branch,
    In (EReadFile (queueFile env) r) d /\
    (forall r', In (EReadFile (queueFile env) r') d -> r' = r) /\
    (forall text, r = Returned text -> queueStore env h = Some text) /\
    gitRepo env = Some repo /\
    queueStore env (h ++ d)
    = Some (Parsed (JArr (priorEntries r
                            ++ [mkOperation env (GitRepository.workingDir repo)
                                  branch options]))).
Proof.
  intro d. subst d.
  name_run (queueSyncOperation env options h).
  unfold queueSyncOperation, mkdir, readFile, writeFile, JSON_parse, arrayPush,
    getCurrentBranch, onRepo, log, warn, JSON_stringify.
  abstract_lines.
  exec; end_run; intro Hwarn; try discriminate Hwarn.
  all: match type of Hwarn with
       | context [EReadFile _ ?r] => exists r
       end; eexists _, _.
  all: split; [right; left; reflexivity |].
  all: split; [intros r' Hin; in_trace Hin; reflexivity |].
  all: split;
    [ intros text Hr; try discriminate Hr; injection Hr as <-;
      match goal with
      | H : fileAt _ _ _ = Some _ |- _ =>
          rewrite fileAt_app in H; cbn [fold_left] in H; exact H
      end |].
  all: split; [reflexivity |].
  all: unfold queueStore; rewrite fileAt_app; cbn [fold_left];
    rewrite String.eqb_refl; reflexivity.
Qed.

(** What one invocation queues, the next one keeps: if an invocation finds
    the queue file as an earlier one left it, and both queue without a
    warning and the file can be read, then the file afterwards holds what
    it held after the earlier invocation, in the same order, followed by the
    entry of the later one. *)
Theorem queue_grows_across_invocations :
  forall env1 env2 options1 options2 h1 h2,
    let d1 := events (queueSyncOperation env1 options1) h1 in
    let d2 := events (queueSyncOperation env2 options2) h2 in
    queueStore env2 h2 = queueStore env1 (h1 ++ d1) ->
    calls isWarn d1 = [] -> calls isWarn d2 = [] ->
    (forall e, ~ In (EReadFile (queueFile env2) (Thrown e)) d2) ->
    exists entries repo1 branch1 repo2 branch2,
      gitRepo env1 = Some repo1 /\ gitRepo env2 = Some repo2 /\
      let first := mkOperation env1 (GitRepository.workingDir repo1) branch1 options1 in
      let second := mkOperation env2 (GitRepository.workingDir repo2) branch2 options2 in
      queueStore env1 (h1 ++ d1) = Some (Parsed (JArr (entries ++ [first]))) /\
      queueStore env2 (h2 ++ d2) = Some (Parsed (JArr (entries ++ [first; second]))).
Proof.
  intros env1 env2 options1 options2 h1 h2 d1 d2 Hdisk Hw1 Hw2 Hread.
  destruct (queueSyncOperation_quiet env1 options1 h1 Hw1)
    as (r1 & repo1 & branch1 & _ & _ & _ & Hrepo1 & Hstore1).
  destruct (queueSyncOperation_quiet env2 options2 h2 Hw2)
    as (r2 & repo2 & branch2 & Hin & _ & Hsame & Hrepo2 & Hstore2).
  fold d1 in Hstore1. fold d2 in Hstore2, Hin.
  exists (priorEntries r1), repo1, branch1, repo2, branch2.
  split; [exact Hrepo1 |]. split; [exact Hrepo2 |]. cbv zeta.
  split; [exact Hstore1 |].
  rewrite Hstore2. do 3 f_equal.
  destruct r2 as [text | e]; [| destruct (Hread e Hin)].
  specialize (Hsame text eq_refl). rewrite Hdisk, Hstore1 in Hsame.
  injection Hsame as <-. cbn [priorEntries]. rewrite <- app_assoc. reflexivity.
Qed.

(** Two invocations, a day apart, on an empty queue. *)
Lemma queue_grows_across_invocations_witness :
  let offline := Sample.custom (Sample.world (Sample.clean 0 2) ["origin/main"%string] "rebase")
                   Sample.unreachable None in
  let world1 := offline Sample.noFiles None None in
  let world2 := Sample.atTime "2024-05-02T08:30:00.000Z" 1714638600000
                  (offline (Sample.queueHolds
                              (Parsed (JArr [mkOperation world1 "/work/project" "main"
                                               Sample.options]))) None None) in
  exists entries first second,
    queueStore world1 ([] ++ events (queueSyncOperation world1 Sample.options) [])
    = Some (Parsed (JArr (entries ++ [first]))) /\
    queueStore world2 ([] ++ events (queueSyncOperation world2 Sample.dryRunOptions) [])
    = Some (Parsed (JArr (entries ++ [first; second]))).
Proof.
  intros offline world1 world2.
  destruct (queue_grows_across_invocations world1 world2 Sample.options Sample.dryRunOptions
              [] [])
    as (entries & repo1 & branch1 & repo2 & branch2 & _ & _ & Hs1 & Hs2).
  - reflexivity.
  - reflexivity.
  - reflexivity.
  - intros e Hin. vm_compute in Hin.
    repeat destruct Hin as [Hin | Hin]; try discriminate Hin; try contradiction.
  - eexists entries, _, _. split; [exact Hs1 | exact Hs2].
Defined.

(** ** The error analysis of ErrorHandler *)

Lemma prefix_foldCases p s :
  String.prefix p s = true ->
  String.prefix (ErrorHandler.foldCases p) (ErrorHandler.foldCases s) = true.
Proof.
  revert s. induction p as [| c p IH]; intros s Hp; [destruct s; reflexivity |].
  destruct s as [| c' s]; [discriminate Hp |].
  cbn [String.prefix ErrorHandler.foldCases] in Hp |- *.
  destruct (ascii_dec c c') as [-> |]; [| discriminate Hp].
  destruct (ascii_dec (ErrorHandler.foldCase c') (ErrorHandler.foldCase c'));
    [apply IH, Hp | congruence].
Qed.

Lemma includes_foldCases s p :
  includes s p = true ->
  includes (ErrorHandler.foldCases s) (ErrorHandler.foldCases p) = true.
Proof.
  induction s as [| c s IH]; cbn [includes ErrorHandler.foldCases].
  - destruct (String.prefix p EmptyString) eqn:Hp; [| discriminate].
    intros _. apply prefix_foldCases in Hp. cbn [ErrorHandler.foldCases] in Hp.
    rewrite Hp. reflexivity.
  - destruct (String.prefix p (String c s)) eqn:Hp.
    + intros _. apply prefix_foldCases in Hp. cbn [ErrorHandler.foldCases] in Hp.
      rewrite Hp. reflexivity.
    + intro Hs. rewrite (IH Hs).
      match goal with |- (if ?b then _ else _) = _ => destruct b end; reflexivity.
Qed.

(** The literal test of line 219 adds nothing to the regular expression. *)
Lemma matchesPattern_ignores_case m p :
  ErrorHandler.matchesPattern m p = ErrorHandler.matchIgnoreCase m p.
Proof.
  unfold ErrorHandler.matchesPattern.
  destruct (includes m p) eqn:Hi; [| reflexivity].
  apply includes_foldCases in Hi. unfold ErrorHandler.matchIgnoreCase. rewrite Hi. reflexivity.
Qed.

Lemma find_pointwise {A} (f g : A -> bool) (l : list A) :
  (forall x, f x = g x) -> find f l = find g l.
Proof.
  intro Hfg. induction l as [| x l IH]; [reflexivity |].
  cbn [find]. rewrite Hfg, IH. reflexivity.
Qed.

Lemma classOf_classify m :
  ErrorHandler.classOf (ErrorHandler.classify m) =
  match find (fun entry => ErrorHandler.matchIgnoreCase m (ErrorHandler.pattern entry))
          ErrorHandler.errorDatabase with
  | Some entry => (true, Some (ErrorHandler.pattern entry), ErrorHandler.severity entry)
  | None => (false, None, "unknown"%string)
  end.
Proof.
  unfold ErrorHandler.classify.
  rewrite (find_pointwise _
             (fun entry => ErrorHandler.matchIgnoreCase m (ErrorHandler.pattern entry))
             _ (fun entry => matchesPattern_ignores_case m (ErrorHandler.pattern entry))).
  destruct (find _ _); reflexivity.
Qed.

(** The class that [analyzeError] gives an error does not depend on the
    letter case of its message: two messages that differ only in case are
    classified alike (same known flag, same pattern, same severity). *)
Theorem analyzeError_ignores_case :
  forall e1 e2,
    ErrorHandler.foldCases (ErrorHandler.messageOf e1)
    = ErrorHandler.foldCases (ErrorHandler.messageOf e2) ->
    ErrorHandler.classOf (ErrorHandler.analyzeError e1)
    = ErrorHandler.classOf (ErrorHandler.analyzeError e2).
Proof.
  intros e1 e2 Hfold. unfold ErrorHandler.analyzeError.
  rewrite !classOf_classify. unfold ErrorHandler.matchIgnoreCase. rewrite Hfold. reflexivity.
Qed.

(** The lower-case word [conflict] is classified as the pattern in capitals. *)
Lemma analyzeError_ignores_case_witness :
  ErrorHandler.classOf (ErrorHandler.analyzeError (newError "conflict in README.md"))
  = ErrorHandler.classOf (ErrorHandler.analyzeError (newError "CONFLICT in README.md")).
Proof. apply analyzeError_ignores_case. reflexivity. Defined.

Lemma foldCases_app a b :
  ErrorHandler.foldCases (a ++ b)
  = (ErrorHandler.foldCases a ++ ErrorHandler.foldCases b)%string.
Proof.
  induction a as [| c a IH]; [reflexivity |].
  cbn [String.append ErrorHandler.foldCases]. rewrite IH. reflexivity.
Qed.

Lemma find_pointwise_in {A} (f g : A -> bool) (l : list A) :
  (forall x, In x l -> f x = g x) -> find f l = find g l.
Proof.
  induction l as [| x l IH]; intro Hfg; [reflexivity |].
  cbn [find]. rewrite (Hfg x (or_introl eq_refl)), IH; [reflexivity |].
  intros y Hy. apply Hfg. right. exact Hy.
Qed.

(** The prefix that [handleNewBranch] puts before the message of a failed
    push. *)
Lemma matchIgnoreCase_behind_prefix (wrapper cause : string) entry :
  wrapper = analysisFailure \/ wrapper = "Failed to create remote branch: "%string ->
  In entry ErrorHandler.errorDatabase ->
  ErrorHandler.matchIgnoreCase (wrapper ++ cause) (ErrorHandler.pattern entry)
  = ErrorHandler.matchIgnoreCase cause (ErrorHandler.pattern entry).
Proof.
  intros Hw Hin. unfold ErrorHandler.matchIgnoreCase. rewrite foldCases_app.
  generalize (ErrorHandler.foldCases cause). intro folded.
  unfold ErrorHandler.errorDatabase in Hin. cbn [In] in Hin.
  destruct Hw as [-> | ->];
    repeat destruct Hin as [Hin | Hin]; try contradiction; subst entry;
    vm_compute; reflexivity.
Qed.

Lemma classify_behind_prefix (wrapper cause : string) :
  wrapper = analysisFailure \/ wrapper = "Failed to create remote branch: "%string ->
  ErrorHandler.classOf (ErrorHandler.classify (wrapper ++ cause))
  = ErrorHandler.classOf (ErrorHandler.classify cause).
Proof.
  intro Hw. rewrite !classOf_classify.
  rewrite (find_pointwise_in _
             (fun entry => ErrorHandler.matchIgnoreCase cause (ErrorHandler.pattern entry))
             _ (fun entry => matchIgnoreCase_behind_prefix wrapper cause entry Hw)).
  reflexivity.
Qed.

(** A failed query is the failure of the analysis. *)
Lemma analyzeBranchState_failed env currentBranch remote h e :
  In (EGetStatus (Thrown e)) (events (analyzeBranchState env currentBranch remote) h) \/
  In (EGetBranches (Thrown e)) (events (analyzeBranchState env currentBranch remote) h) ->
  outcome (analyzeBranchState env currentBranch remote) h
  = Thrown (newError (analysisFailure ++ errMessage e)).
Proof.
  name_run (analyzeBranchState env currentBranch remote h).
  unfold analyzeBranchState, getStatus, getBranches, onRepo.
  exec; end_run; intros [Hin | Hin]; in_trace Hin; reflexivity.
Qed.

Lemma handleNewBranch_failed env bs options h args e :
  In (EGitPush args (Thrown e)) (events (handleNewBranch env bs options) h) ->
  outcome (handleNewBranch env bs options) h
  = Thrown (newError ("Failed to create remote branch: " ++ errMessage e)).
Proof.
  name_run (handleNewBranch env bs options h).
  unfold handleNewBranch, gitPush, onRepo, log.
  abstract_lines. exec; end_run; intro Hin; in_trace Hin; reflexivity.
Qed.

(** Wrapping keeps the class.  The errors that the analysis and the
    new-branch push throw quote the message of the failed call behind a
    prefix; [analyzeError] gives them the class it gives that message. *)
Theorem wrapped_errors_keep_their_class :
  forall env options h e err,
    ((exists currentBranch remote,
        (In (EGetStatus (Thrown e)) (events (analyzeBranchState env currentBranch remote) h) \/
         In (EGetBranches (Thrown e)) (events (analyzeBranchState env currentBranch remote) h)) /\
        outcome (analyzeBranchState env currentBranch remote) h = Thrown err) \/
     (exists bs args,
        In (EGitPush args (Thrown e)) (events (handleNewBranch env bs options) h) /\
        outcome (handleNewBranch env bs options) h = Thrown err)) ->
    ErrorHandler.classOf (ErrorHandler.analyzeError err)
    = ErrorHandler.classOf (ErrorHandler.classify (errMessage e)).
Proof.
  intros env options h e err
    [(currentBranch & remote & Hin & Hout) | (bs & args & Hin & Hout)].
  - rewrite (analyzeBranchState_failed _ _ _ _ _ Hin) in Hout. injection Hout as <-.
    apply (classify_behind_prefix analysisFailure). left. reflexivity.
  - rewrite (handleNewBranch_failed _ _ _ _ _ _ Hin) in Hout. injection Hout as <-.
    apply (classify_behind_prefix "Failed to create remote branch: "). right. reflexivity.
Qed.

(** A status query that fails for lack of credentials. *)
Lemma wrapped_errors_keep_their_class_witness :
  let world := Fixture.answering Fixture.base (Sample.always tt)
                 (Sample.failing "fatal: Authentication failed for 'https://example.org/'")
                 (Sample.always ["origin/main"%string]) (Sample.always tt) in
  ErrorHandler.classOf
    (ErrorHandler.analyzeError
       (newError ("Failed to analyze branch state: "
                    ++ "fatal: Authentication failed for 'https://example.org/'")))
  = (true, Some "Authentication failed"%string, "high"%string).
Proof.
  intro world.
  rewrite (wrapped_errors_keep_their_class world Sample.options []
             (newError "fatal: Authentication failed for 'https://example.org/'")).
  - reflexivity.
  - left. exists "main"%string, "origin"%string. split.
    + left. vm_compute. left. reflexivity.
    + reflexivity.
Defined.

(** A failed rebase or merge in the behind state. *)
Lemma handleBehind_failed_integration env bs options h ev e :
  failedIntegration e ev ->
  In ev (events (handleBehind env bs options) h) ->
  outcome (handleBehind env bs options) h
  = Thrown (if includes (errMessage e) "CONFLICT"
            then newError "Merge conflicts need to be resolved" else e).
Proof.
  intros [(args & ->) | (args & ->)].
  all: name_run (handleBehind env bs options h).
  all: unfold handleBehind, getSyncStrategy, configGetSyncStrategy, gitRebase, gitMerge,
    onRepo, log.
  all: abstract_lines; exec; end_run; intro Hin; in_trace Hin.
  all: try (match goal with H : includes _ _ = _ |- _ => rewrite H end);
    first [reflexivity | congruence].
Qed.

(** A failed push in the ahead state. *)
Lemma handleAhead_failed_push env bs options h ev e :
  failedPush e ev ->
  In ev (events (handleAhead env bs options) h) ->
  outcome (handleAhead env bs options) h
  = Thrown (if includes (errMessage e) "rejected"
               && includes (errMessage e) "non-fast-forward"
            then newError "Push rejected due to remote changes" else e).
Proof.
  intros [(args & ->) | (remote & branch & ->)].
  all: name_run (handleAhead env bs options h).
  all: unfold handleAhead, gitPush, push, onRepo, log.
  all: abstract_lines; exec; end_run; intro Hin; in_trace Hin.
  all: try (match goal with H : _ && _ = _ |- _ => rewrite H end);
    first [reflexivity | congruence].
Qed.

(** A conflict during a rebase or a merge, in the behind state or in the
    diverged state, reaches [analyzeError] as an error it knows: the pattern
    [CONFLICT] of severity high, found in the lower-case word of the
    message that sync puts in place of git's; the assistant is suggested. *)
Theorem conflicts_are_known_errors :
  forall env bs options h ev e err,
    failedIntegration e ev ->
    includes (errMessage e) "CONFLICT" = true ->
    (In ev (events (handleBehind env bs options) h) /\
     outcome (handleBehind env bs options) h = Thrown err) \/
    (In ev (events (handleDiverged env bs options) h) /\
     outcome (handleDiverged env bs options) h = Thrown err) ->
    ErrorHandler.classOf (ErrorHandler.analyzeError err)
    = (true, Some "CONFLICT"%string, "high"%string) /\
    ErrorHandler.suggestsAssistant (ErrorHandler.analyzeError err) = true /\
    includes (errMessage err) "CONFLICT" = false.
Proof.
  intros env bs options h ev e err Hfailed Hconflict [[Hin Hout] | [Hin Hout]].
  - rewrite (handleBehind_failed_integration _ _ _ _ _ _ Hfailed Hin), Hconflict in Hout.
    injection Hout as <-. vm_compute. repeat split.
  - destruct (handleDiverged_failed_integration env bs options h) as [Hrebase Hmerge].
    destruct Hfailed as [(args & ->) | (args & ->)].
    + destruct (Hrebase _ _ Hin) as [_ Ho]. rewrite Ho, Hconflict in Hout.
      injection Hout as <-. vm_compute. repeat split.
    + destruct (Hmerge _ _ Hin) as [_ Ho]. rewrite Ho, Hconflict in Hout.
      injection Hout as <-. vm_compute. repeat split.
Qed.

(** Scenario C: behind by two, rebase, conflict. *)
Lemma conflicts_are_known_errors_witness :
  ErrorHandler.classOf
    (ErrorHandler.analyzeError (newError "Merge conflicts need to be resolved"))
  = (true, Some "CONFLICT"%string, "high"%string).
Proof.
  pose (world := Sample.scenario (Sample.clean 0 2) ["origin/main"%string] "rebase"
                   Sample.conflict (Sample.always tt) (Sample.always tt)).
  refine (proj1 (conflicts_are_known_errors world (Fixture.state (Sample.clean 0 2))
                   Sample.options []
                   (EGitRebase ["origin/main"%string]
                      (Thrown (newError "CONFLICT (content): Merge conflict in README.md")))
                   (newError "CONFLICT (content): Merge conflict in README.md")
                   (newError "Merge conflicts need to be resolved") _ _ _)).
  - left. eexists. reflexivity.
  - reflexivity.
  - left. split; [| reflexivity]. vm_compute. right. right. left. reflexivity.
Defined.

(** A push rejected as non-fast-forward reaches [analyzeError] as an
    unknown error, whatever class the message of git had: the message that
    sync puts in its place matches no pattern of the database. *)
Theorem rejected_push_is_an_unknown_error :
  forall env bs options h ev e err,
    failedPush e ev ->
    includes (errMessage e) "rejected" && includes (errMessage e) "non-fast-forward" = true ->
    In ev (events (handleAhead env bs options) h) ->
    outcome (handleAhead env bs options) h = Thrown err ->
    ErrorHandler.classOf (ErrorHandler.analyzeError err) = (false, None, "unknown"%string) /\
    ErrorHandler.suggestsAssistant (ErrorHandler.analyzeError err) = true.
Proof.
  intros env bs options h ev e err Hfailed Hrejected Hin Hout.
  rewrite (handleAhead_failed_push _ _ _ _ _ _ Hfailed Hin), Hrejected in Hout.
  injection Hout as <-. vm_compute. split; reflexivity.
Qed.

(** The rejection as git words it is a known error of medium severity;
    what sync throws instead is not. *)
Lemma rejected_push_is_an_unknown_error_witness :
  let rejection := newError ("! [rejected] main -> main (non-fast-forward) "
                               ++ "error: failed to push some refs to 'origin'") in
  ErrorHandler.classOf (ErrorHandler.analyzeError rejection)
  = (true, Some "error: failed to push some refs"%string, "medium"%string) /\
  ErrorHandler.classOf
    (ErrorHandler.analyzeError (newError "Push rejected due to remote changes"))
  = (false, None, "unknown"%string).
Proof.
  intro rejection. split; [reflexivity |].
  pose (world := Sample.scenario (Sample.clean 3 0) ["origin/main"%string] "rebase"
                   (Sample.always tt)
                   (fun _ => Thrown rejection)
                   (Sample.always tt)).
  refine (proj1 (rejected_push_is_an_unknown_error world (Fixture.state (Sample.clean 3 0))
                   Sample.options [] (EPush "origin" "main" (Thrown rejection)) rejection
                   (newError "Push rejected due to remote changes") _ _ _ _)).
  - right. eexists _, _. reflexivity.
  - reflexivity.
  - vm_compute. right. left. reflexivity.
  - reflexivity.
Defined.

(** ** GitRepository and the hook that creates it *)

(** An object that is not initialized refuses every operation: each
    wrapper throws [Repository not initialized] without calling git, and so
    do the methods that have no guard of their own and rely on the one of
    [getStatus]. *)
Theorem uninitialized_object_refuses :
  forall git s remote branch message,
    GitRepository.isInitialized (Repo.this s) = false ->
    let refused {A} (m : Repo.R A) := m s = (Thrown Repo.notInitialized, s) in
    refused (Repo.getStatus git) /\
    refused (Repo.getCurrentBranch git) /\
    refused (Repo.getBranches git) /\
    refused (Repo.getRemotes git) /\
    refused (Repo.hasUncommittedChanges git) /\
    refused (Repo.push git remote branch) /\
    refused (Repo.fetch git remote) /\
    refused (Repo.stash git message) /\
    refused (Repo.stashPop git).
Proof.
  intros git [[initialized cwd] made] remote branch message Hinit refused. subst refused.
  cbn in Hinit. subst initialized.
  repeat split;
    cbv beta iota zeta delta
      [Repo.pure Repo.raise Repo.andThen Repo.call Repo.isInitialized
       Repo.requireInitialized Repo.getStatus Repo.getCurrentBranch Repo.getBranches
       Repo.getRemotes Repo.hasUncommittedChanges Repo.branchOrCurrent Repo.push Repo.fetch
       Repo.stash Repo.stashPop Repo.this Repo.made GitRepository.isInitialized negb];
    repeat (case_step; cbv beta iota zeta delta [Repo.this Repo.made]); reflexivity.
Qed.

(** The object of a directory outside any repository. *)
Lemma uninitialized_object_refuses_witness :
  Repo.getCurrentBranch (Repo.obliging Repo.onMain) (Repo.fresh "/tmp")
  = (Thrown (newError "Repository not initialized"), Repo.fresh "/tmp").
Proof.
  exact (proj1 (proj2 (uninitialized_object_refuses (Repo.obliging Repo.onMain)
                         (Repo.fresh "/tmp") "origin" None None eq_refl))).
Defined.

(** [push] makes at most one push, and leaves the object as it is.  With a
    branch name it asks nothing else; without one (or with the empty one)
    it asks the status first and pushes the current branch, and does not
    push at all when the status cannot be read. *)
Theorem push_targets :
  forall git s remote branch,
    GitRepository.isInitialized (Repo.this s) = true ->
    let o := fst (Repo.push git remote branch s) in
    let s' := snd (Repo.push git remote branch s) in
    let named := match branch with Some b => truthy b | None => false end in
    Repo.this s' = Repo.this s /\
    (named = true ->
     exists b, branch = Some b /\
               Repo.made s' = Repo.made s ++ [Repo.GitPush remote b o]) /\
    (named = false ->
     match Repo.gitStatus git (Repo.made s) with
     | Returned status =>
         Repo.made s' = Repo.made s ++ [Repo.GitStatus (Returned status);
                                        Repo.GitPush remote (Repo.current status) o]
     | Thrown e =>
         Repo.made s' = Repo.made s ++ [Repo.GitStatus (Thrown e)] /\ o = Thrown e
     end).
Proof.
  intros git [[initialized cwd] made] remote branch Hinit o s' named. subst o s' named.
  cbn in Hinit. subst initialized.
  destruct branch as [[| c b] |]; cbn [truthy].
  all: match goal with
       | |- context [Repo.push ?g ?r ?b ?st] =>
           destruct (Repo.push g r b st) as [?o ?s] eqn:Hrun
       end.
  all: cbn [fst snd]; match goal with |- ?G => set (claim := G) end; revert Hrun.
  all: cbv beta iota zeta delta
      [Repo.pure Repo.raise Repo.andThen Repo.call Repo.isInitialized
       Repo.requireInitialized Repo.getStatus Repo.getCurrentBranch Repo.branchOrCurrent
       Repo.push Repo.this Repo.made GitRepository.isInitialized negb truthy];
    repeat (case_step; cbv beta iota zeta delta [Repo.this Repo.made]).
  all: intro Hrun; subst claim; injection Hrun as <- <-.
  all: cbn [Repo.this Repo.made];
    try match goal with H : Repo.gitStatus _ _ = _ |- _ => rewrite H end.
  all: split; [reflexivity |]; split; try discriminate; intros _.
  all: rewrite <- ?app_assoc; try reflexivity; try (split; reflexivity).
  all: eexists; split; reflexivity.
Qed.

(** No branch given: the current one is pushed. *)
Lemma push_targets_witness :
  Repo.made (snd (Repo.push (Repo.obliging Repo.onMain) "origin" None (Repo.ready "/work")))
  = [Repo.GitStatus (Returned Repo.onMain); Repo.GitPush "origin" "main" (Returned tt)].
Proof.
  exact (proj2 (proj2 (push_targets (Repo.obliging Repo.onMain) (Repo.ready "/work")
                         "origin" None eq_refl)) eq_refl).
Defined.

(** The automatic stashes of [sync] and of [switch] reach git as labelled
    stashes: their labels are never empty, so the wrapper runs
    [stash push -m <label>] with the label unchanged, as its only call. *)
Theorem auto_stashes_are_labelled :
  forall git s env label,
    GitRepository.isInitialized (Repo.this s) = true ->
    label = autoStashLabel \/ label = Switch.stashMessage env ->
    let o := fst (Repo.stash git (Some label) s) in
    let s' := snd (Repo.stash git (Some label) s) in
    Repo.this s' = Repo.this s /\
    Repo.made s' = Repo.made s ++ [Repo.GitStash ["push"; "-m"; label]%string o].
Proof.
  intros git [[initialized cwd] made] env label Hinit Hlabel o s'. subst o s'.
  cbn in Hinit. subst initialized.
  assert (Htruthy : exists c rest, label = String c rest).
  { destruct Hlabel as [-> | ->]; eexists _, _; reflexivity. }
  destruct Htruthy as (c & rest & ->).
  match goal with
  | |- context [Repo.stash ?g ?m ?st] =>
      destruct (Repo.stash g m st) as [?o ?s] eqn:Hrun
  end.
  cbn [fst snd].
  match goal with |- ?G => set (claim := G) end.
  revert Hrun.
  cbv beta iota zeta delta
    [Repo.pure Repo.raise Repo.andThen Repo.call Repo.isInitialized Repo.requireInitialized
     Repo.stash Repo.this Repo.made GitRepository.isInitialized negb truthy];
  repeat (case_step; cbv beta iota zeta delta [Repo.this Repo.made]).
  all: intro Hrun; subst claim; injection Hrun as <- <-.
  split; reflexivity.
Qed.

Lemma auto_stashes_are_labelled_witness :
  Repo.made (snd (Repo.stash (Repo.obliging Repo.onMain) (Some autoStashLabel)
                    (Repo.ready "/work")))
  = [Repo.GitStash ["push"; "-m"; "easygit-sync-auto-stash"]%string (Returned tt)].
Proof.
  exact (proj2 (auto_stashes_are_labelled (Repo.obliging Repo.onMain) (Repo.ready "/work")
                  Fixture.base autoStashLabel eq_refl (or_introl eq_refl))).
Defined.

(** The hook never throws, and leaves an object for the working directory.
    The object is initialized exactly when the first status call answered,
    whatever the gathering of information does afterwards.  When that call
    fails, nothing else is asked of git, one line is printed (the hint that
    this is not a repository if the message says so in either spelling, the
    error otherwise), and the object answers [isRepository()] with false. *)
Theorem preAction_leaves_an_object :
  forall git cwd s,
    let o := fst (Repo.preAction git cwd s) in
    let s' := snd (Repo.preAction git cwd s) in
    o = Returned tt /\
    GitRepository.workingDir (Repo.this s') = cwd /\
    match Repo.gitStatus git (Repo.made s) with
    | Returned status =>
        fst (Repo.isRepository s') = Returned true /\
        exists rest, Repo.made s' = Repo.made s ++ Repo.GitStatus (Returned status) :: rest
    | Thrown e =>
        fst (Repo.isRepository s') = Returned false /\
        Repo.made s' =
          Repo.made s ++
          [Repo.GitStatus (Thrown e);
           if includes (errMessage e) "not a git repository"
              || includes (errMessage e) "Not a git repository"
           then Repo.ConsoleLog Repo.notInRepositoryLine
           else Repo.ConsoleError "Error initializing Git repository:" (errMessage e)]
    end.
Proof.
  intros git cwd [this made] o s'. subst o s'.
  match goal with
  | |- context [Repo.preAction ?g ?c ?st] =>
      destruct (Repo.preAction g c st) as [?o ?s] eqn:Hrun
  end.
  cbn [fst snd].
  match goal with |- ?G => set (claim := G) end.
  revert Hrun.
  cbv beta iota zeta delta
    [Repo.pure Repo.raise Repo.andThen Repo.attempt Repo.together Repo.call Repo.print
     Repo.setInitialized Repo.gatherRepositoryInfo Repo.initialize Repo.preAction
     Repo.this Repo.made GitRepository.isInitialized GitRepository.workingDir];
  repeat (case_step; cbv beta iota zeta delta [Repo.this Repo.made]).
  all: intro Hrun; subst claim; injection Hrun as <- <-.
  all: unfold Repo.isRepository, Repo.isInitialized;
    cbn [fst Repo.this Repo.made GitRepository.workingDir GitRepository.isInitialized];
    try match goal with H : Repo.gitStatus _ _ = _ |- _ => rewrite H end.
  all: split; [reflexivity |]; split; [reflexivity |]; split; [reflexivity |].
  all: try (rewrite <- ?app_assoc; eexists; reflexivity).
  all: rewrite <- ?app_assoc; cbn [app];
    try match goal with
        | H : includes (errMessage Repo.notAGitRepository) _ = false |- _ =>
            vm_compute in H; discriminate H
        end;
    try solve [match goal with
               | H : (_ || _)%bool = _ |- _ => cbn [orb] in H; discriminate H
               end];
    repeat match goal with
           | H : (_ || _)%bool = _ |- _ => rewrite H; clear H
           | H : includes _ _ = _ |- _ => rewrite H; clear H
           end;
    reflexivity.
Qed.

(** A directory outside any repository: the hint is printed, and the
    object left is not a repository. *)
Lemma preAction_leaves_an_object_witness :
  let left := snd (Repo.preAction Repo.outside "/tmp" (Repo.fresh "/")) in
  Repo.made left
  = [Repo.GitStatus
       (Thrown (newError
                  "fatal: not a git repository (or any of the parent directories): .git"));
     Repo.ConsoleLog Repo.notInRepositoryLine] /\
  fst (Repo.isRepository left) = Returned false.
Proof.
  intro left.
  pose proof (preAction_leaves_an_object Repo.outside "/tmp" (Repo.fresh "/")) as H.
  cbv zeta in H. destruct H as (_ & _ & Hrepo & Hmade).
  split; [exact Hmade | exact Hrepo].
Defined.

(** ** The auto-stash of the switch command *)

Lemma append_inj_l (p a b : string) : (p ++ a = p ++ b)%string -> a = b.
Proof.
  induction p as [| c p IH]; cbn [String.append]; intro H; [exact H |].
  injection H as H. apply IH, H.
Qed.

Lemma to_int_not_nil (n : Z) :
  Z.to_int n <> Decimal.Pos Decimal.Nil /\ Z.to_int n <> Decimal.Neg Decimal.Nil.
Proof.
  split; intro H; pose proof (f_equal Z.of_int H) as H0; rewrite DecimalZ.of_to in H0;
    cbn in H0; subst n; discriminate H.
Qed.

(** The decimal text of a number determines the number. *)
Lemma numToString_inj (n m : Z) : numToString n = numToString m -> n = m.
Proof.
  unfold numToString. intro H.
  apply (f_equal NilZero.int_of_string) in H.
  destruct (to_int_not_nil n) as [Hn1 Hn2], (to_int_not_nil m) as [Hm1 Hm2].
  rewrite !NilZero.isi in H by assumption.
  injection H as H. apply DecimalZ.to_int_inj, H.
Qed.

(** The stash that [switch] makes carries the time in its label: two
    invocations at different times never use the same label, and none uses
    the label of [sync].  (The runs are those with [options.noStash] unset,
    as it is for every invocation from the command line.) *)
Theorem switch_stash_labels_differ :
  forall env1 env2 h1 h2 label1 r1 label2 r2,
    In (EStash label1 r1) (events (Switch.handleUncommittedChanges env1 false) h1) ->
    In (EStash label2 r2) (events (Switch.handleUncommittedChanges env2 false) h2) ->
    (dateNow env1 <> dateNow env2 -> label1 <> label2) /\
    label1 <> autoStashLabel.
Proof.
  intros env1 env2 h1 h2 label1 r1 label2 r2 H1 H2.
  assert (Hlabel : forall env h label r,
             In (EStash label r) (events (Switch.handleUncommittedChanges env false) h) ->
             label = Switch.stashMessage env).
  { intros env h label r.
    name_run (Switch.handleUncommittedChanges env false h).
    unfold Switch.handleUncommittedChanges, stash, onRepo, log.
    abstract_lines. exec; end_run; intro Hin; in_trace Hin; reflexivity. }
  apply Hlabel in H1, H2. subst label1 label2.
  split.
  - intros Htime Heq. apply Htime. unfold Switch.stashMessage in Heq.
    apply append_inj_l in Heq. apply numToString_inj, Heq.
  - unfold Switch.stashMessage, autoStashLabel. cbn [String.append]. discriminate.
Qed.

(** Two switches, a day apart. *)
Lemma switch_stash_labels_differ_witness :
  let world1 := Fixture.base in
  let world2 := Sample.atTime "2024-05-02T08:30:00.000Z" 1714638600000 Fixture.base in
  Switch.stashMessage world1 <> Switch.stashMessage world2.
Proof.
  intros world1 world2.
  refine (proj1 (switch_stash_labels_differ world1 world2 [] []
                   (Switch.stashMessage world1) (Returned tt)
                   (Switch.stashMessage world2) (Returned tt) _ _) _).
  - vm_compute. right. left. reflexivity.
  - vm_compute. right. left. reflexivity.
  - vm_compute. discriminate.
Defined.

(** ** The dry run and the behind state *)

(** The plan a dry run prints for a branch that is behind names the
    integration the real run makes: the plan says [Rebase] and the handler
    rebases, or the plan says [Merge] and the handler merges, both onto the
    remote branch, provided the configuration gives both runs the same
    answer. *)
Theorem dryRun_plan_matches_handleBehind :
  forall env repo bs options h h' configured,
    gitRepo env = Some repo ->
    BranchState.status bs = "behind"%string ->
    (forall t, configGetSyncStrategy_ env t = Returned configured) ->
    let strategy := if Options.rebase options then "rebase"%string
                    else if Options.merge options then "merge"%string else configured in
    let rebasing := (strategy =? "rebase")%string in
    In (ELog ("  • " ++ (if rebasing then "Rebase" else "Merge") ++ " "
                ++ numToString (BranchState.behind bs) ++ " commits from "
                ++ BranchState.remoteBranch bs))
       (events (showDryRun env bs options) h) /\
    exists r,
      calls isIntegrate (events (handleBehind env bs options) h')
      = [if rebasing then EGitRebase [BranchState.remoteBranch bs] r
         else EGitMerge [BranchState.remoteBranch bs] r].
Proof.
  intros env repo bs options h h' configured Hrepo Hs Hconfig strategy rebasing.
  subst strategy rebasing. split.
  - unfold showDryRun, getSyncStrategy, configGetSyncStrategy, log. cbv zeta. rewrite Hs.
    change (("behind" =? "up-to-date")%string) with false.
    change (("behind" =? "ahead")%string) with false.
    change (("behind" =? "behind")%string) with true.
    cbv iota.
    unfold events.
    cbv beta iota zeta delta [bind try_catch try_finally ask emit ret throw].
    destruct (Options.rebase options); [| destruct (Options.merge options)];
      cbv beta iota zeta; rewrite ?Hconfig; cbv beta iota zeta;
      destruct (BranchState.hasUncommittedChanges bs); cbv beta iota zeta;
      cbn [snd app]; repeat first [left; reflexivity | right].
  - name_run (handleBehind env bs options h').
    unfold handleBehind, getSyncStrategy, configGetSyncStrategy, gitRebase, gitMerge,
      onRepo, log. rewrite Hrepo.
    abstract_lines.
    cbv beta iota zeta delta [bind try_catch try_finally ask emit ret throw].
    destruct (Options.rebase options); [| destruct (Options.merge options)];
      cbv beta iota zeta; rewrite ?Hconfig; cbv beta iota zeta.
    all: change (("rebase" =? "rebase")%string) with true;
      change (("merge" =? "rebase")%string) with false.
    all: repeat (case_step; cbv beta iota zeta); end_run; eexists; reflexivity.
Qed.

(** A configured merge. *)
Lemma dryRun_plan_matches_handleBehind_witness :
  let world := Fixture.custom Fixture.base (Some Sample.repo)
                 (Sample.always [Sample.origin]) (Sample.always "merge"%string)
                 (Sample.always true) in
  In (ELog ("  • Merge 2 commits from origin/main"))
    (events (showDryRun world (Fixture.state (Sample.clean 0 2)) Sample.dryRunOptions) []) /\
  exists r,
    calls isIntegrate
      (events (handleBehind world (Fixture.state (Sample.clean 0 2)) Sample.dryRunOptions) [])
    = [EGitMerge ["origin/main"%string] r].
Proof.
  intro world.
  exact (dryRun_plan_matches_handleBehind world Sample.repo (Fixture.state (Sample.clean 0 2))
           Sample.dryRunOptions [] [] "merge" eq_refl eq_refl (fun _ => eq_refl)).
Defined.

(** ** Where the pushes go *)

(** Every push of the bracketed step goes to the remote and the branch of
    the branch state; a raw push carries exactly one flag. *)
Lemma syncSwitch_push_targets env bs options h :
  let d := events (syncSwitch env bs options) h in
  (forall remote branch r, In (EPush remote branch r) d ->
     remote = BranchState.remote bs /\ branch = BranchState.currentBranch bs) /\
  (forall args r, In (EGitPush args r) d ->
     exists flag, args = [BranchState.remote bs; BranchState.currentBranch bs; flag] /\
                  In flag pushFlags).
Proof.
  intro d. subst d.
  name_run (syncSwitch env bs options h).
  unfold syncSwitch, handleUpToDate, handleAhead, handleBehind, handleDiverged,
    handleRebaseDiverged, handleMergeDiverged, handleForcePushDiverged, handleNewBranch,
    getSyncStrategy, configGetSyncStrategy, promptList, promptConfirm,
    gitRebase, gitMerge, gitPush, push, onRepo, log.
  abstract_lines. exec; end_run.
  all: split; [intros ? ? ? Hin | intros ? ? Hin]; in_trace Hin.
  all: first [ split; reflexivity
             | eexists; split; [reflexivity | unfold pushFlags; cbn [In]; auto] ].
Qed.

Lemma executeSyncStrategy_push_targets env bs options h :
  let d := events (executeSyncStrategy env bs options) h in
  (forall remote branch r, In (EPush remote branch r) d ->
     remote = BranchState.remote bs /\ branch = BranchState.currentBranch bs) /\
  (forall args r, In (EGitPush args r) d ->
     exists flag, args = [BranchState.remote bs; BranchState.currentBranch bs; flag] /\
                  In flag pushFlags).
Proof.
  intro d. subst d.
  destruct (executeSyncStrategy_run env bs options h)
    as [(_ & He & _) | [(_ & _ & He & _) | [(_ & _ & e & He & _) | (_ & _ & p & He & _)]]];
    rewrite He; clear He.
  - apply syncSwitch_push_targets.
  - split; [intros ? ? ? Hin | intros ? ? Hin]; in_trace Hin.
  - split; [intros ? ? ? Hin | intros ? ? Hin]; in_trace Hin.
  - match goal with
    | |- context [events (syncSwitch env bs options) ?hh] =>
        destruct (syncSwitch_push_targets env bs options hh) as [Hplain Hraw]
    end.
    split; [intros remote branch r Hin | intros args r Hin].
    all: cbn [app In] in Hin; destruct Hin as [Hin | [Hin | Hin]]; try discriminate Hin.
    all: apply in_app_or in Hin; destruct Hin as [Hin | Hin]; eauto.
    all: exfalso; destruct p; cbn [isThrown] in Hin; in_trace Hin.
Qed.

(** Every push that [execute] makes goes to the remote given with
    [--remote] and to the branch [execute] works on: the one given with
    [--branch] if there is one, else the current branch as the repository
    reported it.  A raw push carries one of the three flags. *)
Theorem execute_pushes_chosen_branch :
  forall env options h,
    let d := events (execute env options) h in
    (forall remote branch r, In (EPush remote branch r) d ->
       remote = Options.remote options /\ branchChosen options d branch) /\
    (forall args r, In (EGitPush args r) d ->
       exists branch flag,
         args = [Options.remote options; branch; flag] /\
         branchChosen options d branch /\ In flag pushFlags).
Proof.
  intros env options h d. subst d.
  assert (Hmain : forall ev, In ev (events (execute env options) h) -> isMutation ev = true ->
            exists before bs,
              events (execute env options) h
              = before ++ events (executeSyncStrategy env bs options) (h ++ before) /\
              calls isMutation before = [] /\
              BranchState.remote bs = Options.remote options /\
              branchChosen options (events (execute env options) h)
                (BranchState.currentBranch bs)).
  { intros ev Hin Hmut.
    destruct (execute_before_changes env options h ev Hin Hmut)
      as (_ & _ & before & status & all & currentBranch & Hd & Hq & _ & _ & _ & Hchosen).
    cbv zeta in Hd. eexists before, _. split; [exact Hd |]. split; [exact Hq |].
    split; [reflexivity |]. cbn [BranchState.currentBranch branchStateOf].
    revert Hchosen. apply branchChosen_incl.
    intros e0 He0. rewrite Hd. apply in_or_app. left. exact He0. }
  split; [intros remote branch r Hin | intros args r Hin].
  all: destruct (Hmain _ Hin eq_refl) as (before & bs & Hd & Hq & Hremote & Hchosen).
  all: pose proof Hin as Hin'; rewrite Hd in Hin'; apply in_app_or in Hin';
    destruct Hin' as [Hin' | Hin'];
    [apply (calls_nil_In _ _ _ Hq) in Hin'; discriminate Hin' |].
  - destruct (proj1 (executeSyncStrategy_push_targets env bs options _) _ _ _ Hin')
      as [-> ->].
    split; [exact Hremote | exact Hchosen].
  - destruct (proj2 (executeSyncStrategy_push_targets env bs options _) _ _ Hin')
      as (flag & -> & Hflag).
    exists (BranchState.currentBranch bs), flag. rewrite Hremote.
    split; [reflexivity |]. split; [exact Hchosen | exact Hflag].
Qed.

(** Scenario A with [--branch release]: the push goes to [release]. *)
Lemma execute_pushes_chosen_branch_witness :
  let world := Sample.world (Sample.clean 3 0) ["origin/release"%string] "rebase" in
  let release := Options.mk "origin" (Some "release"%string) false false false false false
                   false in
  In (EPush "origin" "release" (Returned tt)) (events (execute world release) []) /\
  branchChosen release (events (execute world release) []) "release".
Proof.
  intros world release.
  assert (Hin : In (EPush "origin" "release" (Returned tt)) (events (execute world release) []))
    by (vm_compute; do 8 right; left; reflexivity).
  split; [exact Hin |].
  exact (proj2 (proj1 (execute_pushes_chosen_branch world release []) _ _ _ Hin)).
Defined.

(** ** A push that fails in the diverged state *)

(** In the diverged state a failing force push is reported as a rejection
    when its message mentions stale info, and as it is otherwise.  A push
    that fails after the rebase or the merge has succeeded is reported as
    it is, unless its message mentions CONFLICT: then the run ends with
    the conflict error of the integration that had succeeded. *)
Theorem handleDiverged_failed_push :
  forall env bs options h,
    let d := events (handleDiverged env bs options) h in
    let o := outcome (handleDiverged env bs options) h in
    (forall args e, In (EGitPush args (Thrown e)) d ->
       o = Thrown (if includes (errMessage e) "stale info"
                   then newError ("Force push rejected - remote has newer commits. "
                                    ++ "Someone else pushed while you were working.")
                   else e)) /\
    (forall remote branch e, In (EPush remote branch (Thrown e)) d ->
       exists integration,
         calls isIntegrate d = [integration] /\
         (forall e', ~ failedIntegration e' integration) /\
         o = Thrown (if includes (errMessage e) "CONFLICT"
                     then newError (if isRebase integration
                                    then "Rebase conflicts need to be resolved"
                                    else "Merge conflicts need to be resolved")
                     else e)).
Proof.
  intros env bs options h d o. subst d o.
  name_run (handleDiverged env bs options h).
  unfold handleDiverged, handleRebaseDiverged, handleMergeDiverged, handleForcePushDiverged,
    promptList, promptConfirm, gitRebase, gitMerge, gitPush, push, onRepo, log.
  abstract_lines. exec; end_run.
  all: split; [intros ? ? Hin | intros ? ? ? Hin]; in_trace Hin.
  all: try solve [match goal with H : includes _ _ = _ |- _ => rewrite H end; reflexivity].
  all: eexists; split; [reflexivity |]; split;
    [ intros e' [(args' & Hev) | (args' & Hev)]; discriminate Hev
    | cbn [isRebase];
      match goal with H : includes _ _ = _ |- _ => rewrite H end; reflexivity ].
Qed.

(** The rebase succeeds, the push that follows is refused. *)
Lemma handleDiverged_failed_push_witness :
  let world := Sample.scenario (Sample.clean 2 3) ["origin/main"%string] "rebase"
                 (Sample.always tt) (Sample.failing "remote: permission denied")
                 (Sample.always tt) in
  outcome (handleDiverged world (Fixture.state (Sample.clean 2 3)) Sample.options) []
  = Thrown (newError "remote: permission denied").
Proof.
  intro world.
  destruct (proj2 (handleDiverged_failed_push world (Fixture.state (Sample.clean 2 3))
                     Sample.options [])
              "origin"%string "main"%string (newError "remote: permission denied"))
    as (integration & _ & _ & Ho).
  - vm_compute. do 7 right. left. reflexivity.
  - rewrite Ho. reflexivity.
Defined.
